(** * Users/Tasks REST service: consistency of the two collections

    A shallow embedding of the two route files (users and tasks) and of
    the two Mongoose schemas, followed by the properties of the
    bidirectional link between a task's [assignedUser] and a user's
    [pendingTasks].

    Modelling conventions.
    - A collection is a finite map from the document's [_id], rendered as
      [_id.toString()] renders it, to the remaining fields.  Strings are
      sequences of bytes (the UTF-8 encoding of the JavaScript string).
    - What the routes use of the platform is an interface ([Platform]):
      JavaScript's [toLowerCase] and [trim], and the driver's cast of a
      string to ObjectId.  A request may spell an id in any way the cast
      accepts; the routes store some strings as the caller spelled them
      ([assignedUser] of a task) and others as the driver renders them.
    - Every store call made with [{ session }] acts on the transaction's
      view; only [commitTransaction] publishes the view.
    - Any store call may fail: the environment of a request says which call
      (counted from 0) raises which error. *)

From stdpp Require Import base option list gmap strings fin_maps.
From Stdlib Require Import ZArith Lia.

Local Open Scope string_scope.

(** ** Schemas (models/user.js, models/task.js) *)

Module User.
Record doc := mk
  { name : string;
    email : string;
    pendingTasks : list string;
    dateCreated : Z }.
End User.

Module Task.
Record doc := mk
  { name : string;
    description : string;
    deadline : Z;
    completed : bool;
    assignedUser : string;
    assignedUserName : string;
    dateCreated : Z }.
End Task.

(** The database: both collections and the driver's ObjectId counter. *)
Record Store := mkStore
  { users : gmap string User.doc;
    tasks : gmap string Task.doc;
    next_oid : N }.

Definition empty_store : Store :=
  {| users := ∅; tasks := ∅; next_oid := 0 |}.

(** ** ObjectIds *)

Definition hex_digit (n : N) : Ascii.ascii :=
  Ascii.ascii_of_N (if (n <? 10)%N then 48 + n else 87 + n).

(** The last [digits] hexadecimal digits of [n], in lower case. *)
Fixpoint hex_of (digits : nat) (n : N) : string :=
  match digits with
  | O => ""
  | S k => hex_of k (n / 16) +:+ String (hex_digit (n `mod` 16)) ""
  end.

(** [new ObjectId().toString()]: the identifier the driver generates from
    its counter, always 24 lower-case hexadecimal digits. *)
Definition new_oid (n : N) : string := hex_of 24 (10 * 16 ^ 23 + n).

(** ** The platform *)

Class Platform := {
  (** [String.prototype.toLowerCase] *)
  toLowerCase : string → string;
  (** [String.prototype.trim] *)
  trim : string → string;
  (** The cast of a string to ObjectId, read back through [toString()];
      [None] when the cast throws (Mongoose's [CastError]). *)
  castObjectId : string → option string }.

(** What is assumed of the cast: the rendering of an ObjectId casts to
    itself, the empty string does not cast, and a generated id is such a
    rendering. *)
Class PlatformLaws (platform : Platform) : Prop := {
  cast_canonical : ∀ s c, castObjectId s = Some c → castObjectId c = Some c;
  cast_empty : castObjectId "" = None;
  cast_new_oid : ∀ n, castObjectId (new_oid n) = Some (new_oid n) }.

(** ** Errors raised by the store layer *)

Inductive StoreError :=
  | CastError        (* err.name === 'CastError' *)
  | DuplicateKey     (* err.code === 11000 *)
  | ValidationError
  | OtherError.      (* write conflict, network failure, TypeError, ... *)

(** ** The transaction monad *)

Record Env := mkEnv
  { now : Z;                              (* Date.now() *)
    faults : nat → option StoreError }.   (* which store call fails *)

Record Session := mkSession
  { durable : Store;      (* what is committed *)
    view : Store;         (* what the calls made with this session see *)
    calls : nat;          (* store calls made so far *)
    commit_called : bool  (* commitTransaction was called on the transaction *) }.

Definition Txn (A : Type) : Type :=
  Env → Session → (StoreError + A) * Session.

Definition ret {A} (a : A) : Txn A := λ _ σ, (inr a, σ).

Definition throw {A} (e : StoreError) : Txn A := λ _ σ, (inl e, σ).

Definition bind {A B} (m : Txn A) (k : A → Txn B) : Txn B :=
  λ env σ,
    match m env σ with
    | (inl e, σ') => (inl e, σ')
    | (inr a, σ') => k a env σ'
    end.

(** [try { m } catch (err) { h err }] *)
Definition try_catch {A} (m : Txn A) (h : StoreError → Txn A) : Txn A :=
  λ env σ,
    match m env σ with
    | (inl e, σ') => h e env σ'
    | (inr a, σ') => (inr a, σ')
    end.

Notation "x <- m ;; k" := (bind m (λ x, k))
  (at level 100, m at next level, right associativity).
Notation "m ;;; k" := (bind m (λ _, k))
  (at level 100, right associativity).

Definition get_now : Txn Z := λ env σ, (inr (now env), σ).

Definition get_view : Txn Store := λ _ σ, (inr (view σ), σ).

Definition put_view (s : Store) : Txn unit :=
  λ _ σ, (inr tt, {| durable := durable σ; view := s; calls := calls σ;
                     commit_called := commit_called σ |}).

(** One round trip to the store: it is here that an injected failure
    surfaces. *)
Definition store_call : Txn unit :=
  λ env σ,
    let σ' := {| durable := durable σ; view := view σ; calls := S (calls σ);
                 commit_called := commit_called σ |} in
    match faults env (calls σ) with
    | Some e => (inl e, σ')
    | None => (inr tt, σ')
    end.

Definition startTransaction : Txn unit :=
  λ _ σ, (inr tt, {| durable := durable σ; view := durable σ; calls := calls σ;
                     commit_called := false |}).

(** [session.commitTransaction()]: the session notes the call, then the
    commit makes its round trip; a commit that fails publishes nothing. *)
Definition commitTransaction : Txn unit :=
  (λ _ σ, (inr tt, {| durable := durable σ; view := view σ; calls := calls σ;
                      commit_called := true |})) ;;;
  store_call ;;;
  λ _ σ, (inr tt, {| durable := view σ; view := view σ; calls := calls σ;
                     commit_called := true |}).

(** [session.abortTransaction()]: the driver ignores what the server
    answers to an abort, but it throws when [commitTransaction] was already
    called on the transaction. *)
Definition abortTransaction : Txn unit :=
  λ _ σ,
    if commit_called σ then (inl OtherError, σ)
    else (inr tt, {| durable := durable σ; view := durable σ; calls := calls σ;
                     commit_called := false |}).

Definition set_users (f : gmap string User.doc → gmap string User.doc) : Txn unit :=
  s <- get_view ;;
  put_view {| users := f (users s); tasks := tasks s; next_oid := next_oid s |}.

Definition set_tasks (f : gmap string Task.doc → gmap string Task.doc) : Txn unit :=
  s <- get_view ;;
  put_view {| users := users s; tasks := f (tasks s); next_oid := next_oid s |}.

(** [new ObjectId()] *)
Definition fresh_oid : Txn string :=
  s <- get_view ;;
  put_view {| users := users s; tasks := tasks s; next_oid := N.succ (next_oid s) |} ;;;
  ret (new_oid (next_oid s)).

(** ** Updates of one document and of a collection *)

Definition assign (uid uname : string) (t : Task.doc) : Task.doc :=
  {| Task.name := Task.name t;
     Task.description := Task.description t;
     Task.deadline := Task.deadline t;
     Task.completed := Task.completed t;
     Task.assignedUser := uid;
     Task.assignedUserName := uname;
     Task.dateCreated := Task.dateCreated t |}.

Definition set_pendingTasks (l : list string) (u : User.doc) : User.doc :=
  {| User.name := User.name u;
     User.email := User.email u;
     User.pendingTasks := l;
     User.dateCreated := User.dateCreated u |}.

(** [$pull: { pendingTasks: tid }] *)
Definition pull (tid : string) (l : list string) : list string :=
  filter (λ p, p ≠ tid) l.

(** [$pull: { pendingTasks: { $in: ids } }] *)
Definition pull_in (ids : list string) (l : list string) : list string :=
  filter (λ p, p ∉ ids) l.

(** [$addToSet: { pendingTasks: tid }] *)
Definition addToSet (tid : string) (l : list string) : list string :=
  if bool_decide (tid ∈ l) then l else l ++ [tid].

(** Is there a user, other than [except], whose stored email is [e]? *)
Definition email_in_use (e : string) (except : option string)
    (m : gmap string User.doc) : bool :=
  bool_decide (Exists (λ kv, User.email kv.2 = e ∧ Some kv.1 ≠ except) (map_to_list m)).

(** The ids that [Task.find({ _id: { $in: ids }, completed: false })
    .distinct('_id')] returns. *)
Definition open_tasks_among (ids : list string) (m : gmap string Task.doc)
    : list string :=
  (map_to_list (filter (λ kv, kv.1 ∈ ids ∧ Task.completed kv.2 = false) m)).*1.

(** [Task.updateMany({ _id: { $in: ids } },
                     { assignedUser: uid, assignedUserName: uname })] *)
Definition assign_in (ids : list string) (uid uname : string)
    (m : gmap string Task.doc) : gmap string Task.doc :=
  map_imap (λ k t, Some (if bool_decide (k ∈ ids) then assign uid uname t else t)) m.

(** [Task.updateMany({ assignedUser: uid, completed: false },
                     { assignedUser: '', assignedUserName: 'unassigned' })]:
    [assignedUser] is a string field and is compared as a string. *)
Definition unassign_open (uid : string) (m : gmap string Task.doc)
    : gmap string Task.doc :=
  (λ t, if bool_decide (Task.assignedUser t = uid) && negb (Task.completed t)
        then assign "" "unassigned" t else t) <$> m.

(** [User.updateMany({ _id: { $ne: self }, pendingTasks: { $in: ids } },
                     { $pull: { pendingTasks: { $in: ids } } })] *)
Definition pull_from_others (self : string) (ids : list string)
    (m : gmap string User.doc) : gmap string User.doc :=
  map_imap (λ k u,
    Some (if bool_decide (k ≠ self)
             && bool_decide (Exists (λ p, p ∈ ids) (User.pendingTasks u))
          then set_pendingTasks (pull_in ids (User.pendingTasks u)) u
          else u)) m.

(** ** Requests and responses *)

Inductive JsValue :=
  | JsUndefined
  | JsBool (b : bool)
  | JsString (s : string)
  | JsOther.           (* null, a number, an object *)

(** A date-valued field of a request body. *)
Inductive DateField :=
  | DateMissing            (* absent or falsy *)
  | DateInvalid            (* truthy, but the cast to Date fails *)
  | DateValue (z : Z).

(** [req.body] of the users routes; a field is [None] when it is absent
    ([pendingTasks]: when it is not an array). *)
Module UserBody.
Record t := mk
  { name : option string;
    email : option string;
    pendingTasks : option (list string);
    dateCreated : option Z }.
End UserBody.

(** [req.body] of the tasks routes. *)
Module TaskBody.
Record t := mk
  { name : option string;
    description : option string;
    deadline : DateField;
    assignedUser : option string;
    assignedUserName : option string;
    completed : JsValue;
    dateCreated : option Z }.
End TaskBody.

Inductive Payload :=
  | EmptyObject                            (* data: {} *)
  | Null                                   (* data: null *)
  | NoContent                              (* res.status(204).end() *)
  | UserDoc (id : string) (u : User.doc)
  | TaskDoc (id : string) (t : Task.doc).

Record Response := respond
  { status : nat;
    message : string;
    data : Payload }.

(** JavaScript truthiness of a string-valued field. *)
Definition truthy (v : option string) : bool :=
  match v with
  | Some s => negb (bool_decide (s = ""))
  | None => false
  end.

(** [v || ''], also the destructuring default [= ''] *)
Definition or_empty (v : option string) : string := default "" v.

Inductive Request :=
  | PostUser (b : UserBody.t)
  | PutUser (id : string) (b : UserBody.t)
  | DeleteUser (id : string)
  | PostTask (b : TaskBody.t)
  | PutTask (id : string) (b : TaskBody.t)
  | DeleteTask (id : string).

Definition open_session (s : Store) : Session :=
  {| durable := s; view := s; calls := 0; commit_called := false |}.

(** An environment in which no store call fails. *)
Definition calm (t : Z) : Env := {| now := t; faults := λ _, None |}.

(** An environment in which store call number [k] fails with [e]. *)
Definition failing (t : Z) (k : nat) (e : StoreError) : Env :=
  {| now := t; faults := λ i, if bool_decide (i = k) then Some e else None |}.

Definition is_success (r : Response) : bool :=
  bool_decide (status r = 200 ∨ status r = 201 ∨ status r = 204).

(** Did the handler answer, and with a success status?  It has not
    answered ([None]) when it threw. *)
Definition succeeded (o : option Response) : bool :=
  match o with
  | Some r => is_success r
  | None => false
  end.

Section Routes.
Context {platform : Platform}.

(** Schema setters of [email]: [lowercase: true, trim: true] *)
Definition email_setter (s : string) : string := trim (toLowerCase s).

(** Coerce typical "true"/"false" strings coming from urlencoded form. *)
Definition toBoolean (v : JsValue) (fallback : bool) : bool :=
  match v with
  | JsBool b => b
  | JsString v =>
      let s := trim (toLowerCase v) in
      if bool_decide (s = "true") then true
      else if bool_decide (s = "false") then false
      else fallback
  | _ => fallback
  end.

(** ** Store calls used by the routes

    Each definition is the Mongoose call named in its comment, made with
    [{ session }].  A string given where the schema has an ObjectId is cast
    before the round trip; a document is returned with its [_id]. *)

Definition cast_oid (s : string) : Txn string :=
  match castObjectId s with
  | Some oid => ret oid
  | None => throw CastError
  end.

(** [User.findById(id).session(session)] *)
Definition User_findById (id : string) : Txn (option (string * User.doc)) :=
  oid <- cast_oid id ;;
  store_call ;;;
  s <- get_view ;;
  ret ((λ u, (oid, u)) <$> users s !! oid).

(** [User.findOne({ email, _id: { $ne: except } }).session(session)]; the
    routes only test the result for truthiness.  The filter value goes
    through the schema's setters. *)
Definition User_findOne_email (e : string) (except : option string) : Txn bool :=
  ne <- (match except with
         | Some id => oid <- cast_oid id ;; ret (Some oid)
         | None => ret None
         end) ;;
  store_call ;;;
  s <- get_view ;;
  ret (email_in_use (email_setter e) ne (users s)).

(** [User.create([{ name, email, pendingTasks }], { session })]: the
    document gets its [_id], the schema validates it ([required] on name
    and email, after the setters), then the insert, on which the unique
    indexes on [_id] and [email] are enforced. *)
Definition User_create (name email : string) (pendingTasks : list string)
    : Txn (string * User.doc) :=
  let e := email_setter email in
  id <- fresh_oid ;;
  if bool_decide (name = "") || bool_decide (e = "") then throw ValidationError
  else
    store_call ;;;
    s <- get_view ;;
    if email_in_use e None (users s) then throw DuplicateKey
    else
      match users s !! id with
      | Some _ => throw DuplicateKey
      | None =>
          t <- get_now ;;
          let u := {| User.name := name; User.email := e;
                      User.pendingTasks := pendingTasks; User.dateCreated := t |} in
          set_users (insert id u) ;;;
          ret (id, u)
      end.

(** [Task.find({ _id: { $in: ids }, completed: false }).session(session)
    .distinct('_id')] *)
Definition Task_find_distinct_id (ids : list string) : Txn (list string) :=
  match mapM castObjectId ids with
  | Some oids =>
      store_call ;;;
      s <- get_view ;;
      ret (open_tasks_among oids (tasks s))
  | None => throw CastError
  end.

Definition Task_updateMany_in (ids : list string) (uid uname : string) : Txn unit :=
  store_call ;;;
  set_tasks (assign_in ids uid uname).

Definition Task_updateMany_unassign (uid : string) : Txn unit :=
  store_call ;;;
  set_tasks (unassign_open uid).

Definition User_updateMany_pull (self : string) (ids : list string) : Txn unit :=
  store_call ;;;
  set_users (pull_from_others self ids).

(** [User.findByIdAndUpdate(user._id, { pendingTasks: l }, { session })] *)
Definition User_findByIdAndUpdate_pendingTasks (uid : string) (l : list string)
    : Txn unit :=
  store_call ;;;
  set_users (alter (set_pendingTasks l) uid).

(** [User.findByIdAndUpdate(id, { name, email, pendingTasks, dateCreated },
                            { new: true, overwrite: true, session })] *)
Definition User_findByIdAndUpdate_overwrite (id : string) (u : User.doc)
    : Txn (option (string * User.doc)) :=
  oid <- cast_oid id ;;
  let u' := {| User.name := User.name u; User.email := email_setter (User.email u);
               User.pendingTasks := User.pendingTasks u;
               User.dateCreated := User.dateCreated u |} in
  store_call ;;;
  s <- get_view ;;
  match users s !! oid with
  | None => ret None
  | Some _ =>
      if email_in_use (User.email u') (Some oid) (users s) then throw DuplicateKey
      else set_users (insert oid u') ;;; ret (Some (oid, u'))
  end.

(** [User.findByIdAndUpdate(id, { $addToSet: { pendingTasks: tid } })] and
    [User.updateOne({ _id: id }, { $addToSet: { pendingTasks: tid } })] *)
Definition User_addToSet_pendingTasks (id tid : string) : Txn unit :=
  oid <- cast_oid id ;;
  store_call ;;;
  set_users (alter (λ u, set_pendingTasks (addToSet tid (User.pendingTasks u)) u) oid).

(** [User.updateOne({ _id: id }, { $pull: { pendingTasks: tid } })] *)
Definition User_pull_pendingTasks (id tid : string) : Txn unit :=
  oid <- cast_oid id ;;
  store_call ;;;
  set_users (alter (λ u, set_pendingTasks (pull tid (User.pendingTasks u)) u) oid).

(** [User.deleteOne({ _id: u._id }, { session })] *)
Definition User_deleteOne (uid : string) : Txn unit :=
  store_call ;;;
  set_users (delete uid).

(** [Task.findById(id).session(session)] *)
Definition Task_findById (id : string) : Txn (option (string * Task.doc)) :=
  oid <- cast_oid id ;;
  store_call ;;;
  s <- get_view ;;
  ret ((λ t, (oid, t)) <$> tasks s !! oid).

(** [Task.create([{ name, description, deadline, completed, assignedUser,
                    assignedUserName }], { session })] *)
Definition Task_create (name description : string) (deadline : Z)
    (completed : bool) (assignedUser assignedUserName : string)
    : Txn (string * Task.doc) :=
  id <- fresh_oid ;;
  if bool_decide (name = "") then throw ValidationError
  else
    store_call ;;;
    s <- get_view ;;
    match tasks s !! id with
    | Some _ => throw DuplicateKey
    | None =>
        t <- get_now ;;
        let d := {| Task.name := name; Task.description := description;
                    Task.deadline := deadline; Task.completed := completed;
                    Task.assignedUser := assignedUser;
                    Task.assignedUserName := assignedUserName;
                    Task.dateCreated := t |} in
        set_tasks (insert id d) ;;;
        ret (id, d)
    end.

(** [Task.findByIdAndUpdate(id, { ... }, { new: true, overwrite: true,
                            session })] *)
Definition Task_findByIdAndUpdate_overwrite (id : string) (d : Task.doc)
    : Txn (option (string * Task.doc)) :=
  oid <- cast_oid id ;;
  store_call ;;;
  s <- get_view ;;
  match tasks s !! oid with
  | None => ret None
  | Some _ => set_tasks (insert oid d) ;;; ret (Some (oid, d))
  end.

(** [Task.deleteOne({ _id: t._id }, { session })] *)
Definition Task_deleteOne (tid : string) : Txn unit :=
  store_call ;;;
  set_tasks (delete tid).

(** ** The users routes *)

(** POST /api/users *)
Definition users_post (b : UserBody.t) : Txn Response :=
  startTransaction ;;;
  try_catch
    (let name := or_empty (UserBody.name b) in
     let email := or_empty (UserBody.email b) in
     let pendingTasks := UserBody.pendingTasks b in
     if negb (truthy (UserBody.name b)) || negb (truthy (UserBody.email b)) then
       abortTransaction ;;;
       ret (respond 400 "Missing required fields" EmptyObject)
     else
       dup <- User_findOne_email email None ;;
       if dup : bool then
         abortTransaction ;;;
         ret (respond 400 "Email already exists" EmptyObject)
       else
         created <- User_create name email (default [] pendingTasks) ;;
         let uid := created.1 in
         let user := created.2 in
         validTasks <-
           (match pendingTasks with
            | Some ((_ :: _) as l) => Task_find_distinct_id l
            | _ => ret []
            end) ;;
         (match validTasks with
          | _ :: _ =>
              Task_updateMany_in validTasks uid (User.name user) ;;;
              User_updateMany_pull uid validTasks ;;;
              User_findByIdAndUpdate_pendingTasks uid validTasks
          | [] => User_findByIdAndUpdate_pendingTasks uid []
          end) ;;;
         commitTransaction ;;;
         ret (respond 201 "User created"
                (UserDoc uid (set_pendingTasks validTasks user))))
    (λ err,
       abortTransaction ;;;
       ret (respond 500 "Server error" EmptyObject)).

(** PUT /api/users/:id *)
Definition users_put (id : string) (b : UserBody.t) : Txn Response :=
  startTransaction ;;;
  try_catch
    (found <- User_findById id ;;
     match found with
     | None =>
         abortTransaction ;;;
         ret (respond 404 "User not found" EmptyObject)
     | Some (uid, user) =>         (* uid: user._id.toString() *)
         let name := or_empty (UserBody.name b) in
         let email := or_empty (UserBody.email b) in
         match UserBody.pendingTasks b with
         | Some pendingTasks =>
             if negb (truthy (UserBody.name b)) || negb (truthy (UserBody.email b)) then
               abortTransaction ;;;
               ret (respond 400 "Missing required fields" EmptyObject)
             else
               dup <- User_findOne_email email (Some id) ;;
               if dup : bool then
                 abortTransaction ;;;
                 ret (respond 400 "Email already exists" EmptyObject)
               else
                 let originalDateCreated := User.dateCreated user in
                 Task_updateMany_unassign uid ;;;
                 validTasks <-
                   (match pendingTasks with
                    | _ :: _ => Task_find_distinct_id pendingTasks
                    | [] => ret []
                    end) ;;
                 (match validTasks with
                  | _ :: _ =>
                      Task_updateMany_in validTasks uid name ;;;
                      User_updateMany_pull uid validTasks
                  | [] => ret tt
                  end) ;;;
                 updated <- User_findByIdAndUpdate_overwrite id
                   {| User.name := name; User.email := email;
                      User.pendingTasks := validTasks;
                      User.dateCreated := originalDateCreated |} ;;
                 commitTransaction ;;;
                 ret (respond 200 "User updated"
                        (match updated with
                         | Some (oid, u) => UserDoc oid u
                         | None => Null
                         end))
         | None =>
             abortTransaction ;;;
             ret (respond 400 "Missing required fields" EmptyObject)
         end
     end)
    (λ err,
       abortTransaction ;;;
       match err with
       | CastError => ret (respond 404 "User not found" EmptyObject)
       | DuplicateKey => ret (respond 400 "Email already exists" EmptyObject)
       | _ => ret (respond 500 "Server error" EmptyObject)
       end).

(** DELETE /api/users/:id *)
Definition users_delete (id : string) : Txn Response :=
  startTransaction ;;;
  try_catch
    (found <- User_findById id ;;
     match found with
     | None =>
         abortTransaction ;;;
         ret (respond 404 "User not found" EmptyObject)
     | Some (uid, u) =>
         Task_updateMany_unassign uid ;;;
         User_deleteOne uid ;;;
         commitTransaction ;;;
         ret (respond 204 "" NoContent)
     end)
    (λ err,
       abortTransaction ;;;
       match err with
       | CastError => ret (respond 404 "User not found" EmptyObject)
       | _ => ret (respond 500 "Server error" EmptyObject)
       end).

(** ** The tasks routes *)

(** Resolve the assignee of a task: the id kept, as the caller spelled it,
    and the name cached. *)
Definition resolve_assignee (assignedUser : option string) : Txn (string * string) :=
  let assignedUserId := or_empty assignedUser in
  if bool_decide (assignedUserId = "") then ret ("", "unassigned")
  else
    u <- User_findById assignedUserId ;;
    match u with
    | Some (_, u) => ret (assignedUserId, User.name u)
    | None => ret ("", "unassigned")   (* invalid user id -> treat as unassigned *)
    end.

(** POST /api/tasks *)
Definition tasks_post (b : TaskBody.t) : Txn Response :=
  startTransaction ;;;
  try_catch
    (let name := or_empty (TaskBody.name b) in
     let description := or_empty (TaskBody.description b) in
     match TaskBody.deadline b with
     | DateMissing =>
         abortTransaction ;;;
         ret (respond 400 "Missing required fields" EmptyObject)
     | deadline =>
         if negb (truthy (TaskBody.name b)) then
           abortTransaction ;;;
           ret (respond 400 "Missing required fields" EmptyObject)
         else
           let completedBool := toBoolean (TaskBody.completed b) false in
           resolved <- resolve_assignee (TaskBody.assignedUser b) ;;
           let assignedUserId := resolved.1 in
           let assignedUserNameFinal := resolved.2 in
           created <-
             (match deadline with
              | DateValue d =>
                  Task_create name description d completedBool assignedUserId
                    (if bool_decide (assignedUserId = "") then "unassigned"
                     else assignedUserNameFinal)
              | _ => throw ValidationError
              end) ;;
           let tid := created.1 in
           (if negb (bool_decide (assignedUserId = "")) && negb completedBool then
              User_addToSet_pendingTasks assignedUserId tid
            else ret tt) ;;;
           commitTransaction ;;;
           ret (respond 201 "Task created" (TaskDoc tid created.2))
     end)
    (λ err,
       abortTransaction ;;;
       ret (respond 500 "Server error" EmptyObject)).

(** PUT /api/tasks/:id *)
Definition tasks_put (id : string) (b : TaskBody.t) : Txn Response :=
  startTransaction ;;;
  try_catch
    (found <- Task_findById id ;;
     match found with
     | None =>
         abortTransaction ;;;
         ret (respond 404 "Task not found" EmptyObject)
     | Some (_, cur) =>
         let name := or_empty (TaskBody.name b) in
         let description := or_empty (TaskBody.description b) in
         match TaskBody.deadline b, TaskBody.completed b with
         | DateMissing, _ | _, JsUndefined =>
             abortTransaction ;;;
             ret (respond 400 "Missing required fields" EmptyObject)
         | deadline, completed =>
             if negb (truthy (TaskBody.name b)) then
               abortTransaction ;;;
               ret (respond 400 "Missing required fields" EmptyObject)
             else
               let completedBool := toBoolean completed false in
               resolved <- resolve_assignee (TaskBody.assignedUser b) ;;
               let newAssignee := resolved.1 in
               let newAssigneeName := resolved.2 in
               let prevAssignee := Task.assignedUser cur in
               updated <-
                 (match deadline with
                  | DateValue d =>
                      Task_findByIdAndUpdate_overwrite id
                        {| Task.name := name;
                           Task.description := description;
                           Task.deadline := d;
                           Task.completed := completedBool;
                           Task.assignedUser := newAssignee;
                           Task.assignedUserName :=
                             (if bool_decide (newAssignee = "") then "unassigned"
                              else newAssigneeName);
                           Task.dateCreated := Task.dateCreated cur |}
                  | _ => throw CastError
                  end) ;;
               (* updated._id.toString(); a TypeError when updated is null *)
               let updated_id : Txn string :=
                 match updated with
                 | Some (tid, _) => ret tid
                 | None => throw OtherError
                 end in
               (if negb (bool_decide (prevAssignee = ""))
                   && negb (bool_decide (prevAssignee = newAssignee)) then
                  tid <- updated_id ;;
                  User_pull_pendingTasks prevAssignee tid
                else ret tt) ;;;
               (if negb (bool_decide (newAssignee = "")) then
                  tid <- updated_id ;;
                  if completedBool then User_pull_pendingTasks newAssignee tid
                  else User_addToSet_pendingTasks newAssignee tid
                else ret tt) ;;;
               commitTransaction ;;;
               ret (respond 200 "Task updated"
                      (match updated with
                       | Some (tid, upd) => TaskDoc tid upd
                       | None => Null
                       end))
         end
     end)
    (λ err,
       abortTransaction ;;;
       match err with
       | CastError => ret (respond 404 "Task not found" EmptyObject)
       | _ => ret (respond 500 "Server error" EmptyObject)
       end).

(** DELETE /api/tasks/:id *)
Definition tasks_delete (id : string) : Txn Response :=
  startTransaction ;;;
  try_catch
    (found <- Task_findById id ;;
     match found with
     | None =>
         abortTransaction ;;;
         ret (respond 404 "Task not found" EmptyObject)
     | Some (tid, t) =>            (* tid: t._id.toString() *)
         (if negb (bool_decide (Task.assignedUser t = "")) then
            User_pull_pendingTasks (Task.assignedUser t) tid
          else ret tt) ;;;
         Task_deleteOne tid ;;;
         commitTransaction ;;;
         ret (respond 204 "" NoContent)
     end)
    (λ err,
       abortTransaction ;;;
       match err with
       | CastError => ret (respond 404 "Task not found" EmptyObject)
       | _ => ret (respond 500 "Server error" EmptyObject)
       end).

(** ** Requests as state transformers *)

Definition route (r : Request) : Txn Response :=
  match r with
  | PostUser b => users_post b
  | PutUser id b => users_put id b
  | DeleteUser id => users_delete id
  | PostTask b => tasks_post b
  | PutTask id b => tasks_put id b
  | DeleteTask id => tasks_delete id
  end.

(** Serve one request against the committed store [s]: the response the
    handler sent ([None] when it threw instead of answering) and the store
    committed when the request completes. *)
Definition serve (env : Env) (r : Request) (s : Store) : option Response * Store :=
  match route r env (open_session s) with
  | (inr resp, σ) => (Some resp, durable σ)
  | (inl _, σ) => (None, durable σ)
  end.

(** Serve a sequence of requests, each in its own environment. *)
Fixpoint serve_all (rs : list (Env * Request)) (s : Store) : Store :=
  match rs with
  | [] => s
  | (env, r) :: rs' => serve_all rs' (serve env r s).2
  end.

End Routes.

(** ** The read-only routes

    The query string is kept as the raw text of each parameter.
    [JSON.parse], JavaScript's truthiness of a parsed value and the unary
    [+] on a string are one interface; what Mongoose and the store make of
    a parsed filter, sort or projection is another, one per collection. *)

Module Query.
Record t := mk
  { where_ : option string;
    sort : option string;
    select : option string;
    filter : option string;   (* alias of select *)
    skip : option string;
    limit : option string;
    count : option string }.
End Query.

Inductive ReadData (json D : Type) :=
  | Rows (select : option json) (rows : list (string * D))
  | Doc (select : option json) (id : string) (d : D)
  | Count (n : nat)
  | Nothing.                               (* data: {} *)
Arguments Rows {json D}.
Arguments Doc {json D}.
Arguments Count {json D}.
Arguments Nothing {json D}.

Record ReadResponse (json D : Type) := read_respond
  { read_status : nat;
    read_message : string;
    read_data : ReadData json D }.
Arguments read_respond {json D}.
Arguments read_status {json D}.
Arguments read_message {json D}.
Arguments read_data {json D}.

Class JsonText (json : Type) := {
  (** [JSON.parse]; [None] when it throws. *)
  JSON_parse : string → option json;
  (** Truthiness of a parsed value, as in [where || {}] and [if (sort)]. *)
  js_truthy : json → bool;
  (** [+raw] when [Number.isFinite(+raw)], as an integer. *)
  to_number : string → option Z }.

(** What becomes of a parsed value handed to the query builder. *)
Inductive Verdict :=
  | Accepted
  | Thrown       (* the builder call throws *)
  | Refused.     (* the query is built; running it fails *)

Class QueryEngine (json D : Type) := {
  (** [Model.find(v)], [q.sort(v)], [q.select(v)] for a truthy [v] *)
  find_verdict : json → Verdict;
  sort_verdict : json → Verdict;
  select_verdict : json → Verdict;
  (** Does [Model.countDocuments(v)] run, for a truthy [v]? *)
  count_runs : json → bool;
  (** Does a document satisfy a filter ([None]: the empty filter [{}])? *)
  matches : option json → string → D → bool;
  (** The order [q.sort(v)] asks for. *)
  sort_rows : json → list (string * D) → list (string * D) }.

Section ReadRoutes.
Context {platform : Platform} {json : Type} {text : JsonText json}.

Definition parseJSONQueryParam (primary alias : option string)
    : option (option json) :=     (* outer [None]: BAD_JSON thrown *)
  match (match primary with Some raw => Some raw | None => alias end) with
  | None => Some None
  | Some raw =>
      match JSON_parse raw with
      | Some j => Some (Some j)
      | None => None
      end
  end.

(** The number a raw parameter denotes: [+raw] when [Number.isFinite(+raw)];
    [+undefined] is NaN. *)
Definition numeric (raw : option string) : option Z :=
  match raw with
  | Some r => to_number r
  | None => None
  end.

(** [Number.isFinite(+raw) ? +raw : dflt] *)
Definition finite_or (raw : option string) (dflt : Z) : Z :=
  default dflt (numeric raw).

(** [String(raw).toLowerCase() === 'true'] *)
Definition count_flag (raw : option string) : bool :=
  bool_decide (toLowerCase (default "undefined" raw) = "true").

(** [v || {}] and the guards [if (v)] on a parsed parameter. *)
Definition if_truthy (v : option json) : option json :=
  match v with
  | Some j => if js_truthy j then Some j else None
  | None => None
  end.

(** The verdict on an optional parameter: nothing is handed to the builder
    when the parameter is absent or falsy. *)
Definition verdict_of (verdict : json → Verdict) (v : option json) : Verdict :=
  match if_truthy v with
  | Some j => verdict j
  | None => Accepted
  end.

Definition thrown (v : Verdict) : bool :=
  match v with Thrown => true | _ => false end.

Definition accepted (v : Verdict) : bool :=
  match v with Accepted => true | _ => false end.

(** [if (skip) q = q.skip(skip)] *)
Definition skip_rows {D} (skip : Z) (l : list D) : list D :=
  if (skip =? 0)%Z then l else drop (Z.to_nat skip) l.

(** [if (limit) q = q.limit(limit)]; the server reads a negative limit as
    its absolute value. *)
Definition limit_rows {D} (limit : Z) (l : list D) : list D :=
  if (limit =? 0)%Z then l else take (Z.abs_nat limit) l.

Section Listing.
Context {D : Type} {engine : QueryEngine json D}.

(** [if (sort) q = q.sort(sort)] *)
Definition sorted_by (sort : option json) (found : list (string * D))
    : list (string * D) :=
  match if_truthy sort with
  | Some j => sort_rows j found
  | None => found
  end.

Definition matching (where_ : option json) (m : gmap string D)
    : list (string * D) :=
  base.filter (λ kv, matches (if_truthy where_) kv.1 kv.2 = true) (map_to_list m).

(** Does one of the builder calls [Model.find(where || {})], [q.sort(sort)],
    [q.select(select)] throw? *)
Definition builder_throws (where_ sort select : option json) : bool :=
  thrown (verdict_of find_verdict where_)
  || thrown (verdict_of sort_verdict sort)
  || thrown (verdict_of select_verdict select).

(** [q.exec()] of the query built: it fails when the store refuses the
    filter, the sort or the projection, and on a negative skip. *)
Definition exec_query (m : gmap string D) (where_ sort select : option json)
    (skip limit : Z) : option (list (string * D)) :=
  if accepted (verdict_of find_verdict where_)
     && accepted (verdict_of sort_verdict sort)
     && accepted (verdict_of select_verdict select)
     && negb (skip <? 0)%Z
  then Some (limit_rows limit (skip_rows skip (sorted_by sort (matching where_ m))))
  else None.

(** [Model.countDocuments(where || {})] *)
Definition countDocuments (m : gmap string D) (where_ : option json) : option nat :=
  match if_truthy where_ with
  | Some j => if count_runs j then Some (length (matching where_ m)) else None
  | None => Some (length (matching where_ m))
  end.

(** A listing from the point where the three JSON parameters are parsed:
    the query is built, then either counted or run. *)
Definition listing (m : gmap string D) (where_ sort select : option json)
    (skip limit : Z) (count : bool) : ReadResponse json D :=
  if builder_throws where_ sort select
  then read_respond 500 "Server error" Nothing
  else if count then
    match countDocuments m where_ with
    | Some c => read_respond 200 "OK" (Count c)
    | None => read_respond 500 "Server error" Nothing
    end
  else
    match exec_query m where_ sort select skip limit with
    | Some rows => read_respond 200 "OK" (Rows (if_truthy select) rows)
    | None => read_respond 500 "Server error" Nothing
    end.

(** [Model.findById(id).select(select || {})], awaited: the projection is
    handed to the builder first, the id is cast when the query runs. *)
Definition findById_select (m : gmap string D) (id : string)
    (select : option json) (not_found : string) : ReadResponse json D :=
  match verdict_of select_verdict select with
  | Thrown => read_respond 500 "Server error" Nothing
  | v =>
      match castObjectId id with
      | None => read_respond 404 not_found Nothing      (* CastError *)
      | Some oid =>
          if accepted v then
            match m !! oid with
            | Some d => read_respond 200 "OK" (Doc (if_truthy select) oid d)
            | None => read_respond 404 not_found Nothing
            end
          else read_respond 500 "Server error" Nothing
      end
  end.

End Listing.

Context {user_engine : QueryEngine json User.doc}
        {task_engine : QueryEngine json Task.doc}.

(** GET /api/users *)
Definition users_get_all (q : Query.t) (s : Store) : ReadResponse json User.doc :=
  match parseJSONQueryParam (Query.where_ q) None,
        parseJSONQueryParam (Query.sort q) None,
        parseJSONQueryParam (Query.select q) (Query.filter q) with
  | Some where_, Some sort, Some select =>
      let skip := finite_or (Query.skip q) 0 in
      let limit := finite_or (Query.limit q) 0 in
      let count := count_flag (Query.count q) in
      listing (users s) where_ sort select skip limit count
  | _, _, _ => read_respond 400 "Invalid query JSON" Nothing
  end.

(** GET /api/tasks; default limit = 100 for tasks listing. *)
Definition tasks_get_all (q : Query.t) (s : Store) : ReadResponse json Task.doc :=
  match parseJSONQueryParam (Query.where_ q) None,
        parseJSONQueryParam (Query.sort q) None,
        parseJSONQueryParam (Query.select q) (Query.filter q) with
  | Some where_, Some sort, Some select =>
      let skip := finite_or (Query.skip q) 0 in
      let limit := finite_or (Query.limit q) 100 in
      let count := count_flag (Query.count q) in
      listing (tasks s) where_ sort select skip limit count
  | _, _, _ => read_respond 400 "Invalid query JSON" Nothing
  end.

(** GET /api/users/:id *)
Definition users_get (id : string) (q : Query.t) (s : Store)
    : ReadResponse json User.doc :=
  match parseJSONQueryParam (Query.select q) (Query.filter q) with
  | Some select => findById_select (users s) id select "User not found"
  | None => read_respond 400 "Invalid select JSON" Nothing
  end.

(** GET /api/tasks/:id *)
Definition tasks_get (id : string) (q : Query.t) (s : Store)
    : ReadResponse json Task.doc :=
  match parseJSONQueryParam (Query.select q) (Query.filter q) with
  | Some select => findById_select (tasks s) id select "Task not found"
  | None => read_respond 400 "Invalid select JSON" Nothing
  end.

End ReadRoutes.

(** * Specification-level definitions *)

(** ** A weakest-precondition reading of the transaction monad *)

Definition wp {A} (m : Txn A) (env : Env) (σ : Session)
    (Φ : StoreError + A → Session → Prop) : Prop :=
  Φ (m env σ).1 (m env σ).2.

(** What a route guarantees when run on the committed store [s]: a handler
    that throws instead of answering does so after [commitTransaction] was
    called, the last store call made being the one that failed, and leaves
    the committed store as it was, as does a handler that answers without
    success; a success answer means that no store call failed and that the
    committed store is related to [s] by [Ψ]. *)
Definition txn_post (env : Env) (s : Store) (Ψ : Response → Store → Prop)
    (r : StoreError + Response) (σ : Session) : Prop :=
  match r with
  | inl _ =>
      durable σ = s ∧ commit_called σ = true ∧
      ∃ k e, calls σ = S k ∧ faults env k = Some e ∧
             ∀ j, (j < k)%nat → faults env j = None
  | inr resp =>
      (is_success resp = false ∧ durable σ = s) ∨
      (is_success resp = true ∧
       (∀ k, (k < calls σ)%nat → faults env k = None) ∧
       Ψ resp (durable σ))
  end.

Section Effects.
Context {platform : Platform}.

(** The number of store calls a request makes. *)
Definition calls_made (env : Env) (r : Request) (s : Store) : nat :=
  calls (route r env (open_session s)).2.

(** ** The committed effect of each successful request *)

(** The assignee a tasks route stores for the [assignedUser] it was given:
    the id kept, as the caller spelled it, and the name cached. *)
Definition resolved_assignee (assignedUser : option string) (s : Store)
    : string * string :=
  let a := or_empty assignedUser in
  if bool_decide (a = "") then ("", "unassigned")
  else
    match castObjectId a with
    | Some oid =>
        match users s !! oid with
        | Some u => (a, User.name u)
        | None => ("", "unassigned")
        end
    | None => ("", "unassigned")
    end.

(** The task document a tasks route writes for a payload. *)
Definition written_task (b : TaskBody.t) (s : Store) (deadline dateCreated : Z)
    : Task.doc :=
  {| Task.name := or_empty (TaskBody.name b);
     Task.description := or_empty (TaskBody.description b);
     Task.deadline := deadline;
     Task.completed := toBoolean (TaskBody.completed b) false;
     Task.assignedUser := (resolved_assignee (TaskBody.assignedUser b) s).1;
     Task.assignedUserName := (resolved_assignee (TaskBody.assignedUser b) s).2;
     Task.dateCreated := dateCreated |}.

(** An update of the user that the string [a] casts to. *)
Definition at_holder (a : string) (f : User.doc → User.doc)
    (m : gmap string User.doc) : gmap string User.doc :=
  match castObjectId a with
  | Some oid => alter f oid m
  | None => m
  end.

(** POST /api/tasks: the new task joins its assignee's pending list when it
    has an assignee and is not completed. *)
Definition link_new (a : string) (completed : bool) (tid : string)
    (m : gmap string User.doc) : gmap string User.doc :=
  if negb (bool_decide (a = "")) && negb completed
  then at_holder a (λ u, set_pendingTasks (addToSet tid (User.pendingTasks u)) u) m
  else m.

Definition tasks_post_effect (b : TaskBody.t) (env : Env) (s : Store)
    (resp : Response) (s' : Store) : Prop :=
  ∃ z,
    let tid := new_oid (next_oid s) in
    let d := written_task b s z (now env) in
    resp = respond 201 "Task created" (TaskDoc tid d) ∧
    TaskBody.deadline b = DateValue z ∧
    tasks s !! tid = None ∧
    s' =
      {| users := link_new (Task.assignedUser d) (Task.completed d) tid (users s);
         tasks := <[tid := d]> (tasks s);
         next_oid := N.succ (next_oid s) |}.

(** PUT /api/tasks/:id: pull from the previous assignee when the stored
    string differs from the new one, then pull from or add to the new
    assignee. *)
Definition unlink_prev (prev new_ tid : string) (m : gmap string User.doc)
    : gmap string User.doc :=
  if negb (bool_decide (prev = "")) && negb (bool_decide (prev = new_))
  then at_holder prev (λ u, set_pendingTasks (pull tid (User.pendingTasks u)) u) m
  else m.

Definition link_replaced (a : string) (completed : bool) (tid : string)
    (m : gmap string User.doc) : gmap string User.doc :=
  if negb (bool_decide (a = "")) then
    if completed
    then at_holder a (λ u, set_pendingTasks (pull tid (User.pendingTasks u)) u) m
    else at_holder a (λ u, set_pendingTasks (addToSet tid (User.pendingTasks u)) u) m
  else m.

Definition tasks_put_effect (id : string) (b : TaskBody.t) (s : Store)
    (resp : Response) (s' : Store) : Prop :=
  ∃ tid cur z,
    let d := written_task b s z (Task.dateCreated cur) in
    resp = respond 200 "Task updated" (TaskDoc tid d) ∧
    castObjectId id = Some tid ∧
    tasks s !! tid = Some cur ∧
    TaskBody.deadline b = DateValue z ∧
    s' =
      {| users := link_replaced (Task.assignedUser d) (Task.completed d) tid
                    (unlink_prev (Task.assignedUser cur) (Task.assignedUser d) tid
                       (users s));
         tasks := <[tid := d]> (tasks s);
         next_oid := next_oid s |}.

(** DELETE /api/tasks/:id: pull from the stored assignee, if any. *)
Definition unlink_deleted (a tid : string) (m : gmap string User.doc)
    : gmap string User.doc :=
  if negb (bool_decide (a = ""))
  then at_holder a (λ u, set_pendingTasks (pull tid (User.pendingTasks u)) u) m
  else m.

Definition tasks_delete_effect (id : string) (s : Store) (resp : Response)
    (s' : Store) : Prop :=
  ∃ tid t,
    resp = respond 204 "" NoContent ∧
    castObjectId id = Some tid ∧
    tasks s !! tid = Some t ∧
    s' =
      {| users := unlink_deleted (Task.assignedUser t) tid (users s);
         tasks := delete tid (tasks s);
         next_oid := next_oid s |}.

Definition users_delete_effect (id : string) (s : Store) (resp : Response)
    (s' : Store) : Prop :=
  ∃ uid u,
    resp = respond 204 "" NoContent ∧
    castObjectId id = Some uid ∧
    users s !! uid = Some u ∧
    s' =
      {| users := delete uid (users s);
         tasks := unassign_open uid (tasks s);
         next_oid := next_oid s |}.

(** The pending list a users route stores: without repetition, the ids
    that a requested string casts to and that name an existing task with
    [completed = false]. *)
Definition kept_of (requested : option (list string)) (s : Store)
    (valid : list string) : Prop :=
  NoDup valid ∧
  ∀ k, k ∈ valid ↔
       (∃ raw, raw ∈ default [] requested ∧ castObjectId raw = Some k) ∧
       ∃ t, tasks s !! k = Some t ∧ Task.completed t = false.

Definition users_post_effect (b : UserBody.t) (env : Env) (s : Store)
    (resp : Response) (s' : Store) : Prop :=
  ∃ valid,
    let uid := new_oid (next_oid s) in
    let u := {| User.name := or_empty (UserBody.name b);
                User.email := email_setter (or_empty (UserBody.email b));
                User.pendingTasks := valid;
                User.dateCreated := now env |} in
    resp = respond 201 "User created" (UserDoc uid u) ∧
    users s !! uid = None ∧
    or_empty (UserBody.name b) ≠ "" ∧
    email_in_use (User.email u) None (users s) = false ∧
    kept_of (UserBody.pendingTasks b) s valid ∧
    s' =
      {| users := <[uid := u]> (pull_from_others uid valid (users s));
         tasks := assign_in valid uid (or_empty (UserBody.name b)) (tasks s);
         next_oid := N.succ (next_oid s) |}.

Definition users_put_effect (id : string) (b : UserBody.t) (s : Store)
    (resp : Response) (s' : Store) : Prop :=
  ∃ uid user valid,
    let u' := {| User.name := or_empty (UserBody.name b);
                 User.email := email_setter (or_empty (UserBody.email b));
                 User.pendingTasks := valid;
                 User.dateCreated := User.dateCreated user |} in
    resp = respond 200 "User updated" (UserDoc uid u') ∧
    castObjectId id = Some uid ∧
    users s !! uid = Some user ∧
    or_empty (UserBody.name b) ≠ "" ∧
    email_in_use (User.email u') (Some uid) (users s) = false ∧
    kept_of (UserBody.pendingTasks b) s valid ∧
    s' =
      {| users := <[uid := u']> (pull_from_others uid valid (users s));
         tasks := assign_in valid uid (or_empty (UserBody.name b))
                    (unassign_open uid (tasks s));
         next_oid := next_oid s |}.

Definition effect (env : Env) (r : Request) (s : Store)
    : Response → Store → Prop :=
  match r with
  | PostUser b => users_post_effect b env s
  | PutUser id b => users_put_effect id b s
  | DeleteUser id => users_delete_effect id s
  | PostTask b => tasks_post_effect b env s
  | PutTask id b => tasks_put_effect id b s
  | DeleteTask id => tasks_delete_effect id s
  end.

(** ** Invariants of the two collections *)

(** Every id in a pending list names a stored task that is not completed
    and whose [assignedUser] is a spelling of that user's id. *)
Definition pending_names_open_task (s : Store) : Prop :=
  ∀ uid u tid,
    users s !! uid = Some u → tid ∈ User.pendingTasks u →
    ∃ t, tasks s !! tid = Some t ∧
         castObjectId (Task.assignedUser t) = Some uid ∧
         Task.completed t = false.

(** A task that is not completed and whose [assignedUser] is an id as the
    driver renders it belongs to a stored user: that user exists, its name
    is the one cached on the task, and the task is in its pending list. *)
Definition open_task_linked (s : Store) : Prop :=
  ∀ tid t,
    tasks s !! tid = Some t → Task.completed t = false →
    castObjectId (Task.assignedUser t) = Some (Task.assignedUser t) →
    ∃ u, users s !! Task.assignedUser t = Some u ∧
         Task.assignedUserName t = User.name u ∧
         tid ∈ User.pendingTasks u.

(** A task without assignee caches the name "unassigned". *)
Definition unassigned_named (s : Store) : Prop :=
  ∀ tid t,
    tasks s !! tid = Some t → Task.assignedUser t = "" →
    Task.assignedUserName t = "unassigned".

(** No two users share a stored email. *)
Definition emails_unique (s : Store) : Prop :=
  ∀ k1 k2 u1 u2,
    users s !! k1 = Some u1 → users s !! k2 = Some u2 →
    User.email u1 = User.email u2 → k1 = k2.

(** No pending list holds an id twice. *)
Definition pending_nodup (s : Store) : Prop :=
  ∀ uid u, users s !! uid = Some u → NoDup (User.pendingTasks u).

Record consistent (s : Store) : Prop := Consistent
  { consistent_pending : pending_names_open_task s;
    consistent_linked : open_task_linked s;
    consistent_unassigned : unassigned_named s;
    consistent_emails : emails_unique s;
    consistent_nodup : pending_nodup s }.

(** Two versions of a user document that differ at most in the pending
    list, the second without repetition if the first is. *)
Definition same_profile (u u' : User.doc) : Prop :=
  User.name u' = User.name u ∧
  User.email u' = User.email u ∧
  User.dateCreated u' = User.dateCreated u ∧
  (NoDup (User.pendingTasks u) → NoDup (User.pendingTasks u')).

(** A map of users obtained from another by touching pending lists only,
    the list of user [k] changing as [R k] says. *)
Definition relisted (R : string → list string → list string → Prop)
    (m m' : gmap string User.doc) : Prop :=
  ∀ k, ∃ f, m' !! k = f <$> m !! k ∧
            ∀ u, same_profile u (f u) ∧
                 R k (User.pendingTasks u) (User.pendingTasks (f u)).

Definition pending_only (m m' : gmap string User.doc) : Prop :=
  relisted (λ _ _ _, True) m m'.

(** How a successful request changes the users collection: it touches
    pending lists only, or it also writes one user document whose email no
    other user has, or it deletes one user. *)
Inductive users_change (m m' : gmap string User.doc) : Prop :=
  | Relisted :
      pending_only m m' → users_change m m'
  | Written uid u m1 :
      m' = <[uid := u]> m1 →
      pending_only m m1 →
      NoDup (User.pendingTasks u) →
      (∀ k v, m !! k = Some v → k ≠ uid → User.email v ≠ User.email u) →
      (∀ old, m !! uid = Some old → User.dateCreated u = User.dateCreated old) →
      users_change m m'
  | Deleted uid :
      m' = delete uid m → users_change m m'.

(** What a successful create or replace of user [uid] does with the list
    of task ids it was given. *)
Definition takes_over (requested : option (list string)) (uid : string)
    (u : User.doc) (s s' : Store) : Prop :=
  (∀ k, k ∈ User.pendingTasks u ↔
        (∃ raw, raw ∈ default [] requested ∧ castObjectId raw = Some k) ∧
        ∃ t, tasks s !! k = Some t ∧ Task.completed t = false) ∧
  (∀ k t, k ∈ User.pendingTasks u → tasks s !! k = Some t →
          tasks s' !! k = Some (assign uid (User.name u) t)) ∧
  (∀ uid' u' k, uid' ≠ uid → users s' !! uid' = Some u' →
                k ∈ User.pendingTasks u → k ∉ User.pendingTasks u').

End Effects.

(** The raw text a JSON query parameter is read from: the primary name, and
    the alias only when the primary is absent
    ([req.query[primary] ?? req.query[alias]]). *)
Definition raw_param (primary alias : option string) : option string :=
  match primary with
  | Some raw => Some raw
  | None => alias
  end.

(** ** A platform for the examples

    [toLowerCase] on the ASCII letters (every other byte is kept), [trim]
    with JavaScript's white space and line terminators in their UTF-8
    encoding, and the cast of 24 hexadecimal digits in either case.  The
    examples below use ASCII text only. *)

Definition ascii_lower (c : Ascii.ascii) : Ascii.ascii :=
  let n := Ascii.N_of_ascii c in
  if ((65 <=? n) && (n <=? 90))%N then Ascii.ascii_of_N (n + 32) else c.

Fixpoint ascii_lowercase (s : string) : string :=
  match s with
  | EmptyString => EmptyString
  | String c s' => String (ascii_lower c) (ascii_lowercase s')
  end.

Definition of_bytes (l : list N) : string :=
  foldr (λ n s, String (Ascii.ascii_of_N n) s) "" l.

(** TAB, LF, VT, FF, CR, SP, U+00A0, U+1680, U+2000 to U+200A, U+2028,
    U+2029, U+202F, U+205F, U+3000 and U+FEFF. *)
Definition white_space : list string :=
  of_bytes <$>
    [[9]; [10]; [11]; [12]; [13]; [32]; [194; 160]; [225; 154; 128];
     [226; 128; 128]; [226; 128; 129]; [226; 128; 130]; [226; 128; 131];
     [226; 128; 132]; [226; 128; 133]; [226; 128; 134]; [226; 128; 135];
     [226; 128; 136]; [226; 128; 137]; [226; 128; 138]; [226; 128; 168];
     [226; 128; 169]; [226; 128; 175]; [226; 129; 159]; [227; 128; 128];
     [239; 187; 191]]%N.

Fixpoint strip_prefix (w s : string) : option string :=
  match w, s with
  | EmptyString, _ => Some s
  | String a w', String b s' => if Ascii.eqb a b then strip_prefix w' s' else None
  | String _ _, EmptyString => None
  end.

(** [s] without one leading element of [ws], if it has one. *)
Definition strip_one (ws : list string) (s : string) : option string :=
  foldr (λ w rest, match strip_prefix w s with Some s' => Some s' | None => rest end)
    None ws.

Fixpoint strip_all (fuel : nat) (ws : list string) (s : string) : string :=
  match fuel with
  | O => s
  | S fuel' =>
      match strip_one ws s with
      | Some s' => strip_all fuel' ws s'
      | None => s
      end
  end.

Definition utf8_trim (s : string) : string :=
  let s1 := strip_all (String.length s) white_space s in
  String.rev (strip_all (String.length s1) (String.rev <$> white_space) (String.rev s1)).

Definition is_hex_digit (c : Ascii.ascii) : bool :=
  let n := Ascii.N_of_ascii c in
  ((48 <=? n) && (n <=? 57) || (97 <=? n) && (n <=? 102)
   || (65 <=? n) && (n <=? 70))%N.

Fixpoint all_hex (s : string) : bool :=
  match s with
  | EmptyString => true
  | String c s' => is_hex_digit c && all_hex s'
  end.

(** 24 hexadecimal digits cast to the ObjectId they spell, which
    [toString()] renders in lower case; nothing else casts. *)
Definition hex24 (s : string) : option string :=
  if (String.length s =? 24)%nat && all_hex s then Some (ascii_lowercase s) else None.

#[global] Instance ascii_platform : Platform :=
  {| toLowerCase := ascii_lowercase; trim := utf8_trim; castObjectId := hex24 |}.

(** A small JSON for the examples: a number or an object, read from a text
    that parses unless it is a lone opening brace. *)
Inductive toy_json :=
  | ToyNumber
  | ToyObject.

Definition toy_parse (raw : string) : option toy_json :=
  if bool_decide (raw = "{") then None
  else if bool_decide (raw = "5") then Some ToyNumber
  else Some ToyObject.

Definition toy_text (number : string → option Z) : JsonText toy_json :=
  {| JSON_parse := toy_parse; js_truthy := λ _, true; to_number := number |}.

(** The builder takes an object and throws on a number; every filter
    matches every document and a sort keeps the order. *)
Definition toy_engine (D : Type) : QueryEngine toy_json D :=
  {| find_verdict := λ j, match j with ToyNumber => Thrown | ToyObject => Accepted end;
     sort_verdict := λ j, match j with ToyNumber => Thrown | ToyObject => Accepted end;
     select_verdict := λ j, match j with ToyNumber => Thrown | ToyObject => Accepted end;
     count_runs := λ _, true;
     matches := λ _ _ _, true;
     sort_rows := λ _ l, l |}.

(** ** Sample requests and stores *)

Definition ann : UserBody.t :=
  {| UserBody.name := Some "Ann"; UserBody.email := Some "ann@x.com";
     UserBody.pendingTasks := Some []; UserBody.dateCreated := None |}.

Definition bob : UserBody.t :=
  {| UserBody.name := Some "Bob"; UserBody.email := Some "bob@x.com";
     UserBody.pendingTasks := Some []; UserBody.dateCreated := None |}.

(** The first three identifiers the driver issues, and the first of them
    in upper case. *)
Definition ann_id : string := "a00000000000000000000000".
Definition t1_id : string := "a00000000000000000000001".
Definition bob_id : string := "a00000000000000000000002".
Definition ANN_ID : string := "A00000000000000000000000".

Definition t1 (assignedUser : string) (completed : bool) : TaskBody.t :=
  {| TaskBody.name := Some "T1"; TaskBody.description := None;
     TaskBody.deadline := DateValue 1700000000;
     TaskBody.assignedUser := Some assignedUser;
     TaskBody.assignedUserName := None;
     TaskBody.completed := JsBool completed;
     TaskBody.dateCreated := None |}.

(** Ann, then task T1 assigned to Ann and not completed. *)
Definition ann_with_t1 : Store :=
  serve_all [(calm 1, PostUser ann); (calm 2, PostTask (t1 ann_id false))]
    empty_store.

(** Ann, then task T1 assigned to Ann and already completed. *)
Definition ann_with_done_t1 : Store :=
  serve_all [(calm 1, PostUser ann); (calm 2, PostTask (t1 ann_id true))]
    empty_store.

(** Ann, then task T1 assigned to Ann under the upper-case spelling of her
    id. *)
Definition ann_with_T1 : Store :=
  serve_all [(calm 1, PostUser ann); (calm 2, PostTask (t1 ANN_ID false))]
    empty_store.

(** Ann with T1, then Bob created with T1 in his pending list: Bob takes
    T1 over from Ann. *)
Definition bob_takes_t1 : list (Env * Request) :=
  [(calm 1, PostUser ann); (calm 2, PostTask (t1 ann_id false));
   (calm 3, PostUser (UserBody.mk (Some "Bob") (Some "bob@x.com")
                        (Some [t1_id]) None))].

(** Ann renamed while she keeps T1. *)
Definition ann_renamed : list (Env * Request) :=
  [(calm 1, PostUser ann); (calm 2, PostTask (t1 ann_id false));
   (calm 3, PutUser ann_id
              (UserBody.mk (Some "Anna") (Some "ann@x.com") (Some [t1_id]) None))].

(** Bob created with T1 listed twice. *)
Definition bob_lists_t1_twice : list (Env * Request) :=
  [(calm 1, PostUser ann); (calm 2, PostTask (t1 ann_id false));
   (calm 3, PostUser (UserBody.mk (Some "Bob") (Some "bob@x.com")
                        (Some [t1_id; t1_id]) None))].

(** Ann and Bob, then Bob asking for Ann's email in another spelling. *)
Definition bob_claims_anns_email : list (Env * Request) :=
  [(calm 1, PostUser ann); (calm 2, PostUser bob);
   (calm 3, PutUser "a00000000000000000000001"
              (UserBody.mk (Some "Bob") (Some " ANN@x.com ") (Some []) None))].

(** A store with many documents, to exercise the listings. *)
Definition many (n : nat) : list string :=
  (λ i, new_oid (N.of_nat i)) <$> seq 0 n.

Definition crowded : Store :=
  {| users := list_to_map ((λ k, (k, User.mk "U" k [] 0)) <$> many 150);
     tasks := list_to_map
                ((λ k, (k, Task.mk "T" "" 0 false "" "unassigned" 0)) <$> many 150);
     next_oid := 150 |}.

(** * Proofs *)

(** ** The platform of the examples satisfies the laws of the cast *)

Lemma length_append (a b : string) :
  String.length (a +:+ b) = (String.length a + String.length b)%nat.
Proof. induction a as [|c a IH]; simpl; [done|]. by rewrite IH. Qed.

Lemma all_hex_append (a b : string) : all_hex (a +:+ b) = all_hex a && all_hex b.
Proof.
  induction a as [|c a IH]; simpl; [done|]. by rewrite IH, andb_assoc.
Qed.

Lemma ascii_lowercase_append (a b : string) :
  ascii_lowercase (a +:+ b) = ascii_lowercase a +:+ ascii_lowercase b.
Proof. induction a as [|c a IH]; simpl; [done|]. by rewrite IH. Qed.

Lemma length_ascii_lowercase (s : string) :
  String.length (ascii_lowercase s) = String.length s.
Proof. induction s as [|c s IH]; simpl; [done|]. by rewrite IH. Qed.

Lemma ascii_lower_hex (c : Ascii.ascii) :
  is_hex_digit c = true →
  is_hex_digit (ascii_lower c) = true ∧ ascii_lower (ascii_lower c) = ascii_lower c.
Proof.
  destruct c as [[] [] [] [] [] [] [] []]; vm_compute; intros H;
    first [discriminate H | split; reflexivity].
Qed.

Lemma ascii_lowercase_hex (s : string) :
  all_hex s = true →
  all_hex (ascii_lowercase s) = true ∧
  ascii_lowercase (ascii_lowercase s) = ascii_lowercase s.
Proof.
  induction s as [|c s IH]; simpl; [done|].
  intros [Hc Hs]%andb_true_iff.
  destruct (ascii_lower_hex c Hc) as [H1 H2], (IH Hs) as [H3 H4].
  by rewrite H1, H2, H3, H4.
Qed.

Lemma hex_digit_lower (d : N) :
  (d < 16)%N →
  is_hex_digit (hex_digit d) = true ∧ ascii_lower (hex_digit d) = hex_digit d.
Proof.
  intros Hd.
  assert (d ∈ [0; 1; 2; 3; 4; 5; 6; 7; 8; 9; 10; 11; 12; 13; 14; 15]%N) as Hin.
  { rewrite !elem_of_cons. lia. }
  rewrite !elem_of_cons in Hin.
  repeat (destruct Hin as [->|Hin]; [by vm_compute|]).
  by apply not_elem_of_nil in Hin.
Qed.

Lemma hex_of_lower (k : nat) (n : N) :
  String.length (hex_of k n) = k ∧
  all_hex (hex_of k n) = true ∧
  ascii_lowercase (hex_of k n) = hex_of k n.
Proof.
  revert n. induction k as [|k IH]; intros n; simpl; [done|].
  destruct (IH (n / 16)%N) as (Hlen & Hhex & Hlow).
  destruct (hex_digit_lower (n `mod` 16)%N) as [Hd Hl].
  { apply N.mod_lt. done. }
  rewrite length_append, all_hex_append, ascii_lowercase_append, Hlen, Hhex, Hlow.
  simpl. rewrite Hd, Hl. split_and!; [lia|done..].
Qed.

Lemma hex24_canonical (s c : string) : hex24 s = Some c → hex24 c = Some c.
Proof.
  unfold hex24. destruct (_ && _) eqn:H; [|done]. intros [= <-].
  apply andb_true_iff in H as [Hlen Hhex].
  destruct (ascii_lowercase_hex s Hhex) as [H1 H2].
  by rewrite length_ascii_lowercase, Hlen, H1, H2.
Qed.

Lemma hex24_new_oid (n : N) : hex24 (new_oid n) = Some (new_oid n).
Proof.
  unfold hex24, new_oid.
  destruct (hex_of_lower 24 (10 * 16 ^ 23 + n)) as (Hlen & Hhex & Hlow).
  by rewrite Hlen, Hhex, Hlow.
Qed.

#[global] Instance ascii_laws : PlatformLaws ascii_platform.
Proof.
  split.
  - exact hex24_canonical.
  - reflexivity.
  - exact hex24_new_oid.
Qed.

Set Warnings "-clear-no-such-hyp".
Local Opaque new_oid.

(** ** Rules of the weakest-precondition reading *)

Lemma wp_ret {A} (a : A) env σ Φ : Φ (inr a) σ → wp (ret a) env σ Φ.
Proof. done. Qed.

Lemma wp_throw {A} e env σ (Φ : StoreError + A → Session → Prop) :
  Φ (inl e) σ → wp (throw e) env σ Φ.
Proof. done. Qed.

Lemma wp_bind {A B} (m : Txn A) (k : A → Txn B) env σ Φ :
  wp m env σ (λ r σ', match r with
                      | inl e => Φ (inl e) σ'
                      | inr a => wp (k a) env σ' Φ
                      end) →
  wp (bind m k) env σ Φ.
Proof.
  unfold wp, bind. intros H. destruct (m env σ) as [[e|a] σ']; exact H.
Qed.

Lemma wp_try_catch {A} (m : Txn A) h env σ Φ :
  wp m env σ (λ r σ', match r with
                      | inl e => wp (h e) env σ' Φ
                      | inr a => Φ (inr a) σ'
                      end) →
  wp (try_catch m h) env σ Φ.
Proof.
  unfold wp, try_catch. intros H. destruct (m env σ) as [[e|a] σ']; exact H.
Qed.

Lemma wp_store_call env d v n c Φ :
  (∀ e, faults env n = Some e → Φ (inl e) (mkSession d v (S n) c)) →
  (faults env n = None → Φ (inr ()) (mkSession d v (S n) c)) →
  wp store_call env (mkSession d v n c) Φ.
Proof.
  intros He Hok. unfold wp, store_call. simpl.
  destruct (faults env n); simpl; auto.
Qed.

Lemma wp_startTransaction env d v n c Φ :
  Φ (inr ()) (mkSession d d n false) →
  wp startTransaction env (mkSession d v n c) Φ.
Proof. done. Qed.

Lemma wp_abortTransaction env d v n Φ :
  Φ (inr ()) (mkSession d d n false) →
  wp abortTransaction env (mkSession d v n false) Φ.
Proof. done. Qed.

Lemma wp_abortTransaction_committed env d v n Φ :
  Φ (inl OtherError) (mkSession d v n true) →
  wp abortTransaction env (mkSession d v n true) Φ.
Proof. done. Qed.

Lemma wp_commitTransaction env d v n c Φ :
  (∀ e, faults env n = Some e → Φ (inl e) (mkSession d v (S n) true)) →
  (faults env n = None → Φ (inr ()) (mkSession v v (S n) true)) →
  wp commitTransaction env (mkSession d v n c) Φ.
Proof.
  intros He Hok. unfold wp, commitTransaction, bind, store_call. simpl.
  destruct (faults env n); simpl; auto.
Qed.

Lemma wp_get_now env σ Φ : Φ (inr (now env)) σ → wp get_now env σ Φ.
Proof. done. Qed.

Lemma wp_get_view env d v n c Φ :
  Φ (inr v) (mkSession d v n c) → wp get_view env (mkSession d v n c) Φ.
Proof. done. Qed.

Lemma wp_set_users f env d us ts nx n c Φ :
  Φ (inr ()) (mkSession d (mkStore (f us) ts nx) n c) →
  wp (set_users f) env (mkSession d (mkStore us ts nx) n c) Φ.
Proof. done. Qed.

Lemma wp_set_tasks f env d us ts nx n c Φ :
  Φ (inr ()) (mkSession d (mkStore us (f ts) nx) n c) →
  wp (set_tasks f) env (mkSession d (mkStore us ts nx) n c) Φ.
Proof. done. Qed.

Lemma wp_fresh_oid env d us ts nx n c Φ :
  Φ (inr (new_oid nx)) (mkSession d (mkStore us ts (N.succ nx)) n c) →
  wp fresh_oid env (mkSession d (mkStore us ts nx) n c) Φ.
Proof. done. Qed.

Lemma wp_cast_oid {platform : Platform} id env σ Φ :
  (castObjectId id = None → Φ (inl CastError) σ) →
  (∀ oid, castObjectId id = Some oid → Φ (inr oid) σ) →
  wp (cast_oid id) env σ Φ.
Proof.
  intros He Hok. unfold wp, cast_oid. destruct (castObjectId id); simpl; auto.
Qed.

(** The head constant of an applied term. *)
Ltac wp_head m :=
  lazymatch m with
  | ?f _ _ _ _ _ _ _ => wp_head f
  | ?f _ _ _ _ _ _ => wp_head f
  | ?f _ _ _ _ _ => wp_head f
  | ?f _ _ _ _ => wp_head f
  | ?f _ _ _ => wp_head f
  | ?f _ _ => wp_head f
  | ?f _ => wp_head f
  | _ => m
  end.

(** One step of symbolic execution of the program under [wp]. *)
Ltac wp_step :=
  cbv beta iota zeta; cbn [fst snd];
  lazymatch goal with
  | |- wp (bind _ _) _ _ _ => apply wp_bind
  | |- wp (try_catch _ _) _ _ _ => apply wp_try_catch
  | |- wp (ret _) _ _ _ => apply wp_ret
  | |- wp (throw _) _ _ _ => apply wp_throw
  | |- wp store_call _ _ _ => apply wp_store_call; [intros ?e ?Hfault|intros ?Hcall]
  | |- wp (cast_oid _) _ _ _ => apply wp_cast_oid; [intros ?Hcast|intros ?oid ?Hcast]
  | |- wp startTransaction _ _ _ => apply wp_startTransaction
  | |- wp abortTransaction _ (mkSession _ _ _ false) _ => apply wp_abortTransaction
  | |- wp abortTransaction _ (mkSession _ _ _ true) _ =>
      apply wp_abortTransaction_committed
  | |- wp commitTransaction _ _ _ =>
      apply wp_commitTransaction; [intros ?e ?Hfault|intros ?Hcall]
  | |- wp get_now _ _ _ => apply wp_get_now
  | |- wp get_view _ _ _ => apply wp_get_view
  | |- wp (set_users _) _ _ _ => apply wp_set_users
  | |- wp (set_tasks _) _ _ _ => apply wp_set_tasks
  | |- wp fresh_oid _ _ _ => apply wp_fresh_oid
  | |- wp (if ?c then _ else _) _ _ _ => destruct c eqn:?
  | |- wp (match ?x with _ => _ end) _ _ _ => destruct x eqn:?
  | |- wp ?m _ _ _ => let h := wp_head m in unfold h
  end.

(** What the executed store calls returned, in usable form. *)
Ltac wp_facts :=
  cbn [users tasks next_oid fst snd] in *;
  repeat match goal with
         | H : _ <$> _ = Some _ |- _ =>
             apply fmap_Some in H as (? & ? & ?)
         | H : _ <$> _ = None |- _ => apply fmap_None in H
         end;
  simplify_eq.

(** A leaf where the request was refused or failed, or where the handler
    threw after a failing commit: nothing is committed. *)
Ltac wp_failed :=
  first
    [ left; split; reflexivity
    | split; [reflexivity|];
      split; [reflexivity|];
      eexists _, _; split; [reflexivity|];
      split; [eassumption|];
      let j := fresh "j" in let Hj := fresh "Hj" in
      intros j Hj; repeat (destruct j as [|j]; [assumption|]); lia ].

(** A leaf where the request succeeded: every store call went through. *)
Ltac wp_succeeded :=
  right; split; [reflexivity|];
  split;
  [ let k := fresh "k" in let Hk := fresh "Hk" in
    intros k Hk; cbn [calls] in Hk;
    repeat (destruct k as [|k]; [assumption|]); lia
  | ].

(** ** What each route commits *)

Section Specs.
Context {platform : Platform}.

Lemma users_delete_spec env id s :
  wp (users_delete id) env (open_session s)
    (txn_post env s (users_delete_effect id s)).
Proof.
  destruct s as [us ts nx]. unfold open_session.
  repeat wp_step; try wp_failed.
  all: wp_facts.
  all: wp_succeeded.
  all: eexists _, _; split_and!; [reflexivity|eassumption|eassumption|reflexivity].
Qed.

Lemma tasks_delete_spec env id s :
  wp (tasks_delete id) env (open_session s)
    (txn_post env s (tasks_delete_effect id s)).
Proof.
  destruct s as [us ts nx]. unfold open_session.
  repeat wp_step; try wp_failed.
  all: wp_facts.
  all: wp_succeeded.
  all: eexists _, _; split_and!; [reflexivity|eassumption|eassumption|].
  all: cbn [durable]; unfold unlink_deleted, at_holder.
  all: repeat match goal with H : _ = _ |- _ => rewrite H end; reflexivity.
Qed.

(** A leaf where the written document and the updated pending lists are
    to be recognized. *)
Ltac written_leaf :=
  cbn [durable];
  try match goal with
      | H : context [toBoolean ?v ?f] |- _ => destruct (toBoolean v f) eqn:?
      end;
  repeat match goal with
         | H : bool_decide ?P = _, H' : context [bool_decide ?P] |- _ =>
             progress (rewrite H in H')
         end;
  cbn [negb andb] in *; try discriminate;
  unfold written_task, resolved_assignee, link_new, link_replaced, unlink_prev,
    at_holder;
  cbn [users tasks next_oid fst snd Task.assignedUser Task.completed];
  repeat (first
    [ match goal with
      | H : bool_decide _ = _ |- _ => rewrite H
      | H : castObjectId _ = _ |- _ => rewrite H
      | H : _ !! _ = _ |- _ => rewrite H
      | H : TaskBody.completed _ = _ |- _ => rewrite H
      | H : toBoolean _ _ = _ |- _ => rewrite H
      | H : _ && _ = _ |- _ => rewrite H
      | H : negb _ = _ |- _ => rewrite H
      end
    | rewrite (bool_decide_eq_true_2 ("" = "")) by reflexivity ];
    cbn [users tasks next_oid fst snd Task.assignedUser Task.completed negb andb]);
  try reflexivity.

Lemma tasks_post_spec env b s :
  wp (tasks_post b) env (open_session s)
    (txn_post env s (tasks_post_effect b env s)).
Proof.
  destruct s as [us ts nx]. unfold open_session.
  repeat wp_step; try wp_failed.
  all: wp_facts.
  all: wp_succeeded.
  all: eexists; cbv zeta; cbn [users tasks next_oid];
    split_and!; [|eassumption|assumption|]; written_leaf.
Qed.

Lemma tasks_put_spec env id b s :
  wp (tasks_put id b) env (open_session s)
    (txn_post env s (tasks_put_effect id b s)).
Proof.
  destruct s as [us ts nx]. unfold open_session.
  repeat wp_step; try wp_failed.
  all: wp_facts.
  all: wp_succeeded.
  all: eexists _, _, _; cbv zeta; cbn [users tasks next_oid];
    split_and!; [|eassumption|eassumption|eassumption|]; written_leaf.
Qed.


Lemma truthy_or_empty v : truthy v = true → or_empty v ≠ "".
Proof.
  destruct v as [x|]; [|done]. cbn. by intros ?%negb_true_iff%bool_decide_eq_false.
Qed.

Lemma required_fields_present x y :
  negb (truthy x) || negb (truthy y) = false → or_empty x ≠ "".
Proof.
  intros [H%negb_false_iff _]%orb_false_iff. by apply truthy_or_empty.
Qed.

Lemma elem_of_mapM_Some {A B} (f : A → option B) (l : list A) (k : list B) y :
  mapM f l = Some k → y ∈ k ↔ ∃ x, x ∈ l ∧ f x = Some y.
Proof.
  intros H%mapM_Some. induction H as [|x z l k Hxz _ IH].
  - split; [by intros ?%not_elem_of_nil|]. by intros (x & ?%not_elem_of_nil & _).
  - rewrite elem_of_cons, IH. split.
    + intros [->|(x' & Hx' & Hf)]; [exists x|exists x']; by rewrite elem_of_cons; auto.
    + intros (x' & [->|Hx']%elem_of_cons & Hf); [left; congruence|right; eauto].
Qed.

Lemma elem_of_open_tasks_among ids m k :
  k ∈ open_tasks_among ids m ↔
  k ∈ ids ∧ ∃ t, m !! k = Some t ∧ Task.completed t = false.
Proof.
  unfold open_tasks_among. rewrite list_elem_of_fmap. split.
  - intros ([k' t] & -> & Hin). apply elem_of_map_to_list in Hin.
    apply map_lookup_filter_Some in Hin as [Hl [Hk Hc]]. simpl in *. eauto.
  - intros (Hk & t & Hl & Hc). exists (k, t). split; [done|].
    apply elem_of_map_to_list, map_lookup_filter_Some. done.
Qed.

Lemma lookup_assign_in ids uid uname m k :
  assign_in ids uid uname m !! k =
    (λ t, if bool_decide (k ∈ ids) then assign uid uname t else t) <$> m !! k.
Proof. unfold assign_in. rewrite map_lookup_imap. by destruct (m !! k). Qed.

Lemma lookup_unassign_open uid m k :
  unassign_open uid m !! k =
    (λ t, if bool_decide (Task.assignedUser t = uid) && negb (Task.completed t)
          then assign "" "unassigned" t else t) <$> m !! k.
Proof. unfold unassign_open. by rewrite lookup_fmap. Qed.

Lemma lookup_pull_from_others self ids m k :
  pull_from_others self ids m !! k =
    (λ u, if bool_decide (k ≠ self)
             && bool_decide (Exists (λ p, p ∈ ids) (User.pendingTasks u))
          then set_pendingTasks (pull_in ids (User.pendingTasks u)) u
          else u) <$> m !! k.
Proof. unfold pull_from_others. rewrite map_lookup_imap. by destruct (m !! k). Qed.

Lemma assign_in_nil uid uname m : assign_in [] uid uname m = m.
Proof.
  apply map_eq; intros k. rewrite lookup_assign_in.
  destruct (m !! k) as [t|]; [|done]. cbn [fmap option_fmap option_map]. f_equal.
Qed.

Lemma pull_from_others_nil self m : pull_from_others self [] m = m.
Proof.
  apply map_eq; intros k. rewrite lookup_pull_from_others.
  destruct (m !! k) as [u|]; [|done]. cbn [fmap option_fmap option_map]. f_equal.
  rewrite (bool_decide_eq_false_2 (Exists _ _)), andb_false_r; [done|].
  rewrite Exists_exists. intros (p & _ & Hp). by apply not_elem_of_nil in Hp.
Qed.

Lemma pull_from_others_insert_self self ids u (m : gmap string User.doc) l :
  alter (set_pendingTasks l) self (pull_from_others self ids (<[self := u]> m)) =
  <[self := set_pendingTasks l u]> (pull_from_others self ids m).
Proof.
  apply map_eq; intros k. destruct (decide (k = self)) as [->|Hne].
  - rewrite lookup_alter_eq, lookup_pull_from_others, !lookup_insert_eq.
    cbn [fmap option_fmap option_map].
    by rewrite bool_decide_eq_false_2 by naive_solver.
  - rewrite lookup_alter_ne, lookup_insert_ne, !lookup_pull_from_others by done.
    by rewrite lookup_insert_ne by done.
Qed.

Lemma open_unassign_open uid (m : gmap string Task.doc) k :
  (∃ t, unassign_open uid m !! k = Some t ∧ Task.completed t = false) ↔
  (∃ t, m !! k = Some t ∧ Task.completed t = false).
Proof.
  rewrite lookup_unassign_open. destruct (m !! k) as [t|]; simpl.
  - split.
    + intros (t' & [= <-] & Hc). exists t. split; [done|]. by destruct (_ && _).
    + intros (t' & [= <-] & Hc). eexists. split; [done|]. by destruct (_ && _).
  - split; intros (? & ? & ?); done.
Qed.

Lemma kept_of_open_tasks requested l oids s ts' :
  default [] requested = l →
  mapM castObjectId l = Some oids →
  (∀ k, (∃ t, ts' !! k = Some t ∧ Task.completed t = false) ↔
        (∃ t, tasks s !! k = Some t ∧ Task.completed t = false)) →
  kept_of requested s (open_tasks_among oids ts').
Proof.
  intros Hl Hoids Hopen. split; [apply NoDup_fst_map_to_list|]. intros k.
  rewrite elem_of_open_tasks_among, Hopen, (elem_of_mapM_Some _ _ _ _ Hoids), Hl.
  done.
Qed.

Lemma kept_of_nil requested s : default [] requested = [] → kept_of requested s [].
Proof.
  intros Hl. split; [apply NoDup_nil_2|]. intros k. rewrite Hl. split.
  - by intros ?%not_elem_of_nil.
  - by intros [(raw & ?%not_elem_of_nil & _) _].
Qed.

(** The leaf obligation on the list of kept task ids. *)
Ltac kept_leaf :=
  try match goal with H : open_tasks_among _ _ = _ |- _ => rewrite <- H end;
  first
    [ eapply kept_of_open_tasks;
      [ match goal with H : UserBody.pendingTasks _ = _ |- _ => by rewrite H end
      | eassumption
      | first [ intros ?; apply open_unassign_open | done ] ]
    | apply kept_of_nil;
      match goal with H : UserBody.pendingTasks _ = _ |- _ => by rewrite H end ].

Lemma users_put_spec env id b s :
  wp (users_put id b) env (open_session s)
    (txn_post env s (users_put_effect id b s)).
Proof.
  destruct s as [us ts nx]. unfold open_session.
  repeat wp_step; try wp_failed.
  all: wp_facts.
  all: try match goal with
    | H : pull_from_others _ _ _ !! _ = None, H' : _ !! _ = Some _ |- _ =>
        rewrite lookup_pull_from_others, H' in H; discriminate H
    end.
  all: wp_succeeded.
  all: unfold users_put_effect; cbn [durable users tasks next_oid].
  all: match goal with
       | H : ?m !! ?o = Some ?x |- _ => is_var m; exists o, x
       end.
  all: eexists; cbv zeta;
    split_and!; [reflexivity|eassumption|eassumption|
                 by eapply required_fields_present|assumption|kept_leaf|].
  all: by rewrite ?pull_from_others_nil, ?assign_in_nil.
Qed.

Lemma users_post_spec env b s :
  wp (users_post b) env (open_session s)
    (txn_post env s (users_post_effect b env s)).
Proof.
  destruct s as [us ts nx]. unfold open_session.
  repeat wp_step; try wp_failed.
  all: wp_facts.
  all: wp_succeeded.
  all: unfold users_post_effect; cbn [durable users tasks next_oid].
  all: eexists; cbv zeta;
    split_and!; [reflexivity|eassumption|
                 by eapply required_fields_present|assumption|kept_leaf|].
  all: rewrite ?pull_from_others_insert_self, ?alter_insert_eq,
         ?pull_from_others_nil, ?assign_in_nil; reflexivity.
Qed.

Lemma route_spec env r s :
  wp (route r) env (open_session s) (txn_post env s (effect env r s)).
Proof.
  destruct r; simpl.
  - apply users_post_spec.
  - apply users_put_spec.
  - apply users_delete_spec.
  - apply tasks_post_spec.
  - apply tasks_put_spec.
  - apply tasks_delete_spec.
Qed.

(** A request commits nothing unless it answers with success, and then it
    commits its effect. *)
Lemma serve_cases env r s :
  (succeeded (serve env r s).1 = false ∧ (serve env r s).2 = s) ∨
  (succeeded (serve env r s).1 = true ∧
   (∀ k, (k < calls_made env r s)%nat → faults env k = None) ∧
   ∃ resp, (serve env r s).1 = Some resp ∧
           effect env r s resp (serve env r s).2).
Proof.
  pose proof (route_spec env r s) as H. unfold wp, txn_post in H.
  unfold serve, calls_made.
  destruct (route r env (open_session s)) as [[e|resp] σ]; simpl in *.
  { left. by destruct H as [-> _]. }
  destruct H as [[Hf Hs]|(Hok & Hcalls & He)]; [by left|right].
  split_and!; [done..|]. by exists resp.
Qed.

(** A handler throws instead of answering only after [commitTransaction]
    was called and failed, every earlier store call having gone through. *)
Lemma serve_unanswered env r s :
  (serve env r s).1 = None →
  commit_called (route r env (open_session s)).2 = true ∧
  ∃ k e, calls_made env r s = S k ∧ faults env k = Some e ∧
         ∀ j, (j < k)%nat → faults env j = None.
Proof.
  pose proof (route_spec env r s) as H. unfold wp, txn_post in H.
  unfold serve, calls_made.
  destruct (route r env (open_session s)) as [[e|resp] σ]; simpl in *; [|done].
  intros _. by destruct H as (_ & ? & ?).
Qed.

(** The effect of a request that answers with success. *)
Lemma serve_effect env r s :
  succeeded (serve env r s).1 = true →
  ∃ resp, (serve env r s).1 = Some resp ∧ effect env r s resp (serve env r s).2.
Proof.
  intros Hok. destruct (serve_cases env r s) as [[Hf _]|(_ & _ & He)];
    [congruence|done].
Qed.

Lemma serve_from_wp env r s resp s' n :
  wp (route r) env (open_session s)
    (λ r' σ, r' = inr resp ∧ durable σ = s' ∧ calls σ = n) →
  serve env r s = (Some resp, s') ∧ calls_made env r s = n.
Proof.
  unfold wp, serve, calls_made.
  destruct (route r env (open_session s)) as [[e|resp'] σ]; simpl.
  - by intros [? _].
  - intros ([= ->] & -> & ->). done.
Qed.

End Specs.

(** ** Membership in updated pending lists *)

Lemma elem_of_pull x tid l : x ∈ pull tid l ↔ x ∈ l ∧ x ≠ tid.
Proof. unfold pull. rewrite list_elem_of_filter. naive_solver. Qed.

Lemma elem_of_pull_in x ids l : x ∈ pull_in ids l ↔ x ∈ l ∧ x ∉ ids.
Proof. unfold pull_in. rewrite list_elem_of_filter. naive_solver. Qed.

Lemma elem_of_addToSet x tid l : x ∈ addToSet tid l ↔ x = tid ∨ x ∈ l.
Proof.
  unfold addToSet. case_bool_decide.
  - naive_solver.
  - rewrite elem_of_app, list_elem_of_singleton. naive_solver.
Qed.

Lemma same_profile_refl u : same_profile u u.
Proof. by repeat split. Qed.

Lemma same_profile_pull tid u :
  same_profile u (set_pendingTasks (pull tid (User.pendingTasks u)) u).
Proof. repeat split. cbn. unfold pull. apply NoDup_filter. Qed.

Lemma same_profile_pull_in ids u :
  same_profile u (set_pendingTasks (pull_in ids (User.pendingTasks u)) u).
Proof. repeat split. cbn. unfold pull_in. apply NoDup_filter. Qed.

Lemma same_profile_addToSet tid u :
  same_profile u (set_pendingTasks (addToSet tid (User.pendingTasks u)) u).
Proof.
  repeat split. cbn. unfold addToSet. intros Hnd. case_bool_decide; [done|].
  apply NoDup_app. split_and!; [done| |apply NoDup_singleton].
  intros x Hx ->%list_elem_of_singleton. done.
Qed.

Lemma relisted_Some R (m m' : gmap string User.doc) k u' :
  relisted R m m' → m' !! k = Some u' →
  ∃ u, m !! k = Some u ∧ same_profile u u' ∧
       R k (User.pendingTasks u) (User.pendingTasks u').
Proof.
  intros Hr Hu'. destruct (Hr k) as (f & Hf & Hp). rewrite Hf in Hu'.
  destruct (m !! k) as [u|]; [|done]. injection Hu' as <-.
  exists u. split; [done|]. apply Hp.
Qed.

Lemma relisted_forward R (m m' : gmap string User.doc) k u :
  relisted R m m' → m !! k = Some u →
  ∃ u', m' !! k = Some u' ∧ same_profile u u' ∧
        R k (User.pendingTasks u) (User.pendingTasks u').
Proof.
  intros Hr Hu. destruct (Hr k) as (f & Hf & Hp). rewrite Hf, Hu.
  exists (f u). split; [done|]. apply Hp.
Qed.

Lemma relisted_weaken (R R' : string → list string → list string → Prop) m m' :
  (∀ k l l', R k l l' → R' k l l') → relisted R m m' → relisted R' m m'.
Proof.
  intros HR Hr k. destruct (Hr k) as (f & Hf & Hp). exists f. split; [done|].
  intros u. destruct (Hp u). auto.
Qed.

Lemma relisted_refl (R : string → list string → list string → Prop) m :
  (∀ k l, R k l l) → relisted R m m.
Proof.
  intros HR k. exists id. split; [by rewrite option_fmap_id|].
  intros u. split; [apply same_profile_refl|apply HR].
Qed.

Lemma relisted_trans (R1 R2 R : string → list string → list string → Prop)
    m1 m2 m3 :
  (∀ k l1 l2 l3, R1 k l1 l2 → R2 k l2 l3 → R k l1 l3) →
  relisted R1 m1 m2 → relisted R2 m2 m3 → relisted R m1 m3.
Proof.
  intros HR H12 H23 k. destruct (H12 k) as (f & Hf & Hpf).
  destruct (H23 k) as (g & Hg & Hpg). exists (g ∘ f). split.
  - rewrite Hg, Hf. by rewrite option_fmap_compose.
  - intros u. destruct (Hpf u) as [(? & ? & ? & ?) ?].
    destruct (Hpg (f u)) as [(? & ? & ? & ?) ?]. cbn. split; [|eauto].
    repeat split; [congruence..|auto].
Qed.

Lemma relisted_alter (R : string → list string → list string → Prop) g a m :
  (∀ u, same_profile u (g u) ∧ R a (User.pendingTasks u) (User.pendingTasks (g u))) →
  (∀ k l, k ≠ a → R k l l) →
  relisted R m (alter g a m).
Proof.
  intros Hg HR k. rewrite lookup_alter. case_decide.
  - subst. by exists g.
  - exists id. split; [by rewrite option_fmap_id|].
    intros u. split; [apply same_profile_refl|by apply HR].
Qed.

Lemma relisted_pull_from_others self ids m :
  relisted (λ k l l', ∀ x, x ∈ l' ↔ x ∈ l ∧ (k = self ∨ x ∉ ids))
    m (pull_from_others self ids m).
Proof.
  intros k. eexists. split; [apply lookup_pull_from_others|].
  intros u. cbn beta. case_bool_decide as Hk; simpl.
  - case_bool_decide as Hex; simpl.
    + split; [apply same_profile_pull_in|]. intros x. cbn.
      rewrite elem_of_pull_in. naive_solver.
    + split; [apply same_profile_refl|]. intros x.
      rewrite Exists_exists in Hex. naive_solver.
  - split; [apply same_profile_refl|]. naive_solver.
Qed.

Section Relisting.
Context {platform : Platform}.

Lemma relisted_at_holder (R : string → list string → list string → Prop) a g m :
  (∀ k u, castObjectId a = Some k →
          same_profile u (g u) ∧ R k (User.pendingTasks u) (User.pendingTasks (g u))) →
  (∀ k l, castObjectId a ≠ Some k → R k l l) →
  relisted R m (at_holder a g m).
Proof.
  intros Hg HR. unfold at_holder. destruct (castObjectId a) as [oid|] eqn:Ha.
  - apply relisted_alter; [by auto|]. intros k l Hk. apply HR. congruence.
  - apply relisted_refl. intros k l. by apply HR.
Qed.

Lemma relisted_link_new a c tid m :
  relisted (λ k l l', ∀ x, x ∈ l' ↔
                           x ∈ l ∨ (x = tid ∧ castObjectId a = Some k
                                    ∧ a ≠ "" ∧ c = false))
    m (link_new a c tid m).
Proof.
  unfold link_new. destruct (negb _ && negb c) eqn:Hc.
  - apply andb_true_iff in Hc
      as [Ha%negb_true_iff%bool_decide_eq_false Hc%negb_true_iff].
    apply relisted_at_holder.
    + intros k u Hk. split; [apply same_profile_addToSet|]. intros x. cbn.
      rewrite elem_of_addToSet. naive_solver.
    + naive_solver.
  - apply relisted_refl. intros k l x. split; [auto|].
    intros [?|(-> & _ & Ha & ->)]; [done|].
    rewrite bool_decide_eq_false_2 in Hc by done. done.
Qed.

Lemma relisted_unlink_prev p n tid m :
  relisted (λ k l l', ∀ x, x ∈ l' ↔
                           x ∈ l ∧ ¬ (x = tid ∧ castObjectId p = Some k
                                      ∧ p ≠ "" ∧ p ≠ n))
    m (unlink_prev p n tid m).
Proof.
  unfold unlink_prev. destruct (negb _ && negb _) eqn:Hc.
  - apply andb_true_iff in Hc
      as [Ha%negb_true_iff%bool_decide_eq_false
          Hn%negb_true_iff%bool_decide_eq_false].
    apply relisted_at_holder.
    + intros k u Hk. split; [apply same_profile_pull|]. intros x. cbn.
      rewrite elem_of_pull. naive_solver.
    + naive_solver.
  - apply relisted_refl. intros k l x. split; [|naive_solver].
    intros Hx. split; [done|]. intros (-> & _ & Hp & Hn).
    rewrite !bool_decide_eq_false_2 in Hc by done. done.
Qed.

Lemma relisted_link_replaced a c tid m :
  relisted (λ k l l', ∀ x, x ∈ l' ↔
              (x ∈ l ∧ ¬ (x = tid ∧ castObjectId a = Some k ∧ a ≠ "" ∧ c = true))
              ∨ (x = tid ∧ castObjectId a = Some k ∧ a ≠ "" ∧ c = false))
    m (link_replaced a c tid m).
Proof.
  unfold link_replaced. case_bool_decide as Ha; simpl.
  - apply relisted_refl. naive_solver.
  - destruct c; apply relisted_at_holder.
    + intros k u Hk. split; [apply same_profile_pull|]. intros x. cbn.
      rewrite elem_of_pull. naive_solver.
    + naive_solver.
    + intros k u Hk. split; [apply same_profile_addToSet|]. intros x. cbn.
      rewrite elem_of_addToSet. naive_solver.
    + naive_solver.
Qed.

Lemma relisted_unlink_deleted a tid m :
  relisted (λ k l l', ∀ x, x ∈ l' ↔
                           x ∈ l ∧ ¬ (x = tid ∧ castObjectId a = Some k ∧ a ≠ ""))
    m (unlink_deleted a tid m).
Proof.
  unfold unlink_deleted. case_bool_decide as Ha; simpl.
  - apply relisted_refl. naive_solver.
  - apply relisted_at_holder.
    + intros k u Hk. split; [apply same_profile_pull|]. intros x. cbn.
      rewrite elem_of_pull. naive_solver.
    + naive_solver.
Qed.

(** The assignee of a written task: none, or a spelling of the id of a
    stored user whose name is cached. *)
Lemma written_task_assignee b s z c :
  let d := written_task b s z c in
  (Task.assignedUser d = "" ∧ Task.assignedUserName d = "unassigned") ∨
  (Task.assignedUser d ≠ "" ∧
   ∃ oid u, castObjectId (Task.assignedUser d) = Some oid ∧
            users s !! oid = Some u ∧ Task.assignedUserName d = User.name u).
Proof.
  cbv zeta. unfold written_task, resolved_assignee. cbn.
  case_bool_decide as Ha; [by left|].
  destruct (castObjectId _) as [oid|] eqn:Hoid; [|by left].
  destruct (users s !! oid) as [u|] eqn:Hu; [|by left].
  right. cbn. split; [done|]. by exists oid, u.
Qed.

End Relisting.

Lemma lookup_unassign_open_Some uid (m : gmap string Task.doc) k t' :
  unassign_open uid m !! k = Some t' →
  ∃ t, m !! k = Some t ∧ Task.completed t' = Task.completed t ∧
       Task.dateCreated t' = Task.dateCreated t ∧
       ((Task.assignedUser t = uid ∧ Task.completed t = false ∧
         Task.assignedUser t' = "" ∧ Task.assignedUserName t' = "unassigned")
        ∨ (¬ (Task.assignedUser t = uid ∧ Task.completed t = false) ∧ t' = t)).
Proof.
  rewrite lookup_unassign_open. destruct (m !! k) as [t|]; [|done].
  intros [= <-]. exists t. split; [done|].
  case_bool_decide as Ha; simpl; [destruct (Task.completed t) eqn:Hc; simpl|];
    naive_solver.
Qed.

Lemma lookup_assign_in_Some ids uid uname (m : gmap string Task.doc) k t' :
  assign_in ids uid uname m !! k = Some t' →
  ∃ t, m !! k = Some t ∧ Task.completed t' = Task.completed t ∧
       Task.dateCreated t' = Task.dateCreated t ∧
       ((k ∈ ids ∧ Task.assignedUser t' = uid ∧ Task.assignedUserName t' = uname)
        ∨ ((k ∉ ids) ∧ t' = t)).
Proof.
  rewrite lookup_assign_in. destruct (m !! k) as [t|]; [|done].
  intros [= <-]. exists t. split; [done|].
  case_bool_decide; simpl; naive_solver.
Qed.

(** ** Preservation of the invariants *)

Section Preservation.
Context {platform : Platform} {laws : PlatformLaws platform}.

Lemma cast_nonempty a oid : castObjectId a = Some oid → a ≠ "".
Proof. intros Ha ->. by rewrite cast_empty in Ha. Qed.

Lemma cast_result_nonempty a oid : castObjectId a = Some oid → oid ≠ "".
Proof. intros Ha%cast_canonical. by eapply cast_nonempty. Qed.

(** *** Pending ids name open tasks of their user *)

Lemma tasks_post_pending b env s resp s' :
  tasks_post_effect b env s resp s' →
  pending_names_open_task s → pending_names_open_task s'.
Proof.
  intros (z & _ & _ & Hfresh & ->) Hp uid u' x Hu' Hx. cbn [users tasks] in *.
  apply (relisted_Some _ _ _ _ _ (relisted_link_new _ _ _ _)) in Hu'
    as (u & Hu & _ & Hmem). cbn beta in Hmem.
  apply Hmem in Hx as [Hx|(-> & Ha & _ & Hc)].
  - destruct (Hp _ _ _ Hu Hx) as (t & Ht & Hcast & Hopen).
    exists t. rewrite lookup_insert_ne; [done|]. intros <-. congruence.
  - eexists. by rewrite lookup_insert_eq.
Qed.

Lemma tasks_put_pending id b s resp s' :
  tasks_put_effect id b s resp s' →
  pending_names_open_task s → pending_names_open_task s'.
Proof.
  intros (tid & cur & z & _ & _ & Hcur & _ & ->) Hp uid u' x Hu' Hx.
  cbn [users tasks] in *.
  apply (relisted_Some _ _ _ _ _ (relisted_link_replaced _ _ _ _)) in Hu'
    as (u1 & Hu1 & _ & Hmem1). cbn beta in Hmem1.
  apply (relisted_Some _ _ _ _ _ (relisted_unlink_prev _ _ _ _)) in Hu1
    as (u & Hu & _ & Hmem). cbn beta in Hmem.
  apply Hmem1 in Hx as [[Hx Hnot1]|(-> & Ha & _ & Hc)].
  - apply Hmem in Hx as [Hx Hnot].
    destruct (Hp _ _ _ Hu Hx) as (t & Ht & Hcast & Hopen).
    destruct (decide (x = tid)) as [->|Hne].
    + rewrite Hcur in Ht. injection Ht as <-.
      pose proof (cast_nonempty _ _ Hcast) as Hnonempty.
      rewrite lookup_insert_eq. eexists. split; [done|].
      destruct (decide (Task.assignedUser cur
                        = Task.assignedUser (written_task b s z (Task.dateCreated cur))))
        as [Heq|Hneq]; [|by destruct Hnot].
      rewrite <- Heq. split; [done|].
      destruct (Task.completed _) eqn:Hc; [|done].
      destruct Hnot1. rewrite <- Heq. done.
    + exists t. by rewrite lookup_insert_ne.
  - eexists. by rewrite lookup_insert_eq.
Qed.

Lemma tasks_delete_pending id s resp s' :
  tasks_delete_effect id s resp s' →
  pending_names_open_task s → pending_names_open_task s'.
Proof.
  intros (tid & t0 & _ & _ & Ht0 & ->) Hp uid u' x Hu' Hx. cbn [users tasks] in *.
  apply (relisted_Some _ _ _ _ _ (relisted_unlink_deleted _ _ _)) in Hu'
    as (u & Hu & _ & Hmem). cbn beta in Hmem.
  apply Hmem in Hx as [Hx Hnot].
  destruct (Hp _ _ _ Hu Hx) as (t & Ht & Hcast & Hopen).
  exists t. rewrite lookup_delete_ne; [done|]. intros <-.
  rewrite Ht0 in Ht. injection Ht as <-.
  destruct Hnot. split_and!; [done..|]. by eapply cast_nonempty.
Qed.

Lemma users_post_pending b env s resp s' :
  users_post_effect b env s resp s' →
  pending_names_open_task s → pending_names_open_task s'.
Proof.
  intros (valid & _ & Hfresh & _ & _ & [_ Hvalid] & ->) Hp uid u' x Hu' Hx.
  cbn [users tasks] in *.
  apply lookup_insert_Some in Hu' as [[<- <-]|[Hne Hu']].
  - cbn in Hx. apply Hvalid in Hx as Hx'. destruct Hx' as (_ & t & Ht & Hopen).
    rewrite lookup_assign_in, Ht. cbn. rewrite bool_decide_eq_true_2 by done.
    eexists. split; [done|]. cbn. split; [apply cast_new_oid|done].
  - apply (relisted_Some _ _ _ _ _ (relisted_pull_from_others _ _ _)) in Hu'
      as (u & Hu & _ & Hmem). cbn beta in Hmem.
    apply Hmem in Hx as [Hx [?|Hnot]]; [done|].
    destruct (Hp _ _ _ Hu Hx) as (t & Ht & Hcast & Hopen).
    exists t. rewrite lookup_assign_in, Ht. cbn.
    by rewrite bool_decide_eq_false_2 by done.
Qed.

Lemma users_put_pending id b s resp s' :
  users_put_effect id b s resp s' →
  pending_names_open_task s → pending_names_open_task s'.
Proof.
  intros (uid0 & user & valid & _ & Hid & Huser & _ & _ & [_ Hvalid] & ->)
    Hp uid u' x Hu' Hx.
  cbn [users tasks] in *.
  pose proof (cast_canonical _ _ Hid) as Hcanon.
  apply lookup_insert_Some in Hu' as [[<- <-]|[Hne Hu']].
  - cbn in Hx. apply Hvalid in Hx as Hx'. destruct Hx' as (_ & t & Ht & Hopen).
    rewrite lookup_assign_in, lookup_unassign_open, Ht. cbn.
    rewrite bool_decide_eq_true_2 by done.
    eexists. split; [done|]. cbn. split; [done|]. by destruct (_ && _).
  - apply (relisted_Some _ _ _ _ _ (relisted_pull_from_others _ _ _)) in Hu'
      as (u & Hu & _ & Hmem). cbn beta in Hmem.
    apply Hmem in Hx as [Hx [?|Hnot]]; [done|].
    destruct (Hp _ _ _ Hu Hx) as (t & Ht & Hcast & Hopen).
    exists t. rewrite lookup_assign_in, lookup_unassign_open, Ht. cbn.
    rewrite bool_decide_eq_false_2 by done.
    rewrite (bool_decide_eq_false_2 (Task.assignedUser t = uid0)); [done|].
    intros Ha. rewrite Ha in Hcast. congruence.
Qed.

Lemma users_delete_pending id s resp s' :
  users_delete_effect id s resp s' →
  pending_names_open_task s → pending_names_open_task s'.
Proof.
  intros (uid0 & u0 & _ & Hid & Hu0 & ->) Hp uid u x Hu Hx. cbn [users tasks] in *.
  pose proof (cast_canonical _ _ Hid) as Hcanon.
  apply lookup_delete_Some in Hu as [Hne Hu].
  destruct (Hp _ _ _ Hu Hx) as (t & Ht & Hcast & Hopen).
  exists t. rewrite lookup_unassign_open, Ht. cbn.
  rewrite (bool_decide_eq_false_2 (Task.assignedUser t = uid0)); [done|].
  intros Ha. rewrite Ha in Hcast. congruence.
Qed.

Lemma serve_pending env r s :
  pending_names_open_task s → pending_names_open_task (serve env r s).2.
Proof.
  intros Hp. destruct (serve_cases env r s) as [[_ ->]|(_ & _ & resp & _ & He)];
    [done|].
  destruct r; simpl in He.
  - by eapply users_post_pending.
  - by eapply users_put_pending.
  - by eapply users_delete_pending.
  - by eapply tasks_post_pending.
  - by eapply tasks_put_pending.
  - by eapply tasks_delete_pending.
Qed.

(** *** Open tasks assigned under a rendered id are linked *)

Lemma tasks_post_linked b env s resp s' :
  tasks_post_effect b env s resp s' →
  open_task_linked s → open_task_linked s'.
Proof.
  intros (z & _ & _ & Hfresh & ->) Hl tid t Ht Hopen Hcanon.
  cbn [users tasks] in *.
  set (d := written_task b s z (now env)) in *.
  pose proof (relisted_link_new (Task.assignedUser d) (Task.completed d)
                (new_oid (next_oid s)) (users s)) as Hr.
  apply lookup_insert_Some in Ht as [[<- <-]|[Hne Ht]].
  - destruct (written_task_assignee b s z (now env))
      as [[Ha _]|(Ha & oid & u & Hoid & Hu & Hname)]; fold d in Ha.
    { rewrite Ha in Hcanon. by rewrite cast_empty in Hcanon. }
    fold d in Hoid, Hname. rewrite Hcanon in Hoid. injection Hoid as <-.
    destruct (relisted_forward _ _ _ _ _ Hr Hu)
      as (u' & Hu' & (Hn & _) & Hmem). cbn beta in Hmem.
    exists u'. split_and!; [exact Hu'|congruence|].
    apply Hmem. right. done.
  - destruct (Hl _ _ Ht Hopen Hcanon) as (u & Hu & Hname & Hin).
    destruct (relisted_forward _ _ _ _ _ Hr Hu)
      as (u' & Hu' & (Hn & _) & Hmem). cbn beta in Hmem.
    exists u'. split_and!; [exact Hu'|congruence|].
    apply Hmem. by left.
Qed.

Lemma tasks_put_linked id b s resp s' :
  tasks_put_effect id b s resp s' →
  open_task_linked s → open_task_linked s'.
Proof.
  intros (tid0 & cur & z & _ & _ & Hcur & _ & ->) Hl tid t Ht Hopen Hcanon.
  cbn [users tasks] in *.
  set (d := written_task b s z (Task.dateCreated cur)) in *.
  pose proof (relisted_unlink_prev (Task.assignedUser cur) (Task.assignedUser d)
                tid0 (users s)) as Hr1.
  pose proof (relisted_link_replaced (Task.assignedUser d) (Task.completed d) tid0
                (unlink_prev (Task.assignedUser cur) (Task.assignedUser d) tid0
                   (users s))) as Hr2.
  apply lookup_insert_Some in Ht as [[<- <-]|[Hne Ht]].
  - destruct (written_task_assignee b s z (Task.dateCreated cur))
      as [[Ha _]|(Ha & oid & u & Hoid & Hu & Hname)]; fold d in Ha.
    { rewrite Ha in Hcanon. by rewrite cast_empty in Hcanon. }
    fold d in Hoid, Hname. rewrite Hcanon in Hoid. injection Hoid as <-.
    destruct (relisted_forward _ _ _ _ _ Hr1 Hu) as (u1 & Hu1 & (Hn1 & _) & _).
    destruct (relisted_forward _ _ _ _ _ Hr2 Hu1)
      as (u' & Hu' & (Hn & _) & Hmem). cbn beta in Hmem.
    exists u'. split_and!; [exact Hu'|congruence|].
    apply Hmem. right. done.
  - destruct (Hl _ _ Ht Hopen Hcanon) as (u & Hu & Hname & Hin).
    destruct (relisted_forward _ _ _ _ _ Hr1 Hu)
      as (u1 & Hu1 & (Hn1 & _) & Hmem1). cbn beta in Hmem1.
    destruct (relisted_forward _ _ _ _ _ Hr2 Hu1)
      as (u' & Hu' & (Hn & _) & Hmem). cbn beta in Hmem.
    exists u'. split_and!; [exact Hu'|congruence|].
    apply Hmem. left. split; [|naive_solver]. apply Hmem1. naive_solver.
Qed.

Lemma tasks_delete_linked id s resp s' :
  tasks_delete_effect id s resp s' →
  open_task_linked s → open_task_linked s'.
Proof.
  intros (tid0 & t0 & _ & _ & Ht0 & ->) Hl tid t Ht Hopen Hcanon.
  cbn [users tasks] in *.
  apply lookup_delete_Some in Ht as [Hne Ht].
  destruct (Hl _ _ Ht Hopen Hcanon) as (u & Hu & Hname & Hin).
  destruct (relisted_forward _ _ _ _ _
              (relisted_unlink_deleted (Task.assignedUser t0) tid0 (users s)) Hu)
    as (u' & Hu' & (Hn & _) & Hmem). cbn beta in Hmem.
  exists u'. split_and!; [exact Hu'|congruence|].
  apply Hmem. naive_solver.
Qed.

Lemma users_post_linked b env s resp s' :
  users_post_effect b env s resp s' →
  open_task_linked s → open_task_linked s'.
Proof.
  intros (valid & _ & Hfresh & _ & _ & _ & ->) Hl tid t' Ht' Hopen Hcanon.
  cbn [users tasks] in *.
  apply lookup_assign_in_Some in Ht'
    as (t & Ht & Hc & _ & [(Hin & Ha & Hname)|(Hnin & ->)]).
  - rewrite Ha, lookup_insert_eq. eexists. split_and!; [done|by rewrite Hname|done].
  - destruct (Hl _ _ Ht Hopen Hcanon) as (u & Hu & Hname & Hin).
    rewrite lookup_insert_ne by (intros Heq; rewrite <- Heq in Hu; congruence).
    destruct (relisted_forward _ _ _ _ _
                (relisted_pull_from_others (new_oid (next_oid s)) valid (users s)) Hu)
      as (u' & Hu' & (Hn & _) & Hmem). cbn beta in Hmem.
    exists u'. split_and!; [exact Hu'|congruence|].
    apply Hmem. auto.
Qed.

Lemma users_put_linked id b s resp s' :
  users_put_effect id b s resp s' →
  open_task_linked s → open_task_linked s'.
Proof.
  intros (uid0 & user & valid & _ & Hid & Huser & _ & _ & _ & ->)
    Hl tid t' Ht' Hopen Hcanon.
  cbn [users tasks] in *.
  apply lookup_assign_in_Some in Ht'
    as (t1 & Ht1 & Hc1 & _ & [(Hin & Ha & Hname)|(Hnin & ->)]).
  - rewrite Ha, lookup_insert_eq. eexists. split_and!; [done|by rewrite Hname|done].
  - apply lookup_unassign_open_Some in Ht1
      as (t & Ht & Hc & _ & [(_ & _ & Ha & _)|(Hnot & ->)]).
    { rewrite Ha in Hcanon. by rewrite cast_empty in Hcanon. }
    destruct (Hl _ _ Ht Hopen Hcanon) as (u & Hu & Hname & Hin).
    rewrite lookup_insert_ne by naive_solver.
    destruct (relisted_forward _ _ _ _ _
                (relisted_pull_from_others uid0 valid (users s)) Hu)
      as (u' & Hu' & (Hn & _) & Hmem). cbn beta in Hmem.
    exists u'. split_and!; [exact Hu'|congruence|].
    apply Hmem. auto.
Qed.

Lemma users_delete_linked id s resp s' :
  users_delete_effect id s resp s' →
  open_task_linked s → open_task_linked s'.
Proof.
  intros (uid0 & u0 & _ & Hid & Hu0 & ->) Hl tid t' Ht' Hopen Hcanon.
  cbn [users tasks] in *.
  apply lookup_unassign_open_Some in Ht'
    as (t & Ht & Hc & _ & [(_ & _ & Ha & _)|(Hnot & ->)]).
  { rewrite Ha in Hcanon. by rewrite cast_empty in Hcanon. }
  destruct (Hl _ _ Ht Hopen Hcanon) as (u & Hu & Hname & Hin).
  exists u. rewrite lookup_delete_ne by naive_solver. done.
Qed.

Lemma serve_linked env r s :
  open_task_linked s → open_task_linked (serve env r s).2.
Proof.
  intros Hp. destruct (serve_cases env r s) as [[_ ->]|(_ & _ & resp & _ & He)];
    [done|].
  destruct r; simpl in He.
  - by eapply users_post_linked.
  - by eapply users_put_linked.
  - by eapply users_delete_linked.
  - by eapply tasks_post_linked.
  - by eapply tasks_put_linked.
  - by eapply tasks_delete_linked.
Qed.

(** *** A task without assignee is named "unassigned" *)

Lemma serve_unassigned env r s :
  unassigned_named s → unassigned_named (serve env r s).2.
Proof.
  intros Hn. destruct (serve_cases env r s) as [[_ ->]|(_ & _ & resp & _ & He)];
    [done|].
  intros tid t' Ht' Ha. destruct r; simpl in He.
  - destruct He as (valid & _ & _ & _ & _ & _ & Hs'). rewrite Hs' in Ht'. cbn [tasks] in Ht'.
    apply lookup_assign_in_Some in Ht'
      as (t & Ht & _ & _ & [(_ & Ha' & _)|(_ & ->)]); [|by eapply Hn].
    rewrite Ha in Ha'. symmetry in Ha'.
    by destruct (cast_nonempty _ _ (cast_new_oid (next_oid s))).
  - destruct He as (uid0 & user & valid & _ & Hid & _ & _ & _ & _ & Hs').
    rewrite Hs' in Ht'. cbn [tasks] in Ht'.
    apply lookup_assign_in_Some in Ht'
      as (t1 & Ht1 & _ & _ & [(_ & Ha' & _)|(_ & ->)]).
    { rewrite Ha in Ha'. symmetry in Ha'.
      by destruct (cast_result_nonempty _ _ Hid). }
    apply lookup_unassign_open_Some in Ht1
      as (t & Ht & _ & _ & [(_ & _ & _ & Hname)|(_ & ->)]); [done|by eapply Hn].
  - destruct He as (uid0 & u0 & _ & _ & _ & Hs'). rewrite Hs' in Ht'. cbn [tasks] in Ht'.
    apply lookup_unassign_open_Some in Ht'
      as (t & Ht & _ & _ & [(_ & _ & _ & Hname)|(_ & ->)]); [done|by eapply Hn].
  - destruct He as (z & _ & _ & _ & Hs'). rewrite Hs' in Ht'. cbn [tasks] in Ht'.
    apply lookup_insert_Some in Ht' as [[_ <-]|[_ Ht']]; [|by eapply Hn].
    destruct (written_task_assignee b s z (now env)) as [[_ ?]|[? _]]; done.
  - destruct He as (tid0 & cur & z & _ & _ & _ & _ & Hs'). rewrite Hs' in Ht'. cbn [tasks] in Ht'.
    apply lookup_insert_Some in Ht' as [[_ <-]|[_ Ht']]; [|by eapply Hn].
    destruct (written_task_assignee b s z (Task.dateCreated cur))
      as [[_ ?]|[? _]]; done.
  - destruct He as (tid0 & t0 & _ & _ & _ & Hs'). rewrite Hs' in Ht'. cbn [tasks] in Ht'.
    apply lookup_delete_Some in Ht' as [_ Ht']. by eapply Hn.
Qed.

(** *** The users collection after a request *)

Lemma email_in_use_false e except (m : gmap string User.doc) :
  email_in_use e except m = false →
  ∀ k u, m !! k = Some u → User.email u = e → Some k = except.
Proof.
  unfold email_in_use. intros H%bool_decide_eq_false k u Hk He.
  destruct (decide (Some k = except)) as [|Hne]; [done|].
  destruct H. apply Exists_exists. exists (k, u). split; [|done].
  by apply elem_of_map_to_list.
Qed.

Lemma email_in_use_true e except (m : gmap string User.doc) :
  email_in_use e except m = true →
  ∃ k u, m !! k = Some u ∧ User.email u = e ∧ Some k ≠ except.
Proof.
  unfold email_in_use. intros H%bool_decide_eq_true.
  apply Exists_exists in H as ([k u] & Hin%elem_of_map_to_list & He & Hk).
  by exists k, u.
Qed.

Lemma relisted_pending_only R m m' : relisted R m m' → pending_only m m'.
Proof. by apply relisted_weaken. Qed.

Lemma effect_users_change env r s resp s' :
  effect env r s resp s' → users_change (users s) (users s').
Proof.
  destruct r; simpl.
  - intros (valid & _ & Hfresh & _ & Hfree & [Hnd _] & ->). cbn [users].
    eapply Written; [done| |done| |].
    + eapply relisted_pending_only, relisted_pull_from_others.
    + intros k v Hv _ Heq.
      by pose proof (email_in_use_false _ _ _ Hfree k v Hv Heq).
    + intros old Hold. congruence.
  - intros (uid & user & valid & _ & _ & Huser & _ & Hfree & [Hnd _] & ->).
    cbn [users].
    eapply Written; [done| |done| |].
    + eapply relisted_pending_only, relisted_pull_from_others.
    + intros k v Hv Hne Heq.
      pose proof (email_in_use_false _ _ _ Hfree k v Hv Heq). congruence.
    + intros old Hold. cbn. congruence.
  - intros (uid & u & _ & _ & _ & ->). by eapply Deleted.
  - intros (z & _ & _ & _ & ->). apply Relisted.
    eapply relisted_pending_only, relisted_link_new.
  - intros (tid & cur & z & _ & _ & _ & _ & ->). apply Relisted. cbn [users].
    eapply (relisted_trans (λ _ _ _, True) (λ _ _ _, True)); [done| |].
    + eapply relisted_pending_only, relisted_unlink_prev.
    + eapply relisted_pending_only, relisted_link_replaced.
  - intros (tid & t & _ & _ & _ & ->). apply Relisted.
    eapply relisted_pending_only, relisted_unlink_deleted.
Qed.

Lemma serve_users_change env r s :
  succeeded (serve env r s).1 = true →
  users_change (users s) (users (serve env r s).2).
Proof.
  intros (resp & _ & He)%serve_effect. by eapply effect_users_change.
Qed.

Lemma users_change_emails m m' :
  users_change m m' →
  (∀ k1 k2 u1 u2, m !! k1 = Some u1 → m !! k2 = Some u2 →
                  User.email u1 = User.email u2 → k1 = k2) →
  ∀ k1 k2 u1 u2, m' !! k1 = Some u1 → m' !! k2 = Some u2 →
                 User.email u1 = User.email u2 → k1 = k2.
Proof.
  assert (∀ m1, pending_only m m1 →
            (∀ k1 k2 u1 u2, m !! k1 = Some u1 → m !! k2 = Some u2 →
                            User.email u1 = User.email u2 → k1 = k2) →
            ∀ k1 k2 u1 u2, m1 !! k1 = Some u1 → m1 !! k2 = Some u2 →
                           User.email u1 = User.email u2 → k1 = k2) as Hpo.
  { intros m1 Hm IH k1 k2 u1 u2 H1 H2 Heq.
    destruct (relisted_Some _ _ _ _ _ Hm H1) as (v1 & Hv1 & (_ & He1 & _) & _).
    destruct (relisted_Some _ _ _ _ _ Hm H2) as (v2 & Hv2 & (_ & He2 & _) & _).
    apply (IH _ _ _ _ Hv1 Hv2). congruence. }
  intros [Hm|uid u m1 -> Hm Hnd Hfree _|uid ->] IH k1 k2 u1 u2 H1 H2 Heq.
  - by eapply (Hpo m').
  - apply lookup_insert_Some in H1 as [[<- <-]|[N1 H1]];
      apply lookup_insert_Some in H2 as [[<- <-]|[N2 H2]]; [done|..].
    + destruct (relisted_Some _ _ _ _ _ Hm H2) as (v & Hv & (_ & He & _) & _).
      destruct (Hfree _ _ Hv); congruence.
    + destruct (relisted_Some _ _ _ _ _ Hm H1) as (v & Hv & (_ & He & _) & _).
      destruct (Hfree _ _ Hv); congruence.
    + by eapply (Hpo m1).
  - apply lookup_delete_Some in H1 as [_ H1].
    apply lookup_delete_Some in H2 as [_ H2]. by eapply IH.
Qed.

Lemma users_change_nodup m m' :
  users_change m m' →
  (∀ k u, m !! k = Some u → NoDup (User.pendingTasks u)) →
  ∀ k u, m' !! k = Some u → NoDup (User.pendingTasks u).
Proof.
  intros [Hm|uid u m1 -> Hm Hnd _ _|uid ->] IH k u' Hu'.
  - destruct (relisted_Some _ _ _ _ _ Hm Hu') as (v & Hv & (_ & _ & _ & Hn) & _).
    eauto.
  - apply lookup_insert_Some in Hu' as [[<- <-]|[_ Hu']]; [done|].
    destruct (relisted_Some _ _ _ _ _ Hm Hu') as (v & Hv & (_ & _ & _ & Hn) & _).
    eauto.
  - apply lookup_delete_Some in Hu' as [_ Hu']. eauto.
Qed.

Lemma users_change_dateCreated m m' k u u' :
  users_change m m' → m !! k = Some u → m' !! k = Some u' →
  User.dateCreated u' = User.dateCreated u.
Proof.
  intros [Hm|uid w m1 -> Hm _ _ Hdate|uid ->] Hu Hu'.
  - destruct (relisted_Some _ _ _ _ _ Hm Hu') as (v & Hv & (_ & _ & Hd & _) & _).
    congruence.
  - apply lookup_insert_Some in Hu' as [[<- <-]|[_ Hu']]; [by apply Hdate|].
    destruct (relisted_Some _ _ _ _ _ Hm Hu') as (v & Hv & (_ & _ & Hd & _) & _).
    congruence.
  - apply lookup_delete_Some in Hu' as [_ Hu']. congruence.
Qed.

Lemma effect_task_dateCreated env r s resp s' k t t' :
  effect env r s resp s' → tasks s !! k = Some t → tasks s' !! k = Some t' →
  Task.dateCreated t' = Task.dateCreated t.
Proof.
  intros He Ht Ht'. destruct r; simpl in He.
  - destruct He as (valid & _ & _ & _ & _ & _ & ->). cbn [tasks] in Ht'.
    apply lookup_assign_in_Some in Ht' as (t0 & Ht0 & _ & -> & _). congruence.
  - destruct He as (uid & user & valid & _ & _ & _ & _ & _ & _ & ->).
    cbn [tasks] in Ht'.
    apply lookup_assign_in_Some in Ht' as (t1 & Ht1 & _ & -> & _).
    apply lookup_unassign_open_Some in Ht1 as (t0 & Ht0 & _ & -> & _). congruence.
  - destruct He as (uid & u & _ & _ & _ & ->). cbn [tasks] in Ht'.
    apply lookup_unassign_open_Some in Ht' as (t0 & Ht0 & _ & -> & _). congruence.
  - destruct He as (z & _ & _ & Hfresh & ->). cbn [tasks] in Ht'.
    apply lookup_insert_Some in Ht' as [[<- _]|[_ Ht']]; congruence.
  - destruct He as (tid & cur & z & _ & _ & Hcur & _ & ->). cbn [tasks] in Ht'.
    apply lookup_insert_Some in Ht' as [[<- <-]|[_ Ht']]; [|congruence].
    cbn. congruence.
  - destruct He as (tid & t0 & _ & _ & _ & ->). cbn [tasks] in Ht'.
    apply lookup_delete_Some in Ht' as [_ Ht']. congruence.
Qed.

(** *** All invariants together *)

Lemma empty_store_consistent : consistent empty_store.
Proof.
  split.
  - intros uid u tid Hu. cbn in Hu. by rewrite lookup_empty in Hu.
  - intros tid t Ht. cbn in Ht. by rewrite lookup_empty in Ht.
  - intros tid t Ht. cbn in Ht. by rewrite lookup_empty in Ht.
  - intros k1 k2 u1 u2 H1. cbn in H1. by rewrite lookup_empty in H1.
  - intros uid u Hu. cbn in Hu. by rewrite lookup_empty in Hu.
Qed.

Lemma serve_consistent env r s : consistent s → consistent (serve env r s).2.
Proof.
  intros [Hp Hl Hn He Hd].
  destruct (succeeded (serve env r s).1) eqn:Hok; cycle 1.
  { destruct (serve_cases env r s) as [[_ ->]|(? & _)]; [done|congruence]. }
  pose proof (serve_users_change env r s Hok) as Hch.
  split.
  - by apply serve_pending.
  - by apply serve_linked.
  - by apply serve_unassigned.
  - exact (users_change_emails _ _ Hch He).
  - exact (users_change_nodup _ _ Hch Hd).
Qed.

Lemma serve_all_consistent rs s : consistent s → consistent (serve_all rs s).
Proof.
  revert s. induction rs as [|[env r] rs IH]; intros s Hs; [done|].
  simpl. by apply IH, serve_consistent.
Qed.

Lemma reachable_consistent rs : consistent (serve_all rs empty_store).
Proof. apply serve_all_consistent, empty_store_consistent. Qed.

End Preservation.

(** * The link between tasks and pending lists *)

(** C1 (invariant I2) fails on the code when the assignee of a task is
    given in another spelling than the one the store renders.  Ann is
    stored under [a000...0]; a task created with [assignedUser = A000...0]
    is accepted (201), stores the string as the caller spelled it, and is
    added to Ann's pending list: the task is pending on Ann while its
    [assignedUser] is not Ann's id.  Replacing Ann with an empty pending
    list then succeeds and leaves the task as it is, because the tasks of
    the user are looked up by the rendered id: the task is not completed
    and still assigned to Ann's id in its upper-case spelling, yet in no
    pending list. *)
Lemma respelled_assignee_breaks_pending_iff_assigned :
  let with_ann := (serve (calm 1) (PostUser ann) empty_store).2 in
  let T1 := {| Task.name := "T1"; Task.description := "";
               Task.deadline := 1700000000; Task.completed := false;
               Task.assignedUser := ANN_ID; Task.assignedUserName := "Ann";
               Task.dateCreated := 2 |} in
  let out := serve (calm 3) (PutUser ann_id ann) ann_with_T1 in
  serve (calm 2) (PostTask (t1 ANN_ID false)) with_ann
    = (Some (respond 201 "Task created" (TaskDoc t1_id T1)), ann_with_T1) ∧
  users ann_with_T1 !! ann_id = Some (User.mk "Ann" "ann@x.com" [t1_id] 1) ∧
  tasks ann_with_T1 !! t1_id = Some T1 ∧
  t1_id ∈ [t1_id] ∧
  Task.assignedUser T1 ≠ ann_id ∧
  out.1 = Some (respond 200 "User updated"
                  (UserDoc ann_id (User.mk "Ann" "ann@x.com" [] 1))) ∧
  users out.2 !! ann_id = Some (User.mk "Ann" "ann@x.com" [] 1) ∧
  tasks out.2 !! t1_id = Some T1 ∧
  castObjectId (Task.assignedUser T1) = Some ann_id ∧
  Task.completed T1 = false.
Proof.
  cbv zeta. split_and!; try (vm_compute; reflexivity).
  - apply list_elem_of_singleton; reflexivity.
  - discriminate.
Qed.

(** * Tasks dropped by a user replace *)

(** C2 as stated fails: replacing Ann with an empty pending list while T1
    is pending on her succeeds, and T1's [assignedUser] and
    [assignedUserName] are reset, not left as they were. *)
Lemma replace_user_unassigns_dropped_task :
  let out := serve (calm 3) (PutUser ann_id ann) ann_with_t1 in
  (User.pendingTasks <$> users ann_with_t1 !! ann_id) = Some [t1_id] ∧
  (Task.assignedUser <$> tasks ann_with_t1 !! t1_id) = Some ann_id ∧
  (Task.assignedUserName <$> tasks ann_with_t1 !! t1_id) = Some "Ann" ∧
  (status <$> out.1) = Some 200%nat ∧
  (User.pendingTasks <$> users out.2 !! ann_id) = Some [] ∧
  (Task.assignedUser <$> tasks out.2 !! t1_id) = Some "" ∧
  (Task.assignedUserName <$> tasks out.2 !! t1_id) = Some "unassigned".
Proof. vm_compute. repeat split; reflexivity. Qed.

Section Replace.
Context {platform : Platform}.

(** C2, amended.  A successful user replace stores the new filtered pending
    list on the user, whose id [uid] is the path id as the store renders
    it, and does this to every task that is absent from that list, whether
    it was pending on the user or not: a task that is not completed and
    whose stored [assignedUser] is the string [uid] has its [assignedUser]
    cleared to the empty string and its [assignedUserName] reset to
    "unassigned", its other fields unchanged; every other task -- completed,
    assigned to another user, unassigned, or assigned to this user under
    another spelling of its id -- is left exactly as it was. *)
Theorem replace_user_dropped_tasks
    (env : Env) (id : string) (b : UserBody.t) (s : Store) :
  succeeded (serve env (PutUser id b) s).1 = true →
  ∃ uid u',
    castObjectId id = Some uid ∧
    users (serve env (PutUser id b) s).2 !! uid = Some u' ∧
    ∀ tid t,
      tasks s !! tid = Some t →
      tid ∉ User.pendingTasks u' →
      tasks (serve env (PutUser id b) s).2 !! tid =
        Some (if bool_decide (Task.assignedUser t = uid) && negb (Task.completed t)
              then assign "" "unassigned" t else t).
Proof.
  intros Hok.
  destruct (serve_effect env (PutUser id b) s Hok) as (resp & _ & He).
  destruct He as (uid & user & valid & _ & Hcast & Huser & _ & _ & _ & ->).
  cbn [users tasks]. eexists uid, _. split; [done|].
  split; [apply lookup_insert_eq|]. cbn [User.pendingTasks].
  intros tid t Ht Hout.
  rewrite lookup_assign_in, lookup_unassign_open, Ht. cbn.
  by rewrite bool_decide_eq_false_2 by done.
Qed.

(** * Creation timestamps *)

(** C4.  A replace never changes a stored creation timestamp: whatever the
    id in the path and the payload (its own [dateCreated] field included),
    whatever the outcome and whichever store call fails, every document
    stored before the request is stored after it with the [dateCreated] it
    had -- the replaced document in particular. *)
Theorem replace_keeps_dateCreated (env : Env) (id k : string) (s : Store) :
  (∀ b u, users s !! k = Some u →
     ∃ u', users (serve env (PutUser id b) s).2 !! k = Some u' ∧
           User.dateCreated u' = User.dateCreated u) ∧
  (∀ b t, tasks s !! k = Some t →
     ∃ t', tasks (serve env (PutTask id b) s).2 !! k = Some t' ∧
           Task.dateCreated t' = Task.dateCreated t).
Proof.
  split.
  - intros b u Hu.
    destruct (serve_cases env (PutUser id b) s) as [[_ ->]|(_ & _ & resp & _ & He)];
      [eauto|].
    destruct He as (uid & user & valid & _ & _ & Huser & _ & _ & _ & ->).
    cbn [users]. destruct (decide (k = uid)) as [->|Hne].
    + rewrite lookup_insert_eq. eexists. split; [done|]. cbn. congruence.
    + rewrite lookup_insert_ne, lookup_pull_from_others, Hu by done. cbn.
      eexists. split; [done|]. by destruct (_ && _).
  - intros b t Ht.
    destruct (serve_cases env (PutTask id b) s) as [[_ ->]|(_ & _ & resp & _ & He)];
      [eauto|].
    destruct He as (tid & cur & z & _ & _ & Hcur & _ & ->). cbn [tasks].
    destruct (decide (k = tid)) as [->|Hne].
    + rewrite lookup_insert_eq. eexists. split; [done|]. cbn. congruence.
    + rewrite lookup_insert_ne by done. eauto.
Qed.

End Replace.

(** Replacing Ann with an empty pending list, on the store where T1 is
    assigned to her under her rendered id and on the store where it is
    assigned under the upper-case spelling: T1 is unassigned in the first
    and left as it was in the second. *)
Lemma replace_user_dropped_tasks_witness :
  tasks (serve (calm 3) (PutUser ann_id ann) ann_with_t1).2 !! t1_id =
    Some {| Task.name := "T1"; Task.description := "";
            Task.deadline := 1700000000; Task.completed := false;
            Task.assignedUser := ""; Task.assignedUserName := "unassigned";
            Task.dateCreated := 2 |} ∧
  tasks (serve (calm 3) (PutUser ann_id ann) ann_with_T1).2 !! t1_id =
    Some {| Task.name := "T1"; Task.description := "";
            Task.deadline := 1700000000; Task.completed := false;
            Task.assignedUser := ANN_ID; Task.assignedUserName := "Ann";
            Task.dateCreated := 2 |}.
Proof.
  split.
  - assert (succeeded (serve (calm 3) (PutUser ann_id ann) ann_with_t1).1 = true)
      as Hok by (vm_compute; reflexivity).
    destruct (replace_user_dropped_tasks (calm 3) ann_id ann ann_with_t1 Hok)
      as (uid & u' & Hcast & Hu' & Hframe).
    injection Hcast as <-.
    assert (User.pendingTasks u' = []) as Hnil
      by (vm_compute in Hu'; by injection Hu' as <-).
    rewrite (Hframe t1_id
               {| Task.name := "T1"; Task.description := "";
                  Task.deadline := 1700000000; Task.completed := false;
                  Task.assignedUser := ann_id; Task.assignedUserName := "Ann";
                  Task.dateCreated := 2 |}).
    + reflexivity.
    + vm_compute; reflexivity.
    + rewrite Hnil. apply not_elem_of_nil.
  - assert (succeeded (serve (calm 3) (PutUser ann_id ann) ann_with_T1).1 = true)
      as Hok by (vm_compute; reflexivity).
    destruct (replace_user_dropped_tasks (calm 3) ann_id ann ann_with_T1 Hok)
      as (uid & u' & Hcast & Hu' & Hframe).
    injection Hcast as <-.
    assert (User.pendingTasks u' = []) as Hnil
      by (vm_compute in Hu'; by injection Hu' as <-).
    rewrite (Hframe t1_id
               {| Task.name := "T1"; Task.description := "";
                  Task.deadline := 1700000000; Task.completed := false;
                  Task.assignedUser := ANN_ID; Task.assignedUserName := "Ann";
                  Task.dateCreated := 2 |}).
    + reflexivity.
    + vm_compute; reflexivity.
    + rewrite Hnil. apply not_elem_of_nil.
Defined.

(** Replacing Ann and T1 with payloads that carry [dateCreated = 99]: both
    replaces succeed and the stored timestamps (1 and 2) stay. *)
Lemma replace_keeps_dateCreated_witness :
  let ann' := {| UserBody.name := Some "Ann B."; UserBody.email := Some "ann@y.org";
                 UserBody.pendingTasks := Some [];
                 UserBody.dateCreated := Some 99%Z |} in
  let t1' := {| TaskBody.name := Some "T1 again"; TaskBody.description := None;
                TaskBody.deadline := DateValue 5; TaskBody.assignedUser := None;
                TaskBody.assignedUserName := None;
                TaskBody.completed := JsBool true;
                TaskBody.dateCreated := Some 99%Z |} in
  (status <$> (serve (calm 3) (PutUser ann_id ann') ann_with_t1).1) = Some 200%nat ∧
  (status <$> (serve (calm 3) (PutTask t1_id t1') ann_with_t1).1) = Some 200%nat ∧
  (∃ u', users (serve (calm 3) (PutUser ann_id ann') ann_with_t1).2 !! ann_id
           = Some u' ∧ User.dateCreated u' = 1%Z) ∧
  (∃ t', tasks (serve (calm 3) (PutTask t1_id t1') ann_with_t1).2 !! t1_id
           = Some t' ∧ Task.dateCreated t' = 2%Z).
Proof.
  cbv zeta.
  split; [vm_compute; reflexivity|].
  split; [vm_compute; reflexivity|].
  split.
  - eapply (proj1 (replace_keeps_dateCreated (calm 3) ann_id ann_id ann_with_t1) _
              {| User.name := "Ann"; User.email := "ann@x.com";
                 User.pendingTasks := [t1_id]; User.dateCreated := 1 |}).
    vm_compute; reflexivity.
  - eapply (proj2 (replace_keeps_dateCreated (calm 3) t1_id t1_id ann_with_t1) _
              {| Task.name := "T1"; Task.description := "";
                 Task.deadline := 1700000000; Task.completed := false;
                 Task.assignedUser := ann_id; Task.assignedUserName := "Ann";
                 Task.dateCreated := 2 |}).
    vm_compute; reflexivity.
Defined.

(** * Assignees of stored tasks *)

(** C3 as stated fails in two ways.  Deleting Ann while her completed task
    T1 is assigned to her succeeds and leaves T1 with Ann's id, which then
    names no stored user.  And deleting Ann while T1, not completed, is
    assigned to her under the upper-case spelling of her id succeeds and
    leaves T1 assigned under that spelling. *)
Lemma delete_user_keeps_completed_task_assigned :
  let out := serve (calm 3) (DeleteUser ann_id) ann_with_done_t1 in
  let out' := serve (calm 3) (DeleteUser ann_id) ann_with_T1 in
  (Task.completed <$> tasks ann_with_done_t1 !! t1_id) = Some true ∧
  (Task.assignedUser <$> tasks ann_with_done_t1 !! t1_id) = Some ann_id ∧
  out.1 = Some (respond 204 "" NoContent) ∧
  (Task.assignedUser <$> tasks out.2 !! t1_id) = Some ann_id ∧
  users out.2 !! ann_id = None ∧
  (Task.completed <$> tasks ann_with_T1 !! t1_id) = Some false ∧
  (Task.assignedUser <$> tasks ann_with_T1 !! t1_id) = Some ANN_ID ∧
  out'.1 = Some (respond 204 "" NoContent) ∧
  (Task.completed <$> tasks out'.2 !! t1_id) = Some false ∧
  (Task.assignedUser <$> tasks out'.2 !! t1_id) = Some ANN_ID ∧
  users out'.2 = ∅.
Proof. vm_compute. repeat split; reflexivity. Qed.

Section Reachable.
Context {platform : Platform} {laws : PlatformLaws platform}.

(** C3, amended (invariant I1 for the tasks that are not completed and
    whose assignee is stored as the store renders ids).  After any sequence
    of requests served from the empty database -- successful or not, with
    any store call failing -- every stored task with [completed = false]
    whose [assignedUser] is an id in the rendering of the store (the string
    casts to itself) is assigned to a stored user. *)
Theorem open_task_assignee_exists_after_requests
    (rs : list (Env * Request)) (tid : string) (t : Task.doc) :
  tasks (serve_all rs empty_store) !! tid = Some t →
  Task.completed t = false →
  castObjectId (Task.assignedUser t) = Some (Task.assignedUser t) →
  is_Some (users (serve_all rs empty_store) !! Task.assignedUser t).
Proof.
  intros Ht Hc Hcast.
  destruct (consistent_linked _ (reachable_consistent rs) tid t Ht Hc Hcast)
    as (u & Hu & _). by exists u.
Qed.

End Reachable.

Lemma open_task_assignee_exists_after_requests_witness :
  ∃ t,
    tasks ann_with_t1 !! t1_id = Some t ∧
    Task.assignedUser t = ann_id ∧
    is_Some (users ann_with_t1 !! Task.assignedUser t).
Proof.
  eexists.
  split; [vm_compute; reflexivity|].
  split; [reflexivity|].
  apply (open_task_assignee_exists_after_requests
           [(calm 1, PostUser ann); (calm 2, PostTask (t1 ann_id false))] t1_id);
    vm_compute; reflexivity.
Defined.

(** * Malformed identifiers *)

(** C8 as stated fails: an id in the path that does not cast to an
    ObjectId is answered like an id that names no document (404, "not
    found"), not like a validation failure (400). *)
Lemma malformed_id_is_not_a_validation_failure :
  let no_query := Query.mk None None None None None None None in
  let text := toy_text (λ _, None) in
  serve (calm 3) (DeleteUser "not-an-id") ann_with_t1
    = (Some (respond 404 "User not found" EmptyObject), ann_with_t1) ∧
  serve (calm 3) (PutTask "not-an-id" (t1 "" false)) ann_with_t1
    = (Some (respond 404 "Task not found" EmptyObject), ann_with_t1) ∧
  users_get (text := text) (user_engine := toy_engine User.doc)
      "not-an-id" no_query ann_with_t1
    = read_respond 404 "User not found" Nothing ∧
  (serve (calm 3) (DeleteUser "ffffffffffffffffffffffff") ann_with_t1).1
    = Some (respond 404 "User not found" EmptyObject) ∧
  (serve (calm 3)
     (PutUser ann_id (UserBody.mk None (Some "ann@x.com") (Some []) None))
     ann_with_t1).1
    = Some (respond 400 "Missing required fields" EmptyObject).
Proof. vm_compute. repeat split; reflexivity. Qed.

Section Malformed.
Context {platform : Platform}.

(** C8, amended.  A get, replace or delete by id whose id does not cast to
    an ObjectId is answered 404 "not found" -- the answer given for an id
    that casts and names no document -- before any store call is made, and
    commits nothing.  For a get this holds when the select parameter is
    absent, or parses to a value that the query builder takes without
    throwing; a select that does not parse is answered 400 and one on
    which the builder throws 500, whatever the id. *)
Theorem malformed_id_is_answered_not_found (id : string) :
  castObjectId id = None →
  (∀ env b s,
     serve env (PutUser id b) s
       = (Some (respond 404 "User not found" EmptyObject), s) ∧
     calls_made env (PutUser id b) s = 0%nat) ∧
  (∀ env s,
     serve env (DeleteUser id) s
       = (Some (respond 404 "User not found" EmptyObject), s) ∧
     calls_made env (DeleteUser id) s = 0%nat) ∧
  (∀ env b s,
     serve env (PutTask id b) s
       = (Some (respond 404 "Task not found" EmptyObject), s) ∧
     calls_made env (PutTask id b) s = 0%nat) ∧
  (∀ env s,
     serve env (DeleteTask id) s
       = (Some (respond 404 "Task not found" EmptyObject), s) ∧
     calls_made env (DeleteTask id) s = 0%nat) ∧
  (∀ (json : Type) (text : JsonText json)
     (user_engine : QueryEngine json User.doc)
     (task_engine : QueryEngine json Task.doc) q s select,
     parseJSONQueryParam (Query.select q) (Query.filter q) = Some select →
     (verdict_of (select_verdict (D := User.doc)) select ≠ Thrown →
      users_get id q s = read_respond 404 "User not found" Nothing) ∧
     (verdict_of (select_verdict (D := Task.doc)) select ≠ Thrown →
      tasks_get id q s = read_respond 404 "Task not found" Nothing)).
Proof.
  intros Hid. split_and!.
  - intros env b [us ts nx]. apply serve_from_wp. unfold open_session. simpl route.
    repeat (wp_step; try congruence). done.
  - intros env [us ts nx]. apply serve_from_wp. unfold open_session. simpl route.
    repeat (wp_step; try congruence). done.
  - intros env b [us ts nx]. apply serve_from_wp. unfold open_session. simpl route.
    repeat (wp_step; try congruence). done.
  - intros env [us ts nx]. apply serve_from_wp. unfold open_session. simpl route.
    repeat (wp_step; try congruence). done.
  - intros json text user_engine task_engine q s select Hsel.
    unfold users_get, tasks_get, findById_select. rewrite Hsel, Hid.
    split; intros Hv; by destruct (verdict_of _ select).
Qed.

(** * Atomicity *)

(** C9.  A request that does not answer with success -- it answers with an
    error status, or its handler throws without answering -- commits
    nothing, and whenever one of the store calls a request makes fails,
    whichever call it is and whatever the error, the request does not
    answer with success: the committed store is the one before the
    request. *)
Theorem failed_request_commits_nothing (env : Env) (r : Request) (s : Store) :
  (succeeded (serve env r s).1 = false → (serve env r s).2 = s) ∧
  (∀ k e, (k < calls_made env r s)%nat → faults env k = Some e →
          succeeded (serve env r s).1 = false ∧ (serve env r s).2 = s).
Proof.
  destruct (serve_cases env r s) as [[Hf Hs]|(Ht & Hcalls & _)].
  - split; [done|]. intros k e _ _. done.
  - split; [congruence|]. intros k e Hk He.
    rewrite (Hcalls k Hk) in He. done.
Qed.

End Malformed.

Lemma malformed_id_is_answered_not_found_witness :
  serve (failing 3 0 OtherError) (PutUser "not-an-id" ann) ann_with_t1
    = (Some (respond 404 "User not found" EmptyObject), ann_with_t1) ∧
  calls_made (failing 3 0 OtherError) (PutUser "not-an-id" ann) ann_with_t1 = 0%nat.
Proof.
  apply (proj1 (malformed_id_is_answered_not_found (platform := ascii_platform)
                  "not-an-id" eq_refl)).
Defined.

(** Replacing T1 (reassigned from Ann to nobody, now completed) with the
    write on the users collection failing: the task overwrite made earlier
    in the transaction is not committed either. *)
Lemma failed_request_commits_nothing_witness :
  let env := failing 3 2 OtherError in
  let r := PutTask t1_id (t1 "" true) in
  (2 < calls_made env r ann_with_t1)%nat ∧
  succeeded (serve env r ann_with_t1).1 = false ∧
  (serve env r ann_with_t1).2 = ann_with_t1.
Proof.
  split; [vm_compute; lia|].
  apply (proj2 (failed_request_commits_nothing
                  (failing 3 2 OtherError) (PutTask t1_id (t1 "" true))
                  ann_with_t1) 2%nat OtherError).
  - vm_compute; lia.
  - reflexivity.
Defined.

(** * Malformed references inside a payload *)

(** C5 fails on the code for an assignee id that does not cast: the lookup
    of the assignee raises a cast error, the create answers 500 and the
    replace answers 404 "Task not found"; nothing is stored.  An id that
    casts and names no user is downgraded to "unassigned" as claimed. *)
Lemma malformed_assignee_fails_the_request :
  serve (calm 3) (PostTask (t1 "not-an-id" false)) ann_with_t1
    = (Some (respond 500 "Server error" EmptyObject), ann_with_t1) ∧
  serve (calm 3) (PutTask t1_id (t1 "not-an-id" false)) ann_with_t1
    = (Some (respond 404 "Task not found" EmptyObject), ann_with_t1) ∧
  (serve (calm 3) (PostTask (t1 "ffffffffffffffffffffffff" false)) ann_with_t1).1
    = Some (respond 201 "Task created"
              (TaskDoc bob_id
                 {| Task.name := "T1"; Task.description := "";
                    Task.deadline := 1700000000; Task.completed := false;
                    Task.assignedUser := ""; Task.assignedUserName := "unassigned";
                    Task.dateCreated := 3 |})).
Proof. vm_compute. repeat split; reflexivity. Qed.

(** C6 fails on the code for an id in the pending list that does not cast:
    the task query raises a cast error, the create answers 500 and the
    replace answers 404 "User not found"; nothing is stored.  Ids of
    completed or missing tasks are dropped as claimed. *)
Lemma malformed_pending_id_fails_the_request :
  let with_pending l :=
    {| UserBody.name := Some "Bob"; UserBody.email := Some "bob@x.com";
       UserBody.pendingTasks := Some l; UserBody.dateCreated := None |} in
  serve (calm 3) (PostUser (with_pending [t1_id; "not-an-id"])) ann_with_t1
    = (Some (respond 500 "Server error" EmptyObject), ann_with_t1) ∧
  serve (calm 3) (PutUser ann_id (with_pending [t1_id; "not-an-id"])) ann_with_t1
    = (Some (respond 404 "User not found" EmptyObject), ann_with_t1) ∧
  (serve (calm 3)
     (PostUser (with_pending [t1_id; "ffffffffffffffffffffffff"])) ann_with_t1).1
    = Some (respond 201 "User created"
              (UserDoc bob_id
                 {| User.name := "Bob"; User.email := "bob@x.com";
                    User.pendingTasks := [t1_id]; User.dateCreated := 3 |})) ∧
  (serve (calm 3) (PostUser (with_pending [t1_id])) ann_with_done_t1).1
    = Some (respond 201 "User created"
              (UserDoc bob_id
                 {| User.name := "Bob"; User.email := "bob@x.com";
                    User.pendingTasks := []; User.dateCreated := 3 |})).
Proof. vm_compute. repeat split; reflexivity. Qed.

(** * Duplicate emails *)

(** C7 fails on the code for the create route: a duplicate found by the
    pre-check is answered 400 "Email already exists", but a duplicate-key
    error raised by the store when the user is written (store call 1 of the
    create) is answered 500 "Server error".  The replace route answers 400
    "Email already exists" in both cases (store call 3 is its write). *)
Lemma duplicate_key_at_write_on_create_is_a_server_error :
  let bob_as_ann := UserBody.mk (Some "Bob") (Some "ann@x.com") (Some []) None in
  let with_bob := (serve (calm 3) (PostUser bob) ann_with_t1).2 in
  serve (calm 4) (PostUser bob_as_ann) ann_with_t1
    = (Some (respond 400 "Email already exists" EmptyObject), ann_with_t1) ∧
  serve (failing 4 1 DuplicateKey) (PostUser bob) ann_with_t1
    = (Some (respond 500 "Server error" EmptyObject), ann_with_t1) ∧
  serve (calm 4) (PutUser bob_id bob_as_ann) with_bob
    = (Some (respond 400 "Email already exists" EmptyObject), with_bob) ∧
  serve (failing 4 3 DuplicateKey) (PutUser ann_id ann) ann_with_t1
    = (Some (respond 400 "Email already exists" EmptyObject), ann_with_t1).
Proof. vm_compute. repeat split; reflexivity. Qed.

(** * Default limits of the listings *)

Section Listings.
Context {platform : Platform} {json : Type} {text : JsonText json}.
Context {user_engine : QueryEngine json User.doc}
        {task_engine : QueryEngine json Task.doc}.

(** C10.  When the limit parameter is absent or not a finite number, the
    tasks listing applies the default limit 100 and so returns at most 100
    documents (the first 100 of the sorted, skipped matches), while the
    users listing applies no limit: it returns all the sorted, skipped
    matches, and every matching document when no skip is given either. *)
Theorem listings_default_limit (q : Query.t) (s : Store) :
  numeric (Query.limit q) = None →
  (∀ select rows,
     read_data (tasks_get_all q s) = Rows select rows →
     (length rows ≤ 100)%nat ∧
     ∃ where_ sort,
       parseJSONQueryParam (Query.where_ q) None = Some where_ ∧
       parseJSONQueryParam (Query.sort q) None = Some sort ∧
       rows = take 100
                (skip_rows (finite_or (Query.skip q) 0)
                   (sorted_by sort (matching where_ (tasks s))))) ∧
  (∀ select rows,
     read_data (users_get_all q s) = Rows select rows →
     ∃ where_ sort,
       parseJSONQueryParam (Query.where_ q) None = Some where_ ∧
       parseJSONQueryParam (Query.sort q) None = Some sort ∧
       rows = skip_rows (finite_or (Query.skip q) 0)
                (sorted_by sort (matching where_ (users s))) ∧
       (numeric (Query.skip q) = None →
        rows = sorted_by sort (matching where_ (users s)))).
Proof.
  intros Hlimit. split.
  - intros select rows. unfold tasks_get_all, finite_or. rewrite Hlimit.
    destruct (parseJSONQueryParam (Query.where_ q) _) as [where_|]; [|done].
    destruct (parseJSONQueryParam (Query.sort q) _) as [sort|]; [|done].
    destruct (parseJSONQueryParam (Query.select q) _) as [sel|]; [|done].
    cbn [default]. unfold listing. destruct (builder_throws _ _ _); [done|].
    destruct (count_flag _); [by destruct (countDocuments _ _)|].
    unfold exec_query. destruct (_ && _); [|done].
    cbn [read_data]. intros [= _ <-]. split.
    + unfold limit_rows. cbn. rewrite length_take. lia.
    + by exists where_, sort.
  - intros select rows. unfold users_get_all, finite_or. rewrite Hlimit.
    destruct (parseJSONQueryParam (Query.where_ q) _) as [where_|]; [|done].
    destruct (parseJSONQueryParam (Query.sort q) _) as [sort|]; [|done].
    destruct (parseJSONQueryParam (Query.select q) _) as [sel|]; [|done].
    cbn [default]. unfold listing. destruct (builder_throws _ _ _); [done|].
    destruct (count_flag _); [by destruct (countDocuments _ _)|].
    unfold exec_query. destruct (_ && _); [|done].
    cbn [read_data]. intros [= _ <-].
    exists where_, sort. split_and!; [done..|].
    by intros ->.
Qed.

(** * Further properties of the routes *)

(** ** Query parameters of the read-only routes *)

Lemma parseJSONQueryParam_None primary alias :
  parseJSONQueryParam primary alias = None ↔
  ∃ raw, raw_param primary alias = Some raw ∧ JSON_parse raw = None.
Proof.
  unfold parseJSONQueryParam, raw_param.
  destruct primary as [raw|]; [|destruct alias as [raw|]].
  - destruct (JSON_parse raw) eqn:Hp; split; try done.
    + intros (raw' & [= <-] & ?). congruence.
    + eauto.
  - destruct (JSON_parse raw) eqn:Hp; split; try done.
    + intros (raw' & [= <-] & ?). congruence.
    + eauto.
  - split; [done|]. by intros (raw' & ? & ?).
Qed.

(** X6.  A JSON query parameter that is present but does not parse makes
    the request a 400 with no data: "Invalid query JSON" on both listings
    when it is where, sort or select, and "Invalid select JSON" on both
    gets by id -- whatever the id, even a malformed or unknown one -- when
    it is select.  The alias filter is read only when select is absent, so
    a filter that does not parse is ignored when select is given. *)
Theorem unparsable_query_parameter (q : Query.t) (s : Store) (raw : string) :
  JSON_parse raw = None →
  (Query.where_ q = Some raw ∨ Query.sort q = Some raw
   ∨ raw_param (Query.select q) (Query.filter q) = Some raw →
   users_get_all q s = read_respond 400 "Invalid query JSON" Nothing ∧
   tasks_get_all q s = read_respond 400 "Invalid query JSON" Nothing) ∧
  (raw_param (Query.select q) (Query.filter q) = Some raw →
   ∀ id,
     users_get id q s = read_respond 400 "Invalid select JSON" Nothing ∧
     tasks_get id q s = read_respond 400 "Invalid select JSON" Nothing) ∧
  (∀ sel, Query.select q = Some sel → is_Some (JSON_parse sel) →
     Query.filter q = Some raw →
     ∀ id, read_status (users_get id q s) ≠ 400%nat).
Proof.
  intros Hraw. split_and!.
  - intros Hq.
    assert (parseJSONQueryParam (Query.where_ q) None = None
            ∨ parseJSONQueryParam (Query.sort q) None = None
            ∨ parseJSONQueryParam (Query.select q) (Query.filter q) = None)
      as Hbad.
    { destruct Hq as [Hq|[Hq|Hq]]; [left|right; left|right; right];
        apply parseJSONQueryParam_None; exists raw; split; try done;
        by rewrite Hq. }
    unfold users_get_all, tasks_get_all.
    destruct Hbad as [ -> | [ -> | -> ] ]; [done| |].
    + by destruct (parseJSONQueryParam (Query.where_ q) None).
    + by destruct (parseJSONQueryParam (Query.where_ q) None),
           (parseJSONQueryParam (Query.sort q) None).
  - intros Hq id.
    assert (parseJSONQueryParam (Query.select q) (Query.filter q) = None) as Hbad
      by (apply parseJSONQueryParam_None; eauto).
    unfold users_get, tasks_get. by rewrite Hbad.
  - intros sel Hsel [j Hj] _ id. unfold users_get, parseJSONQueryParam.
    rewrite Hsel, Hj. unfold findById_select.
    destruct (verdict_of _ _); [|done|].
    + destruct (castObjectId id); [|done]. cbn [accepted].
      by destruct (users s !! _).
    + by destruct (castObjectId id).
Qed.

(** X7.  With [count=true] (in any letter case) and parameters that parse,
    a listing still builds its query before it counts.  When the builder
    throws on the filter, on the sort or on the projection, the answer is
    500 "Server error".  When it throws on none of them and the count
    itself runs, the answer is 200 with the number of documents of the
    collection that match the filter: skip and limit play no part, not even
    a negative skip, and neither does a sort or a projection that only the
    store would refuse. *)
Theorem count_ignores_paging (q : Query.t) (s : Store)
    (where_ sort select : option json) :
  count_flag (Query.count q) = true →
  parseJSONQueryParam (Query.where_ q) None = Some where_ →
  parseJSONQueryParam (Query.sort q) None = Some sort →
  parseJSONQueryParam (Query.select q) (Query.filter q) = Some select →
  (verdict_of (find_verdict (D := User.doc)) where_ ≠ Thrown →
   verdict_of (sort_verdict (D := User.doc)) sort ≠ Thrown →
   verdict_of (select_verdict (D := User.doc)) select ≠ Thrown →
   (∀ j, if_truthy where_ = Some j → count_runs (D := User.doc) j = true) →
   users_get_all q s
     = read_respond 200 "OK" (Count (length (matching where_ (users s))))) ∧
  (verdict_of (find_verdict (D := Task.doc)) where_ ≠ Thrown →
   verdict_of (sort_verdict (D := Task.doc)) sort ≠ Thrown →
   verdict_of (select_verdict (D := Task.doc)) select ≠ Thrown →
   (∀ j, if_truthy where_ = Some j → count_runs (D := Task.doc) j = true) →
   tasks_get_all q s
     = read_respond 200 "OK" (Count (length (matching where_ (tasks s))))) ∧
  (verdict_of (find_verdict (D := User.doc)) where_ = Thrown
   ∨ verdict_of (sort_verdict (D := User.doc)) sort = Thrown
   ∨ verdict_of (select_verdict (D := User.doc)) select = Thrown →
   users_get_all q s = read_respond 500 "Server error" Nothing) ∧
  (verdict_of (find_verdict (D := Task.doc)) where_ = Thrown
   ∨ verdict_of (sort_verdict (D := Task.doc)) sort = Thrown
   ∨ verdict_of (select_verdict (D := Task.doc)) select = Thrown →
   tasks_get_all q s = read_respond 500 "Server error" Nothing).
Proof.
  intros Hc Hw Hs Hsel. unfold users_get_all, tasks_get_all.
  rewrite Hw, Hs, Hsel, Hc. unfold listing, builder_throws, countDocuments.
  split_and!.
  - intros H1 H2 H3 Hruns.
    destruct (verdict_of find_verdict where_), (verdict_of sort_verdict sort),
      (verdict_of select_verdict select); try done; cbn [thrown orb].
    all: destruct (if_truthy where_) as [j|] eqn:Hj; [|done].
    all: by rewrite (Hruns j eq_refl).
  - intros H1 H2 H3 Hruns.
    destruct (verdict_of find_verdict where_), (verdict_of sort_verdict sort),
      (verdict_of select_verdict select); try done; cbn [thrown orb].
    all: destruct (if_truthy where_) as [j|] eqn:Hj; [|done].
    all: by rewrite (Hruns j eq_refl).
  - intros [-> |[-> | ->]]; cbn [thrown orb]; [done| |].
    + by rewrite orb_true_r.
    + by rewrite orb_true_r.
  - intros [-> |[-> | ->]]; cbn [thrown orb]; [done| |].
    + by rewrite orb_true_r.
    + by rewrite orb_true_r.
Qed.

(** X8.  A finite limit parameter is applied as given by both listings: a
    positive limit [n] bounds the number of rows by [n], and the limit 0
    means no limit at all -- on the tasks listing too, where the default
    100 applies only when the parameter is absent or not a finite number. *)
Theorem explicit_limit (q : Query.t) (s : Store) (n : Z) :
  numeric (Query.limit q) = Some n →
  (∀ select rows,
     read_data (tasks_get_all q s) = Rows select rows →
     ((0 < n)%Z → (length rows ≤ Z.to_nat n)%nat) ∧
     (n = 0%Z →
      ∃ where_ sort,
        parseJSONQueryParam (Query.where_ q) None = Some where_ ∧
        parseJSONQueryParam (Query.sort q) None = Some sort ∧
        rows = skip_rows (finite_or (Query.skip q) 0)
                 (sorted_by sort (matching where_ (tasks s))))) ∧
  (∀ select rows,
     read_data (users_get_all q s) = Rows select rows →
     (0 < n)%Z → (length rows ≤ Z.to_nat n)%nat).
Proof.
  intros Hlimit. split.
  - intros select rows. unfold tasks_get_all, finite_or. rewrite Hlimit.
    destruct (parseJSONQueryParam (Query.where_ q) _) as [where_|]; [|done].
    destruct (parseJSONQueryParam (Query.sort q) _) as [sort|]; [|done].
    destruct (parseJSONQueryParam (Query.select q) _) as [sel|]; [|done].
    cbn [default]. unfold listing. destruct (builder_throws _ _ _); [done|].
    destruct (count_flag _); [by destruct (countDocuments _ _)|].
    unfold exec_query. destruct (_ && _); [|done].
    cbn [read_data]. intros [= _ <-]. split.
    + intros Hn. unfold limit_rows.
      destruct (n =? 0)%Z eqn:Hz; [lia|]. rewrite length_take. lia.
    + intros ->. by exists where_, sort.
  - intros select rows. unfold users_get_all, finite_or. rewrite Hlimit.
    destruct (parseJSONQueryParam (Query.where_ q) _) as [where_|]; [|done].
    destruct (parseJSONQueryParam (Query.sort q) _) as [sort|]; [|done].
    destruct (parseJSONQueryParam (Query.select q) _) as [sel|]; [|done].
    cbn [default]. unfold listing. destruct (builder_throws _ _ _); [done|].
    destruct (count_flag _); [by destruct (countDocuments _ _)|].
    unfold exec_query. destruct (_ && _); [|done].
    cbn [read_data]. intros [= _ <-] Hn. unfold limit_rows.
    destruct (n =? 0)%Z eqn:Hz; [lia|]. rewrite length_take. lia.
Qed.

End Listings.

(** 150 tasks and 150 users in the store, no limit in the query: the tasks
    listing returns at most 100 rows (it returns 100), the users listing
    all 150 matches. *)
Lemma listings_default_limit_witness :
  let no_query := Query.mk None None None None None None None in
  let text := toy_text (λ _, None) in
  (∃ select rows,
     read_data (tasks_get_all (text := text) (task_engine := toy_engine Task.doc)
                  no_query crowded) = Rows select rows ∧
     length rows = 100%nat ∧ (length rows ≤ 100)%nat) ∧
  (∃ select rows,
     read_data (users_get_all (text := text) (user_engine := toy_engine User.doc)
                  no_query crowded) = Rows select rows ∧
     length rows = 150%nat ∧
     rows = matching (text := text) (engine := toy_engine User.doc) None
              (users crowded)).
Proof.
  cbv zeta.
  pose proof (listings_default_limit (text := toy_text (λ _, None))
                (user_engine := toy_engine User.doc)
                (task_engine := toy_engine Task.doc)
                (Query.mk None None None None None None None) crowded eq_refl)
    as [Ht Hu].
  split.
  - eexists _, _. split; [reflexivity|]. split; [vm_compute; reflexivity|].
    eapply (proj1 (Ht _ _ eq_refl)).
  - eexists _, _. split; [reflexivity|]. split; [vm_compute; reflexivity|].
    destruct (Hu _ _ eq_refl) as (where_ & sort & [= <-] & [= <-] & _ & Hall).
    by apply Hall.
Defined.

Lemma unparsable_query_parameter_witness :
  let q := Query.mk None None None (Some "{") None None None in
  let text := toy_text (λ _, None) in
  users_get_all (text := text) (user_engine := toy_engine User.doc) q ann_with_t1
    = read_respond 400 "Invalid query JSON" Nothing ∧
  tasks_get (text := text) (task_engine := toy_engine Task.doc)
      "not-an-id" q ann_with_t1
    = read_respond 400 "Invalid select JSON" Nothing.
Proof.
  cbv zeta.
  pose proof (unparsable_query_parameter (text := toy_text (λ _, None))
                (user_engine := toy_engine User.doc)
                (task_engine := toy_engine Task.doc)
                (Query.mk None None None (Some "{") None None None)
                ann_with_t1 "{" eq_refl) as (Hall & Hget & _).
  split.
  - apply Hall. right. by right.
  - by apply Hget.
Defined.

(** Counting the 150 tasks with a negative skip and a limit of 7: the
    count is 150.  With [sort=5], on which the builder throws, the same
    request is a 500. *)
Lemma count_ignores_paging_witness :
  let text := toy_text (λ _, Some 7%Z) in
  tasks_get_all (text := text) (task_engine := toy_engine Task.doc)
      (Query.mk None None None None (Some "-3") (Some "1") (Some "TRUE")) crowded
    = read_respond 200 "OK" (Count 150) ∧
  tasks_get_all (text := text) (task_engine := toy_engine Task.doc)
      (Query.mk None (Some "5") None None (Some "-3") (Some "1") (Some "TRUE"))
      crowded
    = read_respond 500 "Server error" Nothing.
Proof.
  cbv zeta. split.
  - pose proof (count_ignores_paging (text := toy_text (λ _, Some 7%Z))
                  (user_engine := toy_engine User.doc)
                  (task_engine := toy_engine Task.doc)
                  (Query.mk None None None None (Some "-3") (Some "1") (Some "TRUE"))
                  crowded None None None eq_refl eq_refl eq_refl eq_refl)
      as (_ & Ht & _).
    rewrite Ht; [vm_compute; reflexivity|done..].
  - pose proof (count_ignores_paging (text := toy_text (λ _, Some 7%Z))
                  (user_engine := toy_engine User.doc)
                  (task_engine := toy_engine Task.doc)
                  (Query.mk None (Some "5") None None (Some "-3") (Some "1")
                     (Some "TRUE"))
                  crowded None (Some ToyNumber) None eq_refl eq_refl eq_refl eq_refl)
      as (_ & _ & _ & Ht).
    apply Ht. right. left. reflexivity.
Defined.

Lemma explicit_limit_witness :
  let text := toy_text (λ r, if String.eqb r "0" then Some 0%Z else Some 5%Z) in
  (∃ select rows,
     read_data (tasks_get_all (text := text) (task_engine := toy_engine Task.doc)
                  (Query.mk None None None None None (Some "5") None) crowded)
       = Rows select rows ∧ (length rows ≤ 5)%nat) ∧
  (∃ select rows,
     read_data (tasks_get_all (text := text) (task_engine := toy_engine Task.doc)
                  (Query.mk None None None None None (Some "0") None) crowded)
       = Rows select rows ∧ length rows = 150%nat).
Proof.
  cbv zeta. split.
  - pose proof (explicit_limit
                  (text := toy_text
                             (λ r, if String.eqb r "0" then Some 0%Z else Some 5%Z))
                  (user_engine := toy_engine User.doc)
                  (task_engine := toy_engine Task.doc)
                  (Query.mk None None None None None (Some "5") None)
                  crowded 5 eq_refl) as [Ht _].
    eexists _, _. split; [reflexivity|].
    refine (proj1 (Ht _ _ _) _); [reflexivity|lia].
  - pose proof (explicit_limit
                  (text := toy_text
                             (λ r, if String.eqb r "0" then Some 0%Z else Some 5%Z))
                  (user_engine := toy_engine User.doc)
                  (task_engine := toy_engine Task.doc)
                  (Query.mk None None None None None (Some "0") None)
                  crowded 0 eq_refl) as [Ht _].
    eexists _, _. split; [reflexivity|].
    destruct (proj2 (Ht _ _ eq_refl) eq_refl)
      as (where_ & sort & [= <-] & [= <-] & ->).
    vm_compute. reflexivity.
Defined.

(** ** Pending lists and cached names on reachable stores *)

Section ReachableStores.
Context {platform : Platform} {laws : PlatformLaws platform}.

(** X1.  After any sequence of requests served from the empty database, a
    task id is in the pending list of at most one user. *)
Theorem pending_on_at_most_one_user
    (rs : list (Env * Request)) (tid uid1 uid2 : string) (u1 u2 : User.doc) :
  users (serve_all rs empty_store) !! uid1 = Some u1 →
  users (serve_all rs empty_store) !! uid2 = Some u2 →
  tid ∈ User.pendingTasks u1 →
  tid ∈ User.pendingTasks u2 →
  uid1 = uid2.
Proof.
  intros Hu1 Hu2 H1 H2.
  pose proof (consistent_pending _ (reachable_consistent rs)) as Hp.
  destruct (Hp _ _ _ Hu1 H1) as (t & Ht & Hc1 & _).
  destruct (Hp _ _ _ Hu2 H2) as (t' & Ht' & Hc2 & _).
  congruence.
Qed.

(** X2.  After any sequence of requests served from the empty database,
    every id in a user's pending list names a stored task that is not
    completed and whose [assignedUser] is a spelling of that user's id (a
    string that casts to it; the tasks routes store the assignee as the
    caller spelled it): pending lists hold no dangling id. *)
Theorem pending_id_names_open_task
    (rs : list (Env * Request)) (tid uid : string) (u : User.doc) :
  users (serve_all rs empty_store) !! uid = Some u →
  tid ∈ User.pendingTasks u →
  ∃ t, tasks (serve_all rs empty_store) !! tid = Some t ∧
       castObjectId (Task.assignedUser t) = Some uid ∧
       Task.completed t = false.
Proof.
  intros Hu Hin.
  exact (consistent_pending _ (reachable_consistent rs) uid u tid Hu Hin).
Qed.

(** X14.  After any sequence of requests from the empty database, with any
    store call allowed to fail, a task without assignee caches the name
    "unassigned", and a task that is not completed and whose [assignedUser]
    is an id in the rendering of the store (the string casts to itself)
    caches the current name of that user, who exists and has the task in
    its pending list.  (A task assigned under another spelling of the id
    is not followed by a rename or a delete of the user.) *)
Theorem open_task_caches_assignee_name (rs : list (Env * Request))
    (tid : string) (t : Task.doc) :
  tasks (serve_all rs empty_store) !! tid = Some t →
  (Task.assignedUser t = "" → Task.assignedUserName t = "unassigned") ∧
  (Task.completed t = false →
   castObjectId (Task.assignedUser t) = Some (Task.assignedUser t) →
   ∃ u, users (serve_all rs empty_store) !! Task.assignedUser t = Some u ∧
        Task.assignedUserName t = User.name u ∧
        tid ∈ User.pendingTasks u).
Proof.
  intros Ht. pose proof (reachable_consistent rs) as Hc. split.
  - exact (consistent_unassigned _ Hc tid t Ht).
  - exact (consistent_linked _ Hc tid t Ht).
Qed.

(** X15.  After any sequence of requests from the empty database, with any
    store call allowed to fail, two different users never hold the same
    stored email. *)
Theorem stored_emails_are_unique (rs : list (Env * Request))
    (k1 k2 : string) (u1 u2 : User.doc) :
  users (serve_all rs empty_store) !! k1 = Some u1 →
  users (serve_all rs empty_store) !! k2 = Some u2 →
  k1 ≠ k2 →
  User.email u1 ≠ User.email u2.
Proof.
  intros H1 H2 Hne Heq. apply Hne.
  exact (consistent_emails _ (reachable_consistent rs) k1 k2 u1 u2 H1 H2 Heq).
Qed.

(** X16.  After any sequence of requests from the empty database, with any
    store call allowed to fail, no pending list holds a task id twice. *)
Theorem pending_lists_have_no_repetition (rs : list (Env * Request))
    (uid : string) (u : User.doc) :
  users (serve_all rs empty_store) !! uid = Some u →
  NoDup (User.pendingTasks u).
Proof.
  intros Hu.
  exact (consistent_nodup _ (reachable_consistent rs) uid u Hu).
Qed.

Lemma serve_keeps_user_dateCreated env r s k u u' :
  users s !! k = Some u → users (serve env r s).2 !! k = Some u' →
  User.dateCreated u' = User.dateCreated u.
Proof.
  intros Hu Hu'. destruct (succeeded (serve env r s).1) eqn:Hok.
  - by eapply users_change_dateCreated; [eapply serve_users_change|..].
  - destruct (serve_cases env r s) as [[_ Hs']|(? & _)]; [|congruence].
    rewrite Hs' in Hu'. congruence.
Qed.

Lemma serve_keeps_task_dateCreated env r s k t t' :
  tasks s !! k = Some t → tasks (serve env r s).2 !! k = Some t' →
  Task.dateCreated t' = Task.dateCreated t.
Proof.
  intros Ht Ht'.
  destruct (serve_cases env r s) as [[_ Hs']|(_ & _ & resp & _ & He)].
  - rewrite Hs' in Ht'. congruence.
  - by eapply effect_task_dateCreated.
Qed.

(** X17.  On any store reached from the empty database, no request of any
    kind -- successful or not, with any store call allowed to fail --
    changes the [dateCreated] of a document that is stored before and after
    it: the creation stamp of a user or of a task is written once, when the
    document is created. *)
Theorem dateCreated_is_written_once (rs : list (Env * Request))
    (env : Env) (r : Request) :
  (∀ k u u',
     users (serve_all rs empty_store) !! k = Some u →
     users (serve env r (serve_all rs empty_store)).2 !! k = Some u' →
     User.dateCreated u' = User.dateCreated u) ∧
  (∀ k t t',
     tasks (serve_all rs empty_store) !! k = Some t →
     tasks (serve env r (serve_all rs empty_store)).2 !! k = Some t' →
     Task.dateCreated t' = Task.dateCreated t).
Proof.
  split; intros k ? ? H H'.
  - by eapply serve_keeps_user_dateCreated.
  - by eapply serve_keeps_task_dateCreated.
Qed.

End ReachableStores.

Lemma pending_on_at_most_one_user_witness :
  ∃ a b,
    users (serve_all bob_takes_t1 empty_store) !! ann_id = Some a ∧
    users (serve_all bob_takes_t1 empty_store) !! bob_id = Some b ∧
    User.pendingTasks a = [] ∧ User.pendingTasks b = [t1_id] ∧
    bob_id = bob_id.
Proof.
  eexists _, _.
  split; [vm_compute; reflexivity|].
  split; [vm_compute; reflexivity|].
  split; [reflexivity|]. split; [reflexivity|].
  eapply (pending_on_at_most_one_user bob_takes_t1 t1_id bob_id bob_id).
  - vm_compute; reflexivity.
  - vm_compute; reflexivity.
  - apply list_elem_of_singleton; reflexivity.
  - apply list_elem_of_singleton; reflexivity.
Defined.

(** T1 is pending on Ann under her rendered id in one store and under the
    upper-case spelling in the other; in both the stored assignee casts to
    Ann's id. *)
Lemma pending_id_names_open_task_witness :
  (∃ t, tasks (serve_all bob_takes_t1 empty_store) !! t1_id = Some t ∧
        castObjectId (Task.assignedUser t) = Some bob_id ∧
        Task.completed t = false) ∧
  (∃ t, tasks ann_with_T1 !! t1_id = Some t ∧
        castObjectId (Task.assignedUser t) = Some ann_id ∧
        Task.completed t = false).
Proof.
  split.
  - eapply (pending_id_names_open_task bob_takes_t1 t1_id bob_id).
    + vm_compute; reflexivity.
    + apply list_elem_of_singleton; reflexivity.
  - eapply (pending_id_names_open_task
              [(calm 1, PostUser ann); (calm 2, PostTask (t1 ANN_ID false))]
              t1_id ann_id).
    + vm_compute; reflexivity.
    + apply list_elem_of_singleton; reflexivity.
Defined.

Lemma open_task_caches_assignee_name_witness :
  let t := {| Task.name := "T1"; Task.description := "";
              Task.deadline := 1700000000; Task.completed := false;
              Task.assignedUser := ann_id; Task.assignedUserName := "Anna";
              Task.dateCreated := 2 |} in
  tasks (serve_all ann_renamed empty_store) !! t1_id = Some t ∧
  ∃ u, users (serve_all ann_renamed empty_store) !! Task.assignedUser t = Some u ∧
       Task.assignedUserName t = User.name u ∧
       t1_id ∈ User.pendingTasks u.
Proof.
  cbv zeta.
  assert (tasks (serve_all ann_renamed empty_store) !! t1_id
          = Some {| Task.name := "T1"; Task.description := "";
                    Task.deadline := 1700000000; Task.completed := false;
                    Task.assignedUser := ann_id; Task.assignedUserName := "Anna";
                    Task.dateCreated := 2 |}) as Ht
    by (vm_compute; reflexivity).
  split; [exact Ht|].
  refine (proj2 (open_task_caches_assignee_name ann_renamed t1_id _ Ht) _ _);
    vm_compute; reflexivity.
Defined.

Lemma stored_emails_are_unique_witness :
  users (serve_all bob_claims_anns_email empty_store) !! ann_id
    = Some (User.mk "Ann" "ann@x.com" [] 1) ∧
  users (serve_all bob_claims_anns_email empty_store) !! t1_id
    = Some (User.mk "Bob" "bob@x.com" [] 2) ∧
  User.email (User.mk "Ann" "ann@x.com" [] 1)
    ≠ User.email (User.mk "Bob" "bob@x.com" [] 2).
Proof.
  split_and!; [vm_compute; reflexivity..|].
  apply (stored_emails_are_unique bob_claims_anns_email ann_id t1_id);
    [vm_compute; reflexivity..|discriminate].
Defined.

Lemma pending_lists_have_no_repetition_witness :
  users (serve_all bob_lists_t1_twice empty_store) !! bob_id
    = Some (User.mk "Bob" "bob@x.com" [t1_id] 3) ∧
  NoDup [t1_id].
Proof.
  split; [vm_compute; reflexivity|].
  apply (pending_lists_have_no_repetition bob_lists_t1_twice bob_id
           (User.mk "Bob" "bob@x.com" [t1_id] 3)).
  vm_compute; reflexivity.
Defined.

Lemma dateCreated_is_written_once_witness :
  let rs := [(calm 1, PostUser ann); (calm 2, PostTask (t1 ann_id false))] in
  let renamed := UserBody.mk (Some "Bob") (Some "bob@x.com")
                   (Some [t1_id]) (Some 99%Z) in
  users (serve (calm 7) (PutUser ann_id renamed) (serve_all rs empty_store)).2
    !! ann_id = Some (User.mk "Bob" "bob@x.com" [t1_id] 1) ∧
  tasks (serve (calm 7) (PutUser ann_id renamed) (serve_all rs empty_store)).2
    !! t1_id = Some (Task.mk "T1" "" 1700000000 false ann_id "Bob" 2) ∧
  User.dateCreated (User.mk "Bob" "bob@x.com" [t1_id] 1)
    = User.dateCreated (User.mk "Ann" "ann@x.com" [t1_id] 1) ∧
  Task.dateCreated (Task.mk "T1" "" 1700000000 false ann_id "Bob" 2)
    = Task.dateCreated (Task.mk "T1" "" 1700000000 false ann_id "Ann" 2).
Proof.
  cbv zeta.
  destruct (dateCreated_is_written_once
              [(calm 1, PostUser ann); (calm 2, PostTask (t1 ann_id false))]
              (calm 7)
              (PutUser ann_id (UserBody.mk (Some "Bob") (Some "bob@x.com")
                                 (Some [t1_id]) (Some 99%Z))))
    as [Husers Htasks].
  split_and!; [vm_compute; reflexivity..| |].
  - apply (Husers ann_id); vm_compute; reflexivity.
  - apply (Htasks t1_id); vm_compute; reflexivity.
Defined.

(** ** Refused requests *)

(** Symbolic execution that drops the branches the hypotheses exclude. *)
Ltac wp_run :=
  repeat (wp_step; try (cbn [users tasks next_oid] in *; congruence)).

Section Refusals.
Context {platform : Platform}.

(** X3.  A create is refused before any store call when a required field
    is missing or empty: 400 "Missing required fields", nothing committed.
    For a user the required fields are name and email, for a task name and
    deadline. *)
Theorem create_without_required_field (env : Env) (s : Store) :
  (∀ b, truthy (UserBody.name b) && truthy (UserBody.email b) = false →
     serve env (PostUser b) s
       = (Some (respond 400 "Missing required fields" EmptyObject), s) ∧
     calls_made env (PostUser b) s = 0%nat) ∧
  (∀ b, TaskBody.deadline b = DateMissing ∨ truthy (TaskBody.name b) = false →
     serve env (PostTask b) s
       = (Some (respond 400 "Missing required fields" EmptyObject), s) ∧
     calls_made env (PostTask b) s = 0%nat).
Proof.
  destruct s as [us ts nx]. split.
  - intros b Hb.
    assert (negb (truthy (UserBody.name b)) || negb (truthy (UserBody.email b))
            = true) as Hc
      by (by destruct (truthy (UserBody.name b)), (truthy (UserBody.email b))).
    apply serve_from_wp. unfold open_session. simpl route.
    wp_run. done.
  - intros b Hb.
    apply serve_from_wp. unfold open_session. simpl route.
    destruct Hb as [Hd|Hn].
    + wp_run. done.
    + assert (negb (truthy (TaskBody.name b)) = true) as Hc by (by rewrite Hn).
      wp_run; done.
Qed.

(** X4.  A replace or delete whose id casts to an ObjectId that names no
    document is answered 404 "not found" after the one lookup, whatever the
    payload (the payload of a replace is validated only after the lookup),
    and commits nothing. *)
Theorem unknown_id_is_answered_not_found (env : Env) (id oid : string) (s : Store) :
  castObjectId id = Some oid →
  faults env 0 = None →
  (users s !! oid = None →
     (∀ b, serve env (PutUser id b) s
             = (Some (respond 404 "User not found" EmptyObject), s)) ∧
     serve env (DeleteUser id) s
       = (Some (respond 404 "User not found" EmptyObject), s)) ∧
  (tasks s !! oid = None →
     (∀ b, serve env (PutTask id b) s
             = (Some (respond 404 "Task not found" EmptyObject), s)) ∧
     serve env (DeleteTask id) s
       = (Some (respond 404 "Task not found" EmptyObject), s)).
Proof.
  intros Hid Hcall. destruct s as [us ts nx]. cbn [users tasks].
  split; intros Hnone; split; try intros b.
  all: eapply (proj1 (serve_from_wp _ _ _ _ _ 1 _)).
  Unshelve.
  all: unfold open_session; simpl route.
  all: wp_run; wp_facts; try congruence; done.
Qed.

(** X5.  A replace of an existing document is refused with 400 "Missing
    required fields" and commits nothing when the payload lacks a required
    field: name, email or an array of pending tasks for a user; name,
    deadline or the completed flag for a task. *)
Theorem replace_without_required_field (env : Env) (id oid : string) (s : Store) :
  castObjectId id = Some oid →
  faults env 0 = None →
  (∀ b u, users s !! oid = Some u →
     truthy (UserBody.name b) && truthy (UserBody.email b) = false
     ∨ UserBody.pendingTasks b = None →
     serve env (PutUser id b) s
       = (Some (respond 400 "Missing required fields" EmptyObject), s)) ∧
  (∀ b t, tasks s !! oid = Some t →
     truthy (TaskBody.name b) = false ∨ TaskBody.deadline b = DateMissing
     ∨ TaskBody.completed b = JsUndefined →
     serve env (PutTask id b) s
       = (Some (respond 400 "Missing required fields" EmptyObject), s)).
Proof.
  intros Hid Hcall. destruct s as [us ts nx]. cbn [users tasks].
  split.
  - intros b u Hu Hb.
    eapply (proj1 (serve_from_wp _ _ _ _ _ 1 _)). Unshelve.
    unfold open_session; simpl route.
    destruct Hb as [Hb|Hb].
    + assert (negb (truthy (UserBody.name b))
              || negb (truthy (UserBody.email b)) = true) as Hc
        by (by destruct (truthy (UserBody.name b)), (truthy (UserBody.email b))).
      wp_run; wp_facts; try congruence; try done.
    + wp_run; wp_facts; try congruence; try done.
  - intros b t Ht Hb.
    eapply (proj1 (serve_from_wp _ _ _ _ _ 1 _)). Unshelve.
    unfold open_session; simpl route.
    destruct Hb as [Hb|[Hb|Hb]].
    + assert (negb (truthy (TaskBody.name b)) = true) as Hc by (by rewrite Hb).
      wp_run; wp_facts; try congruence; try done.
    + wp_run; wp_facts; try congruence; try done.
    + wp_run; wp_facts; try congruence; try done.
Qed.

(** ** The email pre-check *)

(** X18.  A create or replace of a user whose email, after the schema's
    trim and lowercase, is stored by another user is refused with 400
    "Email already exists" and commits nothing; a replace may keep the
    user's own email. *)
Theorem email_in_use_is_refused (env : Env) (s : Store) :
  (∀ b, truthy (UserBody.name b) = true → truthy (UserBody.email b) = true →
     faults env 0 = None →
     email_in_use (email_setter (or_empty (UserBody.email b))) None (users s)
       = true →
     serve env (PostUser b) s
       = (Some (respond 400 "Email already exists" EmptyObject), s)) ∧
  (∀ id oid b u, castObjectId id = Some oid → users s !! oid = Some u →
     truthy (UserBody.name b) = true → truthy (UserBody.email b) = true →
     is_Some (UserBody.pendingTasks b) →
     faults env 0 = None → faults env 1 = None →
     email_in_use (email_setter (or_empty (UserBody.email b))) (Some oid) (users s)
       = true →
     serve env (PutUser id b) s
       = (Some (respond 400 "Email already exists" EmptyObject), s)).
Proof.
  destruct s as [us ts nx]. cbn [users]. split.
  - intros b Hn He Hcall Hdup.
    eapply (proj1 (serve_from_wp _ _ _ _ _ 1 _)). Unshelve.
    unfold open_session; simpl route.
    assert (negb (truthy (UserBody.name b)) || negb (truthy (UserBody.email b))
            = false) as Hc by (by rewrite Hn, He).
    wp_run; wp_facts; try congruence; try done.
  - intros id oid b u Hid Hu Hn He [l Hl] Hcall0 Hcall1 Hdup.
    eapply (proj1 (serve_from_wp _ _ _ _ _ 2 _)). Unshelve.
    unfold open_session; simpl route.
    assert (negb (truthy (UserBody.name b)) || negb (truthy (UserBody.email b))
            = false) as Hc by (by rewrite Hn, He).
    wp_run; wp_facts; try congruence; try done.
Qed.

End Refusals.

Lemma create_without_required_field_witness :
  serve (calm 3) (PostUser (UserBody.mk (Some "Cy") (Some "") (Some []) None))
    ann_with_t1
    = (Some (respond 400 "Missing required fields" EmptyObject), ann_with_t1) ∧
  serve (calm 3)
    (PostTask (TaskBody.mk (Some "T2") None DateMissing None None JsUndefined None))
    ann_with_t1
    = (Some (respond 400 "Missing required fields" EmptyObject), ann_with_t1).
Proof.
  split.
  - apply (proj1 (create_without_required_field (calm 3) ann_with_t1)
             (UserBody.mk (Some "Cy") (Some "") (Some []) None) eq_refl).
  - apply (proj2 (create_without_required_field (calm 3) ann_with_t1)
             (TaskBody.mk (Some "T2") None DateMissing None None JsUndefined None)
             (or_introl eq_refl)).
Defined.

(** An id that names no user, in lower and in upper case. *)
Lemma unknown_id_is_answered_not_found_witness :
  serve (calm 3)
    (PutUser "ffffffffffffffffffffffff" (UserBody.mk None None None None))
    ann_with_t1
    = (Some (respond 404 "User not found" EmptyObject), ann_with_t1) ∧
  serve (calm 3) (DeleteTask "FFFFFFFFFFFFFFFFFFFFFFFF") ann_with_t1
    = (Some (respond 404 "Task not found" EmptyObject), ann_with_t1).
Proof.
  split.
  - apply (proj1 (unknown_id_is_answered_not_found (platform := ascii_platform)
                    (calm 3) "ffffffffffffffffffffffff" "ffffffffffffffffffffffff"
                    ann_with_t1 eq_refl eq_refl)).
    vm_compute; reflexivity.
  - apply (proj2 (unknown_id_is_answered_not_found (platform := ascii_platform)
                    (calm 3) "FFFFFFFFFFFFFFFFFFFFFFFF" "ffffffffffffffffffffffff"
                    ann_with_t1 eq_refl eq_refl)).
    vm_compute; reflexivity.
Defined.

Lemma replace_without_required_field_witness :
  serve (calm 3)
    (PutUser ANN_ID (UserBody.mk (Some "Ann") (Some "ann@x.com") None None))
    ann_with_t1
    = (Some (respond 400 "Missing required fields" EmptyObject), ann_with_t1) ∧
  serve (calm 3)
    (PutTask t1_id
       (TaskBody.mk (Some "T1") None (DateValue 5) None None JsUndefined None))
    ann_with_t1
    = (Some (respond 400 "Missing required fields" EmptyObject), ann_with_t1).
Proof.
  pose proof (replace_without_required_field (platform := ascii_platform)
                (calm 3) ANN_ID ann_id ann_with_t1 eq_refl eq_refl) as [Hu _].
  pose proof (replace_without_required_field (platform := ascii_platform)
                (calm 3) t1_id t1_id ann_with_t1 eq_refl eq_refl) as [_ Ht].
  split.
  - eapply Hu; [vm_compute; reflexivity|]. by right.
  - eapply Ht; [vm_compute; reflexivity|]. right. by right.
Defined.

Lemma email_in_use_is_refused_witness :
  let s := serve_all [(calm 1, PostUser ann); (calm 2, PostUser bob)] empty_store in
  let loud := UserBody.mk (Some "Bob") (Some " ANN@x.com ") (Some []) None in
  serve (calm 3) (PostUser loud) s
    = (Some (respond 400 "Email already exists" EmptyObject), s) ∧
  serve (calm 3) (PutUser t1_id loud) s
    = (Some (respond 400 "Email already exists" EmptyObject), s) ∧
  succeeded (serve (calm 3) (PutUser ann_id loud) s).1 = true.
Proof.
  cbv zeta. split_and!.
  - apply (proj1 (email_in_use_is_refused (calm 3)
                    (serve_all [(calm 1, PostUser ann); (calm 2, PostUser bob)]
                       empty_store))
             (UserBody.mk (Some "Bob") (Some " ANN@x.com ") (Some []) None));
      vm_compute; reflexivity.
  - apply (proj2 (email_in_use_is_refused (calm 3)
                    (serve_all [(calm 1, PostUser ann); (calm 2, PostUser bob)]
                       empty_store))
             t1_id t1_id
             (UserBody.mk (Some "Bob") (Some " ANN@x.com ") (Some []) None)
             (User.mk "Bob" "bob@x.com" [] 2));
      try (vm_compute; reflexivity).
    by eexists.
  - vm_compute; reflexivity.
Defined.

(** ** What a successful request commits *)

Section Committed.
Context {platform : Platform}.

(** X9.  A successful request answers with the document it committed: a
    create answers 201 and a replace 200 with the document stored under the
    returned id -- for a replace, the path id as the store renders it --
    and a delete answers 204 without content, the document being gone. *)
Theorem success_response_shows_committed_document
    (env : Env) (r : Request) (s : Store) :
  succeeded (serve env r s).1 = true →
  let resp := (serve env r s).1 in
  let s' := (serve env r s).2 in
  match r with
  | PostUser _ =>
      ∃ id u, resp = Some (respond 201 "User created" (UserDoc id u)) ∧
              users s' !! id = Some u
  | PutUser id _ =>
      ∃ oid u, castObjectId id = Some oid ∧
               resp = Some (respond 200 "User updated" (UserDoc oid u)) ∧
               users s' !! oid = Some u
  | DeleteUser id =>
      ∃ oid, castObjectId id = Some oid ∧
             resp = Some (respond 204 "" NoContent) ∧ users s' !! oid = None
  | PostTask _ =>
      ∃ id t, resp = Some (respond 201 "Task created" (TaskDoc id t)) ∧
              tasks s' !! id = Some t
  | PutTask id _ =>
      ∃ oid t, castObjectId id = Some oid ∧
               resp = Some (respond 200 "Task updated" (TaskDoc oid t)) ∧
               tasks s' !! oid = Some t
  | DeleteTask id =>
      ∃ oid, castObjectId id = Some oid ∧
             resp = Some (respond 204 "" NoContent) ∧ tasks s' !! oid = None
  end.
Proof.
  intros Hok. cbv zeta.
  destruct (serve_effect env r s Hok) as (resp & -> & He).
  destruct r; simpl in He.
  - destruct He as (valid & -> & _ & _ & _ & _ & ->). eexists _, _.
    split; [done|]. cbn [users]. by rewrite lookup_insert_eq.
  - destruct He as (uid & user & valid & -> & Hcast & _ & _ & _ & _ & ->).
    eexists _, _. split_and!; [done..|]. cbn [users]. by rewrite lookup_insert_eq.
  - destruct He as (uid & u & -> & Hcast & _ & ->). exists uid.
    split_and!; [done..|]. cbn [users]. by rewrite lookup_delete_eq.
  - destruct He as (z & -> & _ & _ & ->). eexists _, _. split; [done|].
    cbn [tasks]. by rewrite lookup_insert_eq.
  - destruct He as (tid & cur & z & -> & Hcast & _ & _ & ->). eexists _, _.
    split_and!; [done..|]. cbn [tasks]. by rewrite lookup_insert_eq.
  - destruct He as (tid & t & -> & Hcast & _ & ->). exists tid.
    split_and!; [done..|]. cbn [tasks]. by rewrite lookup_delete_eq.
Qed.

(** X10.  A successful delete of a user removes that user -- the one whose
    id the path id casts to -- and no other, resets [assignedUser] and
    [assignedUserName] of exactly the tasks that are not completed and
    whose stored [assignedUser] is the user's id as the store renders it,
    and leaves every other task -- the user's completed tasks included --
    as it was. *)
Theorem delete_user_frame (env : Env) (id : string) (s : Store) :
  succeeded (serve env (DeleteUser id) s).1 = true →
  let s' := (serve env (DeleteUser id) s).2 in
  ∃ uid,
    castObjectId id = Some uid ∧
    is_Some (users s !! uid) ∧
    users s' = delete uid (users s) ∧
    (∀ tid, tasks s' !! tid =
            (λ t, if bool_decide (Task.assignedUser t = uid ∧ Task.completed t = false)
                  then assign "" "unassigned" t else t) <$> tasks s !! tid).
Proof.
  intros Hok. cbv zeta.
  destruct (serve_effect env (DeleteUser id) s Hok) as (resp & _ & He).
  destruct He as (uid & u & _ & Hcast & Hu & ->). cbn [users tasks].
  exists uid. split_and!; [done|by eexists|done|].
  intros tid. rewrite lookup_unassign_open.
  destruct (tasks s !! tid) as [t|]; [|done]. cbn. f_equal.
  destruct (Task.completed t); repeat case_bool_decide; naive_solver.
Qed.

(** X11.  A successful delete of a task removes that task -- the one whose
    id the path id casts to -- and no other and, when the task had an
    assignee, pulls its id from the pending list of the user that the
    stored assignee casts to; the other fields of that user and every other
    user are left as they were. *)
Theorem delete_task_frame (env : Env) (id : string) (s : Store) :
  succeeded (serve env (DeleteTask id) s).1 = true →
  let s' := (serve env (DeleteTask id) s).2 in
  ∃ tid t,
    castObjectId id = Some tid ∧
    tasks s !! tid = Some t ∧
    tasks s' = delete tid (tasks s) ∧
    (∀ uid, users s' !! uid =
            (λ u, if bool_decide (castObjectId (Task.assignedUser t) = Some uid
                                  ∧ Task.assignedUser t ≠ "")
                  then set_pendingTasks (pull tid (User.pendingTasks u)) u
                  else u) <$> users s !! uid).
Proof.
  intros Hok. cbv zeta.
  destruct (serve_effect env (DeleteTask id) s Hok) as (resp & _ & He).
  destruct He as (tid & t & _ & Hcast & Ht & ->). cbn [users tasks].
  exists tid, t. split_and!; [done..|].
  intros uid. unfold unlink_deleted, at_holder.
  case_bool_decide as Ha; cbn.
  - rewrite bool_decide_eq_false_2 by naive_solver.
    by destruct (users s !! uid).
  - destruct (castObjectId (Task.assignedUser t)) as [oid|] eqn:Hoid.
    + rewrite lookup_alter. case_decide as Hk.
      * subst uid. by rewrite bool_decide_eq_true_2 by done.
      * rewrite bool_decide_eq_false_2 by naive_solver.
        by destruct (users s !! uid).
    + rewrite bool_decide_eq_false_2 by naive_solver.
      by destruct (users s !! uid).
Qed.

(** ** The pending list a users route stores *)

Lemma lookup_pull_from_others_Some self ids (m : gmap string User.doc) k u' :
  pull_from_others self ids m !! k = Some u' →
  ∃ u, m !! k = Some u ∧
       (k ≠ self → ∀ x, x ∈ User.pendingTasks u' ↔ x ∈ User.pendingTasks u ∧ x ∉ ids).
Proof.
  rewrite lookup_pull_from_others. destruct (m !! k) as [u|]; [|done].
  intros [= <-]. exists u. split; [done|]. intros Hne x.
  rewrite (bool_decide_eq_true_2 (k ≠ self)) by done. cbn [andb].
  case_bool_decide as Hex.
  - cbn. apply elem_of_pull_in.
  - split; [|naive_solver]. intros Hx. split; [done|]. intros Hin.
    apply Hex, Exists_exists. eauto.
Qed.

(** X12.  On a successful create or replace of a user, the stored pending
    list holds exactly the ids that a requested string casts to and that
    name a stored task with [completed = false] (ids of missing or
    completed tasks are dropped); each kept task is assigned to the user,
    under the user's id as the store renders it and the user's new name;
    and no other user keeps a kept id in its pending list. *)
Theorem user_write_takes_over_open_tasks (env : Env) (s : Store) :
  (∀ b, succeeded (serve env (PostUser b) s).1 = true →
     ∃ uid u,
       (data <$> (serve env (PostUser b) s).1) = Some (UserDoc uid u) ∧
       takes_over (UserBody.pendingTasks b) uid u s (serve env (PostUser b) s).2) ∧
  (∀ id b, succeeded (serve env (PutUser id b) s).1 = true →
     ∃ uid u,
       castObjectId id = Some uid ∧
       (data <$> (serve env (PutUser id b) s).1) = Some (UserDoc uid u) ∧
       takes_over (UserBody.pendingTasks b) uid u s (serve env (PutUser id b) s).2).
Proof.
  split.
  - intros b Hok.
    destruct (serve_effect env (PostUser b) s Hok) as (resp & -> & He).
    destruct He as (valid & -> & _ & _ & _ & [_ Hkept] & ->).
    eexists _, _. split; [done|].
    unfold takes_over. cbn [users tasks User.pendingTasks User.name].
    split_and!.
    + exact Hkept.
    + intros k t Hk Ht. rewrite lookup_assign_in, Ht. cbn.
      by rewrite bool_decide_eq_true_2.
    + intros uid' u' k Hne Hu' Hk.
      rewrite lookup_insert_ne in Hu' by done.
      apply lookup_pull_from_others_Some in Hu' as (u0 & _ & Hin).
      rewrite (Hin Hne). naive_solver.
  - intros id b Hok.
    destruct (serve_effect env (PutUser id b) s Hok) as (resp & -> & He).
    destruct He as (uid & user & valid & -> & Hcast & _ & _ & _ & [_ Hkept] & ->).
    eexists _, _. split_and!; [done..|].
    unfold takes_over. cbn [users tasks User.pendingTasks User.name].
    split_and!.
    + exact Hkept.
    + intros k t Hk Ht. rewrite lookup_assign_in, lookup_unassign_open, Ht. cbn.
      rewrite bool_decide_eq_true_2 by done. by destruct (_ && _).
    + intros uid' u' k Hne Hu' Hk.
      rewrite lookup_insert_ne in Hu' by done.
      apply lookup_pull_from_others_Some in Hu' as (u0 & _ & Hin).
      rewrite (Hin Hne). naive_solver.
Qed.

(** ** The document a tasks route writes *)

(** X13.  A successful create or replace of a task stores, and answers
    with, the document built from the payload: name and deadline as given,
    description defaulting to the empty string, [completed] coerced by
    [toBoolean] with fallback false (a string counts as true or false when
    JavaScript's [toLowerCase] and [trim] make it "true" or "false"), and
    the assignee resolved against the users collection -- the given string,
    as the caller spelled it, with that user's current name when the
    string casts to the id of a user, and the empty id with "unassigned"
    when no id is given or the id names no user.  A create stamps
    [dateCreated] with the current time, a replace keeps the stored one. *)
Theorem task_write_stores_resolved_assignee (env : Env) (s : Store) :
  (∀ b, succeeded (serve env (PostTask b) s).1 = true →
     ∃ z, TaskBody.deadline b = DateValue z ∧
          (serve env (PostTask b) s).1
            = Some (respond 201 "Task created"
                      (TaskDoc (new_oid (next_oid s))
                         (written_task b s z (now env)))) ∧
          tasks (serve env (PostTask b) s).2 !! new_oid (next_oid s)
            = Some (written_task b s z (now env))) ∧
  (∀ id b, succeeded (serve env (PutTask id b) s).1 = true →
     ∃ z tid cur,
       TaskBody.deadline b = DateValue z ∧
       castObjectId id = Some tid ∧
       tasks s !! tid = Some cur ∧
       (serve env (PutTask id b) s).1
         = Some (respond 200 "Task updated"
                   (TaskDoc tid (written_task b s z (Task.dateCreated cur)))) ∧
       tasks (serve env (PutTask id b) s).2 !! tid
         = Some (written_task b s z (Task.dateCreated cur))).
Proof.
  split.
  - intros b Hok.
    destruct (serve_effect env (PostTask b) s Hok) as (resp & -> & He).
    destruct He as (z & -> & Hz & _ & ->). exists z. split_and!; [done..|].
    cbn [tasks]. by rewrite lookup_insert_eq.
  - intros id b Hok.
    destruct (serve_effect env (PutTask id b) s Hok) as (resp & -> & He).
    destruct He as (tid & cur & z & -> & Hcast & Hcur & Hz & ->).
    exists z, tid, cur. split_and!; [done..|].
    cbn [tasks]. by rewrite lookup_insert_eq.
Qed.

End Committed.

Lemma success_response_shows_committed_document_witness :
  ∃ oid t, castObjectId t1_id = Some oid ∧
           (serve (calm 3) (PutTask t1_id (t1 "" true)) ann_with_t1).1
             = Some (respond 200 "Task updated" (TaskDoc oid t)) ∧
           tasks (serve (calm 3) (PutTask t1_id (t1 "" true)) ann_with_t1).2 !! oid
             = Some t.
Proof.
  apply (success_response_shows_committed_document (calm 3)
           (PutTask t1_id (t1 "" true)) ann_with_t1).
  vm_compute; reflexivity.
Defined.

(** Deleting Ann by the upper-case spelling of her id. *)
Lemma delete_user_frame_witness :
  users (serve (calm 3) (DeleteUser ANN_ID) ann_with_t1).2 = ∅ ∧
  (Task.assignedUser <$>
     tasks (serve (calm 3) (DeleteUser ANN_ID) ann_with_t1).2 !! t1_id) = Some "".
Proof.
  destruct (delete_user_frame (calm 3) ANN_ID ann_with_t1)
    as (uid & Hcast & _ & Hu & Ht); [vm_compute; reflexivity|].
  injection Hcast as <-.
  split.
  - rewrite Hu. vm_compute. reflexivity.
  - rewrite Ht. vm_compute. reflexivity.
Defined.

(** Deleting T1 while it is assigned to Ann under the upper-case spelling
    of her id: the id is pulled from Ann's pending list. *)
Lemma delete_task_frame_witness :
  tasks (serve (calm 3) (DeleteTask t1_id) ann_with_T1).2 = ∅ ∧
  (User.pendingTasks <$>
     users (serve (calm 3) (DeleteTask t1_id) ann_with_T1).2 !! ann_id) = Some [].
Proof.
  destruct (delete_task_frame (calm 3) t1_id ann_with_T1)
    as (tid & t & Hcast & Ht & Hts & Hus); [vm_compute; reflexivity|].
  injection Hcast as <-.
  split.
  - rewrite Hts. vm_compute. reflexivity.
  - rewrite Hus. vm_compute in Ht. injection Ht as <-. vm_compute. reflexivity.
Defined.

Lemma user_write_takes_over_open_tasks_witness :
  let with_t1 := UserBody.mk (Some "Bob") (Some "bob@x.com")
                   (Some [t1_id; "ffffffffffffffffffffffff"]) None in
  ∃ u, (data <$> (serve (calm 3) (PostUser with_t1) ann_with_t1).1)
         = Some (UserDoc bob_id u) ∧
       User.pendingTasks u = [t1_id] ∧
       takes_over (Some [t1_id; "ffffffffffffffffffffffff"]) bob_id u
         ann_with_t1 (serve (calm 3) (PostUser with_t1) ann_with_t1).2.
Proof.
  cbv zeta.
  destruct (proj1 (user_write_takes_over_open_tasks (calm 3) ann_with_t1)
              (UserBody.mk (Some "Bob") (Some "bob@x.com")
                 (Some [t1_id; "ffffffffffffffffffffffff"]) None))
    as (uid & u & Hdata & Htakes); [vm_compute; reflexivity|].
  vm_compute in Hdata. injection Hdata as <- <-.
  eexists. split; [vm_compute; reflexivity|]. split; [reflexivity|]. exact Htakes.
Defined.

(** A task created with [completed] given as the text TRUE between spaces,
    a task created with [completed] given as "true" followed by a no-break
    space (U+00A0, two bytes in UTF-8), and T1 replaced with Ann's id in
    upper case as assignee. *)
Lemma task_write_stores_resolved_assignee_witness :
  let unknown := "ffffffffffffffffffffffff" in
  let yes := TaskBody.mk (Some "T2") None (DateValue 9) (Some unknown) None
               (JsString " TRUE ") None in
  let nbsp := TaskBody.mk (Some "T3") None (DateValue 9) None None
                (JsString ("true" +:+ of_bytes [194; 160]%N)) None in
  tasks (serve (calm 3) (PostTask yes) ann_with_t1).2 !! bob_id
    = Some {| Task.name := "T2"; Task.description := ""; Task.deadline := 9;
              Task.completed := true; Task.assignedUser := "";
              Task.assignedUserName := "unassigned"; Task.dateCreated := 3 |} ∧
  tasks (serve (calm 3) (PostTask nbsp) ann_with_t1).2 !! bob_id
    = Some {| Task.name := "T3"; Task.description := ""; Task.deadline := 9;
              Task.completed := true; Task.assignedUser := "";
              Task.assignedUserName := "unassigned"; Task.dateCreated := 3 |} ∧
  tasks (serve (calm 4) (PutTask t1_id (t1 ANN_ID true)) ann_with_t1).2 !! t1_id
    = Some {| Task.name := "T1"; Task.description := "";
              Task.deadline := 1700000000; Task.completed := true;
              Task.assignedUser := ANN_ID; Task.assignedUserName := "Ann";
              Task.dateCreated := 2 |}.
Proof.
  cbv zeta. split_and!.
  - destruct (proj1 (task_write_stores_resolved_assignee (calm 3) ann_with_t1)
                (TaskBody.mk (Some "T2") None (DateValue 9)
                   (Some "ffffffffffffffffffffffff") None (JsString " TRUE ") None))
      as (z & Hz & _ & Hstored); [vm_compute; reflexivity|].
    injection Hz as <-. vm_compute in Hstored |- *. exact Hstored.
  - destruct (proj1 (task_write_stores_resolved_assignee (calm 3) ann_with_t1)
                (TaskBody.mk (Some "T3") None (DateValue 9) None None
                   (JsString ("true" +:+ of_bytes [194; 160]%N)) None))
      as (z & Hz & _ & Hstored); [vm_compute; reflexivity|].
    injection Hz as <-. vm_compute in Hstored |- *. exact Hstored.
  - destruct (proj2 (task_write_stores_resolved_assignee (calm 4) ann_with_t1)
                t1_id (t1 ANN_ID true))
      as (z & tid & cur & Hz & Hcast & Hcur & _ & Hstored);
      [vm_compute; reflexivity|].
    injection Hz as <-. injection Hcast as <-.
    vm_compute in Hcur. injection Hcur as <-.
    vm_compute in Hstored |- *. exact Hstored.
Defined.

(** ** Reading back what was written *)

Section ReadBack.
Context {platform : Platform} {laws : PlatformLaws platform}.
Context {json : Type} {text : JsonText json}.
Context {user_engine : QueryEngine json User.doc}
        {task_engine : QueryEngine json Task.doc}.

(** X19.  What a write answers can be read back: after a successful create
    or replace, a get by the id of the answered document answers 200 with
    that very document, and after a successful delete a get by the deleted
    id answers 404 -- when the select parameter is absent or parses to a
    projection that the query builder and the store accept.  When select
    parses to a value on which the builder throws, the get answers 500
    "Server error" instead, whatever the id. *)
Theorem written_document_can_be_read_back (env : Env) (r : Request) (s : Store)
    (q : Query.t) (sel : option json) :
  succeeded (serve env r s).1 = true →
  parseJSONQueryParam (Query.select q) (Query.filter q) = Some sel →
  (verdict_of (select_verdict (D := User.doc)) sel = Accepted →
   (∀ id u, (data <$> (serve env r s).1) = Some (UserDoc id u) →
      users_get id q (serve env r s).2
        = read_respond 200 "OK" (Doc (if_truthy sel) id u)) ∧
   (∀ id, r = DeleteUser id →
      users_get id q (serve env r s).2
        = read_respond 404 "User not found" Nothing)) ∧
  (verdict_of (select_verdict (D := Task.doc)) sel = Accepted →
   (∀ id t, (data <$> (serve env r s).1) = Some (TaskDoc id t) →
      tasks_get id q (serve env r s).2
        = read_respond 200 "OK" (Doc (if_truthy sel) id t)) ∧
   (∀ id, r = DeleteTask id →
      tasks_get id q (serve env r s).2
        = read_respond 404 "Task not found" Nothing)) ∧
  (verdict_of (select_verdict (D := User.doc)) sel = Thrown →
   ∀ id, users_get id q (serve env r s).2
           = read_respond 500 "Server error" Nothing) ∧
  (verdict_of (select_verdict (D := Task.doc)) sel = Thrown →
   ∀ id, tasks_get id q (serve env r s).2
           = read_respond 500 "Server error" Nothing).
Proof.
  intros Hok Hsel. unfold users_get, tasks_get, findById_select. rewrite Hsel.
  destruct (serve_effect env r s Hok) as (resp & -> & He).
  split_and!.
  - intros ->. cbn [accepted]. split.
    + intros id u Hdata. destruct r; simpl in He.
      * destruct He as (valid & -> & _ & _ & _ & _ & ->).
        injection Hdata as <- <-. rewrite cast_new_oid. cbn [users].
        by rewrite lookup_insert_eq.
      * destruct He as (uid & user & valid & -> & Hcast & _ & _ & _ & _ & ->).
        injection Hdata as <- <-. rewrite (cast_canonical _ _ Hcast). cbn [users].
        by rewrite lookup_insert_eq.
      * by destruct He as (? & ? & -> & _).
      * by destruct He as (? & -> & _).
      * by destruct He as (? & ? & ? & -> & _).
      * by destruct He as (? & ? & -> & _).
    + intros id ->. simpl in He. destruct He as (uid & u & _ & -> & _ & ->).
      cbn [users]. by rewrite lookup_delete_eq.
  - intros ->. cbn [accepted]. split.
    + intros id t Hdata. destruct r; simpl in He.
      * by destruct He as (? & -> & _).
      * by destruct He as (? & ? & ? & -> & _).
      * by destruct He as (? & ? & -> & _).
      * destruct He as (z & -> & _ & _ & ->).
        injection Hdata as <- <-. rewrite cast_new_oid. cbn [tasks].
        by rewrite lookup_insert_eq.
      * destruct He as (tid & cur & z & -> & Hcast & _ & _ & ->).
        injection Hdata as <- <-. rewrite (cast_canonical _ _ Hcast). cbn [tasks].
        by rewrite lookup_insert_eq.
      * by destruct He as (? & ? & -> & _).
    + intros id ->. simpl in He. destruct He as (tid & t & _ & -> & _ & ->).
      cbn [tasks]. by rewrite lookup_delete_eq.
  - by intros ->.
  - by intros ->.
Qed.

End ReadBack.

(** A task read back after its creation, Ann looked up after her deletion,
    and the same read of the task with [select=5]. *)
Lemma written_document_can_be_read_back_witness :
  let q := Query.mk None None None None None None None in
  let q5 := Query.mk None None (Some "5") None None None None in
  let text := toy_text (λ _, None) in
  let t := {| Task.name := "T1"; Task.description := "";
              Task.deadline := 1700000000; Task.completed := false;
              Task.assignedUser := ann_id; Task.assignedUserName := "Ann";
              Task.dateCreated := 3 |} in
  tasks_get (text := text) (task_engine := toy_engine Task.doc) bob_id q
    (serve (calm 3) (PostTask (t1 ann_id false)) ann_with_t1).2
    = read_respond 200 "OK" (Doc None bob_id t) ∧
  users_get (text := text) (user_engine := toy_engine User.doc) ann_id q
    (serve (calm 4) (DeleteUser ann_id) ann_with_t1).2
    = read_respond 404 "User not found" Nothing ∧
  tasks_get (text := text) (task_engine := toy_engine Task.doc) bob_id q5
    (serve (calm 3) (PostTask (t1 ann_id false)) ann_with_t1).2
    = read_respond 500 "Server error" Nothing.
Proof.
  cbv zeta.
  assert (succeeded (serve (calm 3) (PostTask (t1 ann_id false)) ann_with_t1).1
          = true) as Hpost by (vm_compute; reflexivity).
  assert (succeeded (serve (calm 4) (DeleteUser ann_id) ann_with_t1).1 = true)
    as Hdelete by (vm_compute; reflexivity).
  split_and!.
  - refine (proj1 (proj1 (proj2 (written_document_can_be_read_back
                     (text := toy_text (λ _, None))
                     (user_engine := toy_engine User.doc)
                     (task_engine := toy_engine Task.doc)
                     (calm 3) (PostTask (t1 ann_id false)) ann_with_t1
                     (Query.mk None None None None None None None) None
                     Hpost eq_refl)) eq_refl) _ _ _).
    vm_compute; reflexivity.
  - refine (proj2 (proj1 (written_document_can_be_read_back
                     (text := toy_text (λ _, None))
                     (user_engine := toy_engine User.doc)
                     (task_engine := toy_engine Task.doc)
                     (calm 4) (DeleteUser ann_id) ann_with_t1
                     (Query.mk None None None None None None None) None
                     Hdelete eq_refl) eq_refl) _ eq_refl).
  - refine (proj2 (proj2 (proj2 (written_document_can_be_read_back
                     (text := toy_text (λ _, None))
                     (user_engine := toy_engine User.doc)
                     (task_engine := toy_engine Task.doc)
                     (calm 3) (PostTask (t1 ann_id false)) ann_with_t1
                     (Query.mk None None (Some "5") None None None None)
                     (Some ToyNumber) Hpost eq_refl))) eq_refl _).
Defined.

(** ** Requests left without answer *)

Section Unanswered.
Context {platform : Platform}.

(** X20.  A request is left without answer only when its commit fails.  If
    the handler throws instead of answering, then [commitTransaction] had
    been called, the last store call made -- the round trip of the commit
    -- is the one that failed, every earlier call went through, and
    nothing is committed: the catch block calls [abortTransaction] after
    [commitTransaction], which the driver refuses, so the handler never
    reaches its [res.status(...)].  In particular every request is answered
    when no store call fails. *)
Theorem unanswered_only_when_commit_fails (env : Env) (r : Request) (s : Store) :
  ((serve env r s).1 = None →
   commit_called (route r env (open_session s)).2 = true ∧
   (serve env r s).2 = s ∧
   ∃ k e, calls_made env r s = S k ∧ faults env k = Some e ∧
          ∀ j, (j < k)%nat → faults env j = None) ∧
  ((∀ k, faults env k = None) → is_Some (serve env r s).1).
Proof.
  split.
  - intros Hnone.
    destruct (serve_unanswered env r s Hnone) as [Hcommit Hlast].
    split_and!; [done| |done].
    destruct (serve_cases env r s) as [[_ Hs]|(Hok & _)]; [done|].
    by rewrite Hnone in Hok.
  - intros Hcalm. destruct (serve env r s).1 as [resp|] eqn:Hresp; [by eexists|].
    destruct (serve_unanswered env r s Hresp) as (_ & k & e & _ & Hk & _).
    by rewrite Hcalm in Hk.
Qed.

End Unanswered.

(** Deleting T1 makes four store calls, the last of which is the commit;
    when that one fails no response is sent and T1 stays. *)
Lemma unanswered_only_when_commit_fails_witness :
  let env := failing 3 3 OtherError in
  serve env (DeleteTask t1_id) ann_with_t1 = (None, ann_with_t1) ∧
  calls_made env (DeleteTask t1_id) ann_with_t1 = 4%nat ∧
  commit_called (route (DeleteTask t1_id) env (open_session ann_with_t1)).2 = true ∧
  is_Some (serve (calm 3) (DeleteTask t1_id) ann_with_t1).1.
Proof.
  cbv zeta.
  assert ((serve (failing 3 3 OtherError) (DeleteTask t1_id) ann_with_t1).1 = None)
    as Hnone by (vm_compute; reflexivity).
  destruct (unanswered_only_when_commit_fails (failing 3 3 OtherError)
              (DeleteTask t1_id) ann_with_t1) as [Hthrown _].
  destruct (Hthrown Hnone) as (Hcommit & Hsame & _).
  split_and!.
  - rewrite <- Hsame at 2. rewrite <- Hnone at 1. by destruct (serve _ _ _).
  - vm_compute; reflexivity.
  - exact Hcommit.
  - apply (proj2 (unanswered_only_when_commit_fails (calm 3)
                    (DeleteTask t1_id) ann_with_t1)).
    reflexivity.
Defined.
